(** * OneClickRec core: retry orchestration and process supervision

    A shallow embedding of [src/core/retry_strategy.py] and
    [src/core/process_engine.py], and the properties of the two engines.

    Conventions of the embedding.
    - Python [float] and [datetime] values are idealised as rationals
      ([Q], seconds); rounding, infinities and NaN are outside the model.
      What raises in Python raises in the model: a power that leaves
      the range of [float], and an [int] too large to become one.
    - A Python callable is a function on an explicit world: it takes the
      state of everything outside the engine (clock, random generator, the
      operating system, whatever a callback closes over) and gives back
      either a value or a raised exception, together with the next world.
    - [try/except Exception] catches exactly the exceptions deriving from
      [Exception]; [KeyboardInterrupt], [SystemExit] and task cancellation
      derive from [BaseException] only and pass through it.
    - An object that callbacks can reach and change, such as a monitor
      with its list of observers, lives in the world and is read there
      each time the code reads it.
    - Logging calls are omitted; a [trace] field records, for reasoning
      only, which external calls an engine made and in which order. *)

From Stdlib Require Import ZArith QArith Qpower Qminmax Qabs.
From Stdlib Require Import List String Bool Lia Lqa.
Import ListNotations.

Set Implicit Arguments.

(* ================================================================== *)
(** * Python runtime prelude *)
(* ================================================================== *)

(** The exception classes the two modules distinguish.  The first three
    derive from [BaseException] only. *)
Inductive exception_class : Type :=
| KeyboardInterrupt
| SystemExit
| CancelledError
| MemoryError
| AsyncioTimeoutError
| ZeroDivisionError
| ValueError
| OtherException (name : string).

(** An exception object: its class, [str(e)] and [bool(e)].  An object is
    true unless its class defines [__bool__] or [__len__] otherwise, which
    a class of the caller's may do. *)
Record PyException : Type := mkObject {
  exc_class : exception_class;
  exc_str : string;
  exc_truth : bool
}.

(** [cls(text)] for a class of the standard library: a true object. *)
Definition mkException (cls : exception_class) (text : string)
    : PyException :=
  mkObject cls text true.

(** [isinstance(e, Exception)] *)
Definition is_Exception (e : PyException) : bool :=
  match exc_class e with
  | KeyboardInterrupt | SystemExit | CancelledError => false
  | _ => true
  end.

(** [isinstance(e, asyncio.TimeoutError)] *)
Definition is_TimeoutError (e : PyException) : bool :=
  match exc_class e with
  | AsyncioTimeoutError => true
  | _ => false
  end.

(** A bare [except:] clause. *)
Definition any_exception (e : PyException) : bool := true.

(** How a call ends. *)
Inductive outcome (A : Type) : Type :=
| Returned (a : A)
| Raised (e : PyException).
Arguments Returned {A} a.
Arguments Raised {A} e.

(** Effectful code over a state [S]: the state survives a raise. *)
Definition eff (S A : Type) : Type := S -> outcome A * S.

Definition ret {S A : Type} (a : A) : eff S A :=
  fun s => (Returned a, s).

Definition raise {S A : Type} (e : PyException) : eff S A :=
  fun s => (Raised e, s).

Definition bind {S A B : Type} (m : eff S A) (k : A -> eff S B) : eff S B :=
  fun s =>
    match m s with
    | (Returned a, s') => k a s'
    | (Raised e, s') => (Raised e, s')
    end.

(** [try: body / except <handles> as e: handler e] *)
Definition try_except {S A : Type} (handles : PyException -> bool)
    (body : eff S A) (handler : PyException -> eff S A) : eff S A :=
  fun s =>
    match body s with
    | (Returned a, s') => (Returned a, s')
    | (Raised e, s') => if handles e then handler e s' else (Raised e, s')
    end.

(** [try: body / finally: cleanup] *)
Definition try_finally {S A : Type} (body : eff S A) (cleanup : eff S unit)
    : eff S A :=
  fun s =>
    match body s with
    | (r, s') =>
        match cleanup s' with
        | (Returned _, s'') => (r, s'')
        | (Raised e, s'') => (Raised e, s'')
        end
    end.

Definition gets {S A : Type} (f : S -> A) : eff S A :=
  fun s => (Returned (f s), s).

Definition modify {S : Type} (f : S -> S) : eff S unit :=
  fun s => (Returned tt, f s).

(** A call that cannot raise, such as [datetime.now()]. *)
Definition total {S A : Type} (f : S -> A * S) : eff S A :=
  fun s => let (a, s') := f s in (Returned a, s').

(** A mutable object held in the world [W]: its attributes as they are
    now, and assignment to them. *)
Record reference (W X : Type) : Type := mkReference {
  deref : W -> X;
  assign : X -> W -> W
}.

Declare Scope eff_scope.
Delimit Scope eff_scope with eff.
Notation "x <- m ;; k" := (bind m (fun x => k))
  (at level 61, m at next level, right associativity) : eff_scope.
Notation "m ;; k" := (bind m (fun _ => k))
  (at level 61, right associativity) : eff_scope.

(** How one pass through a loop body ends. *)
Inductive flow (R : Type) : Type :=
| Next
| Break
| Return (r : R).
Arguments Next {R}.
Arguments Break {R}.
Arguments Return {R} r.

(** [for x in l: body x], with [break] and [return]. *)
Fixpoint for_each {S A R : Type} (l : list A) (body : A -> eff S (flow R))
    : eff S (flow R) :=
  match l with
  | [] => ret Next
  | x :: l' =>
      bind (body x) (fun f =>
        match f with
        | Next => for_each l' body
        | Break => ret Break
        | Return r => ret (Return r)
        end)
  end.

(** [range(start, stop)] *)
Definition py_range (start stop : Z) : list Z :=
  map (fun i => (start + Z.of_nat i)%Z) (seq 0 (Z.to_nat (stop - start))).

(** [x < y] on floats *)
Definition Qlt_bool (x y : Q) : bool := negb (Qle_bool y x).

(** [min(a, b)]: the first argument unless the second is smaller. *)
Definition py_min (a b : Q) : Q := if Qlt_bool b a then b else a.

(** [max(a, b)]: the first argument unless the second is larger. *)
Definition py_max (a b : Q) : Q := if Qlt_bool a b then b else a.

(** The least magnitude that rounds to the infinite [float]: results
    from there on are out of range. *)
Definition float_overflow : Q := inject_Z (2 ^ 1024 - 2 ^ 970).

Definition overflows (x : Q) : bool := Qle_bool float_overflow (Qabs x).

(** Whether [x ** n] has a [float] result: the exponent converts to a
    [float] and the power is in range. *)
Definition pow_in_range (x : Q) (n : Z) : bool :=
  negb (overflows (inject_Z n)) && negb (overflows (x ^ n)).

Definition OverflowError : exception_class := OtherException "OverflowError".

(** An [int] operand of [float] arithmetic is converted to a [float]
    first, which raises [OverflowError] when it is too large. *)
Definition py_float {S : Type} (n : Z) : eff S Q :=
  if overflows (inject_Z n)
  then raise (mkException OverflowError
                "int too large to convert to float")
  else ret (inject_Z n).

(** [x ** n] for a [float] base and an [int] exponent.  The exponent is
    converted to a [float] first, which raises [OverflowError] when it is
    too large; a zero base with a negative exponent raises
    [ZeroDivisionError]; a result out of range raises [OverflowError]
    with the text of the C library. *)
Definition py_pow {S : Type} (x : Q) (n : Z) : eff S Q :=
  if overflows (inject_Z n)
  then raise (mkException OverflowError
                "int too large to convert to float")
  else if (n <? 0)%Z && Qeq_bool x 0
  then raise (mkException ZeroDivisionError
                "0.0 cannot be raised to a negative power")
  else if overflows (x ^ n)
  then raise (mkException OverflowError
                "(34, 'Numerical result out of range')")
  else ret (x ^ n)%Q.

(** [int(x)]: truncation towards zero. *)
Definition py_int (x : Q) : Z := Z.quot (Qnum x) (Zpos (Qden x)).

(** Truth value of a [float]: only zero is false. *)
Definition nonzero (t : Q) : bool := negb (Qeq_bool t 0).

(* ================================================================== *)
(** * [core/retry_strategy.py] *)
(* ================================================================== *)

Module retry_strategy.

Local Open Scope eff_scope.

Inductive RetryPolicy : Type :=
| FIXED_DELAY
| EXPONENTIAL_BACKOFF
| LINEAR_BACKOFF
| RANDOM_JITTER
| CUSTOM.

Inductive RetryResult : Type :=
| SUCCESS
| FAILED_ALL_ATTEMPTS
| ABORTED
| TIMEOUT.

Definition RetryResult_eqb (a b : RetryResult) : bool :=
  match a, b with
  | SUCCESS, SUCCESS | FAILED_ALL_ATTEMPTS, FAILED_ALL_ATTEMPTS
  | ABORTED, ABORTED | TIMEOUT, TIMEOUT => true
  | _, _ => false
  end.

(** [RetryAttempt] ([metadata] is never written and is left out). *)
Record RetryAttempt : Type := mkAttempt {
  attempt_number : Z;
  start_time : Q;
  end_time : option Q;
  success : bool;
  error : option string;
  delay_before : Q
}.

(** The interpreter services the module calls, over a world [W]. *)
Record Runtime (W : Type) : Type := mkRuntime {
  datetime_now : W -> Q * W;
  random_random : W -> Q * W;
  asyncio_sleep : Q -> eff W unit;
  time_sleep : Q -> eff W unit;
  float_str : Q -> string
}.

Section Engine.

Context {W : Type}.
Variable rt : Runtime W.

Record RetryConfiguration : Type := mkConfiguration {
  max_attempts : Z;
  policy : RetryPolicy;
  base_delay : Q;
  max_delay : Q;
  backoff_multiplier : Q;
  jitter_factor : Q;
  timeout : option Q;
  custom_delay_func : option (Z -> option PyException -> eff W Q)
}.

(** [RetryConfiguration.__post_init__] *)
Definition post_init (self : RetryConfiguration) : outcome unit :=
  if (max_attempts self <? 1)%Z then
    Raised (mkException ValueError "max_attempts must be at least 1")
  else if Qlt_bool (base_delay self) 0 then
    Raised (mkException ValueError "base_delay must be non-negative")
  else if Qlt_bool (max_delay self) (base_delay self) then
    Raised (mkException ValueError "max_delay must be >= base_delay")
  else Returned tt.

(** A configuration that construction accepts. *)
Definition valid (config : RetryConfiguration) : Prop :=
  post_init config = Returned tt.

(** [DelayCalculator.calculate_delay] *)
Definition calculate_delay (attempt_number : Z) (config : RetryConfiguration)
    (last_error : option PyException) : eff W Q :=
  match policy config, custom_delay_func config with
  | CUSTOM, Some func =>
      try_except is_Exception
        (func attempt_number last_error)
        (fun _ => ret (base_delay config))
  | _, _ =>
      delay <-
        match policy config with
        | FIXED_DELAY => ret (base_delay config)
        | EXPONENTIAL_BACKOFF =>
            p <- py_pow (backoff_multiplier config) (attempt_number - 1) ;;
            ret (base_delay config * p)%Q
        | LINEAR_BACKOFF =>
            n <- py_float attempt_number ;;
            ret (base_delay config * n)%Q
        | RANDOM_JITTER =>
            p <- py_pow (backoff_multiplier config) (attempt_number - 1) ;;
            let base := (base_delay config * p)%Q in
            u <- total (random_random rt) ;;
            let jitter := (base * jitter_factor config * (2 * u - 1))%Q in
            ret (base + jitter)%Q
        | CUSTOM => ret (base_delay config)
        end ;;
      let delay := py_min delay (max_delay config) in
      ret (py_max 0 delay)
  end.

(** The classes [should_retry] never retries by default. *)
Definition non_retryable_errors (e : PyException) : bool :=
  match exc_class e with
  | KeyboardInterrupt | SystemExit | MemoryError => true
  | _ => false
  end.

(** [RetryConditionChecker.should_retry] *)
Definition should_retry (attempt_number : Z) (config : RetryConfiguration)
    (error : PyException)
    (error_checker : option (PyException -> eff W bool)) : eff W bool :=
  if (attempt_number >=? max_attempts config)%Z then ret false
  else
    match error_checker with
    | Some checker =>
        try_except is_Exception (checker error) (fun _ => ret false)
    | None => ret (negb (non_retryable_errors error))
    end.

(** The operation handed to the executor: what
    [asyncio.iscoroutinefunction] says of it, and what running it does. *)
Record Operation (T : Type) : Type := mkOperation {
  iscoroutinefunction : bool;
  invoke : eff W T
}.

(** What an attempt stores in [RetryExecutionResult.value]: the
    operation's result, or the coroutine object a coroutine function
    hands back when it is called without being awaited.  The field
    itself is [None] where the code leaves it at its default; an
    operation may return Python's [None] too, and a caller who reads the
    field cannot tell that [Value] from the default. *)
Inductive produced (T : Type) : Type :=
| Value (v : T)
| CoroutineObject.
Arguments Value {T} v.
Arguments CoroutineObject {T}.

Record RetryExecutionResult (T : Type) : Type := mkResult {
  result : RetryResult;
  value : option (produced T);
  attempts : list RetryAttempt;
  total_duration : Q;
  final_error : option string;
  configuration : option RetryConfiguration
}.

(** [RetryExecutor.stats] *)
Record Stats : Type := mkStats {
  total_executions : Z;
  successful_executions : Z;
  failed_executions : Z;
  total_attempts : Z;
  aborted_executions : Z
}.

(** External calls of one execution, in the order they were made. *)
Inductive Event : Type :=
| AbortChecked (answer : bool)
| TimeoutChecked (elapsed : Q)
| DelayComputed (delay : Q)
| Slept (delay : Q)
| OperationInvoked (attempt_num : Z)
| ErrorChecked (retry : bool).

(** One activation of an [execute_with_retry*] method: the world, the
    executor's [stats], the locals [attempts] and [last_error], and the
    trace. *)
Record Frame : Type := mkFrame {
  world : W;
  stats : Stats;
  loc_attempts : list RetryAttempt;
  loc_last_error : option PyException;
  trace : list Event
}.

Definition enter (w : W) (st : Stats) : Frame :=
  mkFrame w st [] None [].

(** Run a callable of the world inside a frame. *)
Definition call {A : Type} (m : eff W A) : eff Frame A :=
  fun f =>
    match m (world f) with
    | (r, w') =>
        (r, mkFrame w' (stats f) (loc_attempts f) (loc_last_error f) (trace f))
    end.

Definition now : eff Frame Q := call (total (datetime_now rt)).

Definition log (ev : Event) : eff Frame unit :=
  modify (fun f =>
    mkFrame (world f) (stats f) (loc_attempts f) (loc_last_error f)
            (trace f ++ [ev])).

Definition update_stats (g : Stats -> Stats) : eff Frame unit :=
  modify (fun f =>
    mkFrame (world f) (g (stats f)) (loc_attempts f) (loc_last_error f)
            (trace f)).

Definition append_attempt (a : RetryAttempt) : eff Frame unit :=
  modify (fun f =>
    mkFrame (world f) (stats f) (loc_attempts f ++ [a]) (loc_last_error f)
            (trace f)).

Definition set_last_error (e : PyException) : eff Frame unit :=
  modify (fun f =>
    mkFrame (world f) (stats f) (loc_attempts f) (Some e) (trace f)).

Definition incr_total_executions (s : Stats) : Stats :=
  mkStats (total_executions s + 1) (successful_executions s)
          (failed_executions s) (total_attempts s) (aborted_executions s).

Definition incr_successful_executions (s : Stats) : Stats :=
  mkStats (total_executions s) (successful_executions s + 1)
          (failed_executions s) (total_attempts s) (aborted_executions s).

Definition incr_failed_executions (s : Stats) : Stats :=
  mkStats (total_executions s) (successful_executions s)
          (failed_executions s + 1) (total_attempts s) (aborted_executions s).

Definition incr_total_attempts (s : Stats) : Stats :=
  mkStats (total_executions s) (successful_executions s)
          (failed_executions s) (total_attempts s + 1) (aborted_executions s).

Definition incr_aborted_executions (s : Stats) : Stats :=
  mkStats (total_executions s) (successful_executions s)
          (failed_executions s) (total_attempts s) (aborted_executions s + 1).

(** [attempts = []] and [last_error = None] at the top of a method. *)
Definition init_locals : eff Frame unit :=
  modify (fun f => mkFrame (world f) (stats f) [] None (trace f)).

Definition aborted_message : string := "実行が中断されました".

Definition timeout_message (limit : Q) : string :=
  "タイムアウト（" ++ float_str rt limit ++ "秒）".

Definition unknown_error_message : string := "不明なエラー".

Definition unexpected_error_message (e : PyException) : string :=
  "予期しないエラー: " ++ exc_str e.

Section Executor.

Variable T : Type.
Variable operation : Operation T.
Variable config : RetryConfiguration.
Variable error_checker : option (PyException -> eff W bool).

(** The timeout check at the top of an attempt: the elapsed time when
    the deadline has passed. *)
Definition check_timeout (start : Q) : eff Frame (option Q) :=
  match timeout config with
  | Some limit =>
      if nonzero limit then
        t <- now ;;
        let elapsed := (t - start)%Q in
        log (TimeoutChecked elapsed) ;;
        if Qle_bool limit elapsed then ret (Some elapsed) else ret None
      else ret None
  | None => ret None
  end.

Definition timeout_result (elapsed : Q)
    : eff Frame (flow (RetryExecutionResult T)) :=
  atts <- gets loc_attempts ;;
  ret (Return (mkResult TIMEOUT None atts elapsed
                 (option_map timeout_message (timeout config))
                 (Some config))).

(** The delay before an attempt, slept through [sleep]. *)
Definition wait_before (sleep : Q -> eff W unit) (attempt_num : Z)
    : eff Frame Q :=
  if (attempt_num >? 1)%Z then
    last <- gets loc_last_error ;;
    delay <- call (calculate_delay (attempt_num - 1) config last) ;;
    log (DelayComputed delay) ;;
    (if Qlt_bool 0 delay
     then log (Slept delay) ;; call (sleep delay)
     else ret tt) ;;
    ret delay
  else ret 0%Q.

(** The [except Exception as e] branch of one attempt. *)
Definition attempt_failed (attempt_num : Z) (started delay : Q)
    (e : PyException) : eff Frame (flow (RetryExecutionResult T)) :=
  ended <- now ;;
  append_attempt
    (mkAttempt attempt_num started (Some ended) false (Some (exc_str e))
               delay) ;;
  set_last_error e ;;
  if (attempt_num <? max_attempts config)%Z then
    retry <- call (should_retry attempt_num config e error_checker) ;;
    log (ErrorChecked retry) ;;
    if negb retry then ret Break else ret Next
  else ret Next.

(** The success path of one attempt, after the operation returned. *)
Definition attempt_succeeded (attempt_num : Z) (start started delay : Q)
    (r : produced T) : eff Frame (flow (RetryExecutionResult T)) :=
  ended <- now ;;
  append_attempt (mkAttempt attempt_num started (Some ended) true None delay) ;;
  update_stats incr_successful_executions ;;
  t <- now ;;
  atts <- gets loc_attempts ;;
  ret (Return (mkResult SUCCESS (Some r) atts (t - start)%Q None
                 (Some config))).

(** Body of the [for] loop of [execute_with_retry]. *)
Definition async_attempt (abort_checker : option (eff W bool)) (start : Q)
    (attempt_num : Z) : eff Frame (flow (RetryExecutionResult T)) :=
  aborted <-
    match abort_checker with
    | Some checker =>
        answer <- call checker ;;
        log (AbortChecked answer) ;;
        ret answer
    | None => ret false
    end ;;
  if aborted then
    update_stats incr_aborted_executions ;;
    t <- now ;;
    atts <- gets loc_attempts ;;
    ret (Return (mkResult ABORTED None atts (t - start)%Q
                   (Some aborted_message) (Some config)))
  else
    expired <- check_timeout start ;;
    match expired with
    | Some elapsed => timeout_result elapsed
    | None =>
        delay <- wait_before (asyncio_sleep rt) attempt_num ;;
        started <- now ;;
        try_except is_Exception
          (update_stats incr_total_attempts ;;
           log (OperationInvoked attempt_num) ;;
           r <- (if iscoroutinefunction operation
                 then call (invoke operation)
                 else call (invoke operation)) ;;
           attempt_succeeded attempt_num start started delay (Value r))
          (attempt_failed attempt_num started delay)
    end.

(** What follows the loop: every attempt failed.  The text is chosen on
    the truth value of [last_error], so an exception object that is false
    gets the text of no error. *)
Definition all_attempts_failed (start : Q)
    : eff Frame (RetryExecutionResult T) :=
  update_stats incr_failed_executions ;;
  t <- now ;;
  atts <- gets loc_attempts ;;
  last <- gets loc_last_error ;;
  ret (mkResult FAILED_ALL_ATTEMPTS None atts (t - start)%Q
         (Some match last with
               | Some e => if exc_truth e then exc_str e
                           else unknown_error_message
               | None => unknown_error_message
               end)
         (Some config)).

(** The outer [except Exception as e] branch. *)
Definition unexpected_error (start : Q) (e : PyException)
    : eff Frame (RetryExecutionResult T) :=
  update_stats incr_failed_executions ;;
  t <- now ;;
  atts <- gets loc_attempts ;;
  ret (mkResult FAILED_ALL_ATTEMPTS None atts (t - start)%Q
         (Some (unexpected_error_message e)) (Some config)).

Definition after_loop (start : Q) (f : flow (RetryExecutionResult T))
    : eff Frame (RetryExecutionResult T) :=
  match f with
  | Return r => ret r
  | Next | Break => all_attempts_failed start
  end.

(** [RetryExecutor.execute_with_retry] *)
Definition execute_with_retry (abort_checker : option (eff W bool))
    : eff Frame (RetryExecutionResult T) :=
  start <- now ;;
  init_locals ;;
  update_stats incr_total_executions ;;
  try_except is_Exception
    (f <- for_each (py_range 1 (max_attempts config + 1))
                   (async_attempt abort_checker start) ;;
     after_loop start f)
    (unexpected_error start).

(** Body of the [for] loop of [execute_with_retry_sync], written out from
    the method's own text: there is no abort check, the sleep blocks, and
    the operation is called without being awaited. *)
Definition sync_attempt (start : Q) (attempt_num : Z)
    : eff Frame (flow (RetryExecutionResult T)) :=
  expired <-
    match timeout config with
    | Some limit =>
        if nonzero limit then
          t <- now ;;
          let elapsed := (t - start)%Q in
          log (TimeoutChecked elapsed) ;;
          if Qle_bool limit elapsed then ret (Some elapsed) else ret None
        else ret None
    | None => ret None
    end ;;
  match expired with
  | Some elapsed =>
      atts <- gets loc_attempts ;;
      ret (Return (mkResult TIMEOUT None atts elapsed
                     (option_map timeout_message (timeout config))
                     (Some config)))
  | None =>
      delay <-
        (if (attempt_num >? 1)%Z then
           last <- gets loc_last_error ;;
           delay <- call (calculate_delay (attempt_num - 1) config last) ;;
           log (DelayComputed delay) ;;
           (if Qlt_bool 0 delay
            then log (Slept delay) ;; call (time_sleep rt delay)
            else ret tt) ;;
           ret delay
         else ret 0%Q) ;;
      started <- now ;;
      try_except is_Exception
        (update_stats incr_total_attempts ;;
         log (OperationInvoked attempt_num) ;;
         r <- (if iscoroutinefunction operation
               then ret CoroutineObject
               else v <- call (invoke operation) ;; ret (Value v)) ;;
         ended <- now ;;
         append_attempt
           (mkAttempt attempt_num started (Some ended) true None delay) ;;
         update_stats incr_successful_executions ;;
         t <- now ;;
         atts <- gets loc_attempts ;;
         ret (Return (mkResult SUCCESS (Some r) atts (t - start)%Q None
                        (Some config))))
        (fun e =>
           ended <- now ;;
           append_attempt
             (mkAttempt attempt_num started (Some ended) false
                        (Some (exc_str e)) delay) ;;
           set_last_error e ;;
           if (attempt_num <? max_attempts config)%Z then
             retry <- call (should_retry attempt_num config e error_checker) ;;
             log (ErrorChecked retry) ;;
             if negb retry then ret Break else ret Next
           else ret Next)
  end.

(** [RetryExecutor.execute_with_retry_sync] *)
Definition execute_with_retry_sync : eff Frame (RetryExecutionResult T) :=
  start <- now ;;
  init_locals ;;
  update_stats incr_total_executions ;;
  try_except is_Exception
    (f <- for_each (py_range 1 (max_attempts config + 1))
                   (sync_attempt start) ;;
     match f with
     | Return r => ret r
     | Next | Break =>
         update_stats incr_failed_executions ;;
         t <- now ;;
         atts <- gets loc_attempts ;;
         last <- gets loc_last_error ;;
         ret (mkResult FAILED_ALL_ATTEMPTS None atts (t - start)%Q
                (Some match last with
                      | Some e => if exc_truth e then exc_str e
                                  else unknown_error_message
                      | None => unknown_error_message
                      end)
                (Some config))
     end)
    (fun e =>
       update_stats incr_failed_executions ;;
       t <- now ;;
       atts <- gets loc_attempts ;;
       ret (mkResult FAILED_ALL_ATTEMPTS None atts (t - start)%Q
              (Some (unexpected_error_message e)) (Some config))).

End Executor.

End Engine.

Arguments RetryConfiguration W : clear implicits.
Arguments Operation W T : clear implicits.
Arguments RetryExecutionResult W T : clear implicits.
Arguments Frame W : clear implicits.

End retry_strategy.

(* ================================================================== *)
(** * [core/process_engine.py] *)
(* ================================================================== *)

Module process_engine.

Local Open Scope eff_scope.
Local Open Scope string_scope.

Inductive ProcessState : Type :=
| PENDING
| RUNNING
| COMPLETED
| FAILED
| TERMINATED.

Inductive MonitorEventType : Type :=
| STARTED
| STDOUT_LINE
| STDERR_LINE
| PROGRESS
| PROCESS_COMPLETED
| ERROR.

(** [f"proc_{int(time.time() * 1000000)}"] *)
Record SessionId : Type := proc_ { microseconds : Z }.

Definition SessionId_eqb (a b : SessionId) : bool :=
  (microseconds a =? microseconds b)%Z.

Record MonitorEvent : Type := mkEvent {
  event_type : MonitorEventType;
  timestamp : Q;
  event_session_id : SessionId;
  data : list (string * Z)
}.

Record ProcessRequest : Type := mkRequest {
  command : list string;
  working_directory : option string;
  environment : option (list (string * string));
  timeout : option Q
}.

Record ProcessResult : Type := mkProcessResult {
  session_id : SessionId;
  state : ProcessState;
  return_code : option Z;
  stdout : string;
  stderr : string;
  start_time : Q;
  end_time : option Q;
  metadata : list (string * option string)
}.


Section Engine.

Context {P : Type}.

(** An [asyncio.subprocess.Process]: each method acts on the world [P]
    of the operating system.  [wait_for t] is
    [asyncio.wait_for(process.wait(), timeout=t)]; a stream is [None] or
    its [read()] followed by [decode()]. *)
Record Process : Type := mkProcess {
  pid : Z;
  returncode : P -> option Z;
  terminate : eff P unit;
  kill : eff P unit;
  wait : eff P Z;
  wait_for : Q -> eff P Z;
  stdout_stream : option (eff P string);
  stderr_stream : option (eff P string)
}.

(** The three background tasks of a monitor, named after the coroutines
    they run.  They run on the event loop while the engine awaits; what
    they do there is part of how the world moves and is not modelled
    further. *)
Inductive MonitorTask : Type :=
| monitor_stdout
| monitor_stderr
| monitor_process_state.

(** The attributes of a [ProcessMonitor] object.  The object itself is a
    [reference] into the world: an observer may hold it and register or
    unregister observers while an event is being delivered. *)
Record ProcessMonitor : Type := mkMonitor {
  observers : list (MonitorEvent -> eff P unit);
  is_monitoring : bool;
  _monitor_tasks : list MonitorTask
}.

(** A [ProcessMonitor] object. *)
Definition Monitor : Type := reference P ProcessMonitor.

(** What the module asks of the interpreter and the operating system.
    [task_cancel task] is [task.cancel()], made unless the task is
    done.
    [gather tasks] is [await asyncio.gather] on the tasks with
    [return_exceptions=True]: what the tasks raise is collected, so all
    the awaiting coroutine can meet there is its own cancellation, and
    the answer says whether it did.  [maxsize] is [sys.maxsize], the
    length no list exceeds. *)
Record System : Type := mkSystem {
  os_name : string;
  taskkill : Z -> eff P unit;
  os_kill : Z -> eff P unit;
  create_subprocess_exec :
    string -> list string -> option string ->
    option (list (string * string)) -> eff P Process;
  datetime_now : P -> Q * P;
  time_time : P -> Q * P;
  task_cancel : MonitorTask -> P -> P;
  gather : list MonitorTask -> P -> bool * P;
  maxsize : nat
}.

Variable sys : System.

(** [AsyncProcessEngine.stats] *)
Record Stats : Type := mkStats {
  total_executions : Z;
  successful_executions : Z;
  failed_executions : Z;
  active_count : Z
}.

(** Steps taken on a process, in order; kept for reasoning only. *)
Inductive Action : Type :=
| SentTerminate
| SentKill
| OSLevelKill
| MonitoringStarted
| MonitoringStopped.

(** The engine object together with the world it runs in. *)
Record Engine : Type := mkEngine {
  world : P;
  active_processes : list (SessionId * Process);
  stats : Stats;
  actions : list Action
}.

Definition call {A : Type} (m : eff P A) : eff Engine A :=
  fun s =>
    match m (world s) with
    | (r, w') => (r, mkEngine w' (active_processes s) (stats s) (actions s))
    end.

Definition now : eff Engine Q := call (total (datetime_now sys)).

Definition log (a : Action) : eff Engine unit :=
  modify (fun s =>
    mkEngine (world s) (active_processes s) (stats s) (actions s ++ [a])).

Definition update_stats (g : Stats -> Stats) : eff Engine unit :=
  modify (fun s =>
    mkEngine (world s) (active_processes s) (g (stats s)) (actions s)).

Definition set_active (d : list (SessionId * Process)) : eff Engine unit :=
  modify (fun s => mkEngine (world s) d (stats s) (actions s)).

(** [process.returncode] *)
Definition read_returncode (process : Process) : eff Engine (option Z) :=
  gets (fun s => returncode process (world s)).

(** [d[k] = v], [k in d] and [del d[k]] on the registry. *)
Definition dict_del (k : SessionId) (d : list (SessionId * Process))
    : list (SessionId * Process) :=
  filter (fun kv => negb (SessionId_eqb (fst kv) k)) d.

Definition dict_set (k : SessionId) (v : Process)
    (d : list (SessionId * Process)) : list (SessionId * Process) :=
  dict_del k d ++ [(k, v)].

Definition dict_mem (k : SessionId) (d : list (SessionId * Process)) : bool :=
  existsb (fun kv => SessionId_eqb (fst kv) k) d.

Definition with_active_count (delta : Z) (s : Stats) : Stats :=
  mkStats (total_executions s) (successful_executions s)
          (failed_executions s) (active_count s + delta).

Definition incr_total_executions (s : Stats) : Stats :=
  mkStats (total_executions s + 1) (successful_executions s)
          (failed_executions s) (active_count s).

Definition incr_successful_executions (s : Stats) : Stats :=
  mkStats (total_executions s) (successful_executions s + 1)
          (failed_executions s) (active_count s).

Definition incr_failed_executions (s : Stats) : Stats :=
  mkStats (total_executions s) (successful_executions s)
          (failed_executions s + 1) (active_count s).

(** [self.<attribute> = ...] on a monitor. *)
Definition update (self : Monitor)
    (g : ProcessMonitor -> ProcessMonitor) : eff Engine unit :=
  call (modify (fun w => assign self (g (deref self w)) w)).

Definition set_is_monitoring (b : bool) (m : ProcessMonitor)
    : ProcessMonitor :=
  mkMonitor (observers m) b (_monitor_tasks m).

Definition set_monitor_tasks (tasks : list MonitorTask) (m : ProcessMonitor)
    : ProcessMonitor :=
  mkMonitor (observers m) (is_monitoring m) tasks.

(** [for observer in self.observers], from position [i] on: the list
    iterator holds a position in the list and reads the list as it is
    when the next observer is due, so what an observer registers or
    unregisters meanwhile moves what is delivered next.  An observer's
    [Exception] is swallowed.  [steps] bounds the positions: no list is
    longer than [maxsize]. *)
Fixpoint deliver (steps : nat) (self : Monitor)
    (i : nat) (event : MonitorEvent) : eff Engine unit :=
  match steps with
  | O => ret tt
  | S steps' =>
      obs <- gets (fun s => observers (deref self (world s))) ;;
      match nth_error obs i with
      | None => ret tt
      | Some observer =>
          try_except is_Exception (call (observer event))
            (fun _ => ret tt) ;;
          deliver steps' self (S i) event
      end
  end.

(** [ProcessMonitor._notify_observers] *)
Definition notify_observers (self : Monitor)
    (event : MonitorEvent) : eff Engine unit :=
  deliver (maxsize sys) self 0 event.

(** [ProcessMonitor.start_monitoring]: the three tasks are created last,
    and kept in [_monitor_tasks]. *)
Definition start_monitoring (self : Monitor)
    (sid : SessionId) (process : Process) : eff Engine unit :=
  update self (set_is_monitoring true) ;;
  t <- now ;;
  notify_observers self (mkEvent STARTED t sid [("pid", pid process)]) ;;
  update self
    (set_monitor_tasks
       [monitor_stdout; monitor_stderr; monitor_process_state]) ;;
  log MonitoringStarted.

Definition cancelled_error : PyException := mkException CancelledError "".

(** [ProcessMonitor.stop_monitoring]: the tasks are cancelled and, if
    there are any, awaited; a cancellation that reaches the caller while
    it waits there is raised, and [_monitor_tasks] is then not
    cleared. *)
Definition stop_monitoring (self : Monitor)
    : eff Engine unit :=
  log MonitoringStopped ;;
  update self (set_is_monitoring false) ;;
  tasks <- gets (fun s => _monitor_tasks (deref self (world s))) ;;
  call (modify (fun w => fold_left (fun w task => task_cancel sys task w)
                                   tasks w)) ;;
  match tasks with
  | [] => ret tt
  | _ :: _ =>
      interrupted <- call (total (gather sys tasks)) ;;
      if interrupted : bool then raise cancelled_error else ret tt
  end ;;
  update self (set_monitor_tasks []).

(** [for monitor in monitors: await f(monitor)] *)
Fixpoint for_monitors (monitors : list Monitor)
    (f : Monitor -> eff Engine unit) : eff Engine unit :=
  match monitors with
  | [] => ret tt
  | monitor :: rest => f monitor ;; for_monitors rest f
  end.

(** [ProcessTerminator.terminate_gracefully] *)
Definition terminate_gracefully (process : Process)
    (timeout_term timeout_kill : Q) : eff Engine bool :=
  rc <- read_returncode process ;;
  match rc with
  | Some _ => ret true
  | None =>
      try_except is_Exception
        (log SentTerminate ;;
         call (terminate process) ;;
         exited <- try_except is_TimeoutError
                     (call (wait_for process timeout_term) ;; ret true)
                     (fun _ => ret false) ;;
         if exited : bool then ret true
         else
           log SentKill ;;
           call (kill process) ;;
           exited <- try_except is_TimeoutError
                       (call (wait_for process timeout_kill) ;; ret true)
                       (fun _ => ret false) ;;
           if exited : bool then ret true
           else
             try_except any_exception
               (log OSLevelKill ;;
                (if String.eqb (os_name sys) "nt"
                 then call (taskkill sys (pid process))
                 else call (os_kill sys (pid process))) ;;
                ret true)
               (fun _ => ret false))
        (fun _ => ret false)
  end.

(** [AsyncProcessEngine._generate_session_id] *)
Definition _generate_session_id : eff Engine SessionId :=
  t <- call (total (time_time sys)) ;;
  ret (proc_ (py_int (t * 1000000)%Q)).

(** [AsyncProcessEngine._start_process]: unpacking an empty command
    leaves [create_subprocess_exec] without its program argument. *)
Definition _start_process (request : ProcessRequest) : eff Engine Process :=
  match command request with
  | [] =>
      raise (mkException (OtherException "TypeError")
               "create_subprocess_exec() missing 1 required positional argument: 'program'")
  | program :: args =>
      call (create_subprocess_exec sys program args
              (working_directory request) (environment request))
  end.

(** Reading one captured stream. *)
Definition read_stream (stream : option (eff P string)) : eff Engine string :=
  match stream with
  | Some read => call read
  | None => ret ""
  end.

(** The block that collects [stdout] and [stderr]: a bare [except]
    leaves whatever was not read yet empty. *)
Definition collect_output (process : Process) : eff Engine (string * string) :=
  out <- try_except any_exception
           (s <- read_stream (stdout_stream process) ;; ret (Some s))
           (fun _ => ret None) ;;
  match out with
  | None => ret ("", "")
  | Some s =>
      err <- try_except any_exception
               (read_stream (stderr_stream process))
               (fun _ => ret "") ;;
      ret (s, err)
  end.

Definition monitors_or_empty
    (monitors : option (list Monitor))
    : list Monitor :=
  match monitors with
  | Some (m :: ms) => m :: ms
  | _ => []
  end.

(** The final block of [execute_process]: drop the registry entry. *)
Definition unregister (sid : SessionId) : eff Engine unit :=
  d <- gets active_processes ;;
  if dict_mem sid d then
    set_active (dict_del sid d) ;;
    update_stats (with_active_count (-1))
  else ret tt.

(** The body of the [try] block of [execute_process]. *)
Definition supervise (sid : SessionId) (started : Q)
    (request : ProcessRequest) (monitors : option (list Monitor))
    : eff Engine ProcessResult :=
  process <- _start_process request ;;
  d <- gets active_processes ;;
  set_active (dict_set sid process d) ;;
  update_stats (with_active_count 1) ;;
  let monitors := monitors_or_empty monitors in
  for_monitors monitors
    (fun monitor => start_monitoring monitor sid process) ;;
  try_except is_TimeoutError
    (match timeout request with
     | Some limit =>
         if nonzero limit
         then call (wait_for process limit) ;; ret tt
         else call (wait process) ;; ret tt
     | None => call (wait process) ;; ret tt
     end)
    (fun _ => terminate_gracefully process 5 3 ;; ret tt) ;;
  output <- collect_output process ;;
  for_monitors monitors stop_monitoring ;;
  ended <- now ;;
  rc <- read_returncode process ;;
  let st := match rc with Some 0%Z => COMPLETED | _ => FAILED end in
  update_stats match st with
               | COMPLETED => incr_successful_executions
               | _ => incr_failed_executions
               end ;;
  ret (mkProcessResult sid st rc (fst output) (snd output) started
         (Some ended)
         [("command", Some (String.concat " " (command request)));
          ("working_directory", working_directory request)]).

(** The [except Exception as e] block of [execute_process]. *)
Definition report_failure (sid : SessionId) (started : Q)
    (monitors : option (list Monitor)) (e : PyException)
    : eff Engine ProcessResult :=
  update_stats incr_failed_executions ;;
  for_monitors (monitors_or_empty monitors) stop_monitoring ;;
  ended <- now ;;
  ret (mkProcessResult sid FAILED None "" (exc_str e) started
         (Some ended) [("exception", Some (exc_str e))]).

(** [AsyncProcessEngine.execute_process] (the semaphore admits the call
    at once: one execution is modelled). *)
Definition execute_process (request : ProcessRequest)
    (monitors : option (list Monitor)) : eff Engine ProcessResult :=
  sid <- _generate_session_id ;;
  started <- now ;;
  update_stats incr_total_executions ;;
  try_finally
    (try_except is_Exception
       (supervise sid started request monitors)
       (report_failure sid started monitors))
    (unregister sid).

End Engine.

Arguments Process P : clear implicits.
Arguments System P : clear implicits.
Arguments ProcessMonitor P : clear implicits.
Arguments Monitor P : clear implicits.
Arguments Engine P : clear implicits.

End process_engine.

(* ================================================================== *)
(** * Vocabulary of the properties *)
(* ================================================================== *)

Module retry_properties.

Import retry_strategy.

(** Whether [calculate_delay] takes its custom branch. *)
Definition takes_custom_branch {W : Type} (config : RetryConfiguration W)
    : bool :=
  match policy config, custom_delay_func config with
  | CUSTOM, Some _ => true
  | _, _ => false
  end.

(** The exponential delay after attempt [n], before any clamping. *)
Definition raw_exponential {W : Type} (config : RetryConfiguration W) (n : Z)
    : Q :=
  (base_delay config * backoff_multiplier config ^ (n - 1))%Q.

(** [i] attempts are recorded, numbered [1..i], and all of them failed. *)
Definition failed_so_far (i : nat) (atts : list RetryAttempt) : Prop :=
  Forall (fun a => success a = false) atts /\
  map attempt_number atts = py_range 1 (Z.of_nat i + 1).

(** The shape the outcome and the attempt list of a result must have:
    success exactly when the last attempt succeeded, and attempts
    numbered [1..k] in order. *)
Definition shape (res : RetryResult) (atts : list RetryAttempt) : Prop :=
  (res = SUCCESS <-> exists l a, atts = l ++ [a] /\ success a = true) /\
  map attempt_number atts = py_range 1 (Z.of_nat (List.length atts) + 1).

Definition well_formed {W T : Type} (r : RetryExecutionResult W T) : Prop :=
  shape (result r) (attempts r).

(** What one pass of the loop leaves behind, as far as attempts go. *)
Definition attempts_post {W T : Type}
    (o : outcome (flow (RetryExecutionResult W T))) (f : Frame W) : Prop :=
  match o with
  | Returned (Return r) => well_formed r
  | _ => exists i, failed_so_far i (loc_attempts f)
  end.

(** No deadline check was made. *)
Definition no_timeout_check (tr : list Event) : Prop :=
  forall elapsed, ~ In (TimeoutChecked elapsed) tr.

Definition never_timeout_post {W T : Type}
    (o : outcome (flow (RetryExecutionResult W T))) (f : Frame W) : Prop :=
  match o with
  | Returned (Return r) => result r <> TIMEOUT /\ no_timeout_check (trace f)
  | _ => no_timeout_check (trace f)
  end.

(** Reading a trace. *)
Definition collect {A : Type} (pick : Event -> option A) (tr : list Event)
    : list A :=
  flat_map (fun ev => match pick ev with Some a => [a] | None => [] end) tr.

Definition abort_answers : list Event -> list bool :=
  collect (fun ev => match ev with AbortChecked b => Some b | _ => None end).

Definition invoked : list Event -> list Z :=
  collect (fun ev => match ev with OperationInvoked k => Some k | _ => None end).

Definition delays : list Event -> list Q :=
  collect (fun ev => match ev with DelayComputed d => Some d | _ => None end).

Definition sleeps : list Event -> list Q :=
  collect (fun ev => match ev with Slept d => Some d | _ => None end).

Definition timeout_checks : list Event -> list Q :=
  collect (fun ev => match ev with TimeoutChecked t => Some t | _ => None end).

(** The deadline check at the top of an attempt finds time left: from
    the world [w] it leaves [w'], having read the elapsed times
    [checks] (one with a deadline configured, none without). *)
Definition deadline_left {W : Type} (rt : Runtime W)
    (config : RetryConfiguration W) (start : Q) (w w' : W)
    (checks : list Q) : Prop :=
  match timeout config with
  | Some limit =>
      if nonzero limit
      then exists t, datetime_now rt w = (t, w') /\
                     checks = [(t - start)%Q] /\ (t - start < limit)%Q
      else w' = w /\ checks = []
  | None => w' = w /\ checks = []
  end.

(** The state of an execution at the boundary before attempt [i + 1],
    when every abort check so far answered false. *)
Record at_boundary (i : nat) (atts : list RetryAttempt) (tr : list Event)
    : Prop := mkBoundary {
  b_answers : abort_answers tr = repeat false i;
  b_invoked : invoked tr = py_range 1 (Z.of_nat i + 1);
  b_attempts : List.length atts = i;
  b_delays : List.length (delays tr) = pred i;
  b_sleeps : (List.length (sleeps tr) <= pred i)%nat;
  b_timeouts : (List.length (timeout_checks tr) <= i)%nat
}.

(** What one pass of the loop leaves behind, as far as abort checks go:
    an abort is returned right after a check that answered true; anything
    else has seen only checks that answered false. *)
Definition abort_post {W T : Type}
    (o : outcome (flow (RetryExecutionResult W T))) (f : Frame W) : Prop :=
  match o with
  | Returned (Return r) =>
      (result r = ABORTED /\
       exists i pre, trace f = pre ++ [AbortChecked true] /\
                     at_boundary i (attempts r) pre) \/
      (result r <> ABORTED /\
       exists n, abort_answers (trace f) = repeat false n)
  | _ => exists n, abort_answers (trace f) = repeat false n
  end.

End retry_properties.

Module process_properties.

Import process_engine.

(** The state after the external calls moved the world to [w] and the
    steps [done] were taken. *)
Definition advanced {P : Type} (s : Engine P) (w : P) (done : list Action)
    : Engine P :=
  mkEngine w (active_processes s) (stats s) (actions s ++ done).


(** The last-resort kill the platform offers. *)
Definition os_level_kill {P : Type} (sys : System P) (process : Process P)
    : eff P unit :=
  if String.eqb (os_name sys) "nt"
  then taskkill sys (pid process)
  else os_kill sys (pid process).

End process_properties.

(* ================================================================== *)
(** * Concrete inputs *)
(* ================================================================== *)

Module retry_scenarios.

Import retry_strategy.

(** A world with nothing in it: the clock stands still, the random
    generator always draws one half, sleeping returns at once. *)
Definition still_runtime : Runtime unit :=
  mkRuntime (fun w => (0%Q, w)) (fun w => ((1#2)%Q, w))
            (fun _ => ret tt) (fun _ => ret tt) (fun _ => "0"%string).

(** The same services over a world that counts abort checks. *)
Definition counting_runtime : Runtime nat :=
  mkRuntime (fun w => (0%Q, w)) (fun w => ((1#2)%Q, w))
            (fun _ => ret tt) (fun _ => ret tt) (fun _ => "0"%string).

(** A world that is a clock: every reading is ten seconds after the
    one before. *)
Definition ticking_runtime : Runtime nat :=
  mkRuntime (fun n => (inject_Z (10 * Z.of_nat n), S n))
            (fun w => ((1#2)%Q, w))
            (fun _ => ret tt) (fun _ => ret tt) (fun _ => "5.0"%string).

(** [RetryConfigurationFactory.create_default] *)
Definition create_default {W : Type} : RetryConfiguration W :=
  mkConfiguration 3 EXPONENTIAL_BACKOFF 1 60 2 (1#10) None None.

(** A custom delay function that asks for 100 seconds under a 60 second
    [max_delay]. *)
Definition overlong_custom_config : RetryConfiguration unit :=
  mkConfiguration 3 CUSTOM 1 60 2 (1#10) None
    (Some (fun _ _ => ret 100%Q)).

(** A custom delay function that returns a negative number. *)
Definition negative_custom_config : RetryConfiguration unit :=
  mkConfiguration 3 CUSTOM 1 60 2 (1#10) None
    (Some (fun _ _ => ret (-5)%Q)).

(** Exponential backoff with a negative multiplier: construction checks
    [max_attempts], [base_delay] and [max_delay] only. *)
Definition negative_multiplier_config : RetryConfiguration unit :=
  mkConfiguration 3 EXPONENTIAL_BACKOFF 1 60 (-2) (1#10) None None.

(** [timeout=0.0] *)
Definition zero_timeout_config : RetryConfiguration unit :=
  mkConfiguration 3 FIXED_DELAY 1 60 2 (1#10) (Some 0%Q) None.

(** A deadline of five seconds. *)
Definition five_second_config : RetryConfiguration nat :=
  mkConfiguration 3 FIXED_DELAY 1 60 2 (1#10) (Some 5%Q) None.

(** An operation that returns 7 and leaves the clock alone. *)
Definition quick_operation : Operation nat nat :=
  mkOperation false (ret 7%nat).

(** An abort checker that says yes and leaves the clock alone. *)
Definition abort_now : eff nat bool := ret true.

Definition fresh_stats : Stats := mkStats 0 0 0 0 0.

Definition connection_reset : PyException :=
  mkException (OtherException "ConnectionResetError") "connection reset".

(** An error checker that refuses every error. *)
Definition refusing_checker : PyException -> eff unit bool :=
  fun _ => ret false.

(** An ordinary function that returns 7. *)
Definition succeeding_operation : Operation unit nat :=
  mkOperation false (ret 7%nat).

(** An ordinary function that always fails. *)
Definition failing_operation : Operation nat nat :=
  mkOperation false (raise connection_reset).

(** An operation that fails twice and then returns 7; the world counts
    its calls. *)
Definition third_time_lucky : Operation nat nat :=
  mkOperation false
    (fun n => if (n <? 2)%nat then (Raised connection_reset, S n)
              else (Returned 7%nat, S n)).

(** An abort checker that says yes at once. *)
Definition always_abort : eff unit bool := ret true.

(** An abort checker that says no the first time and yes from then on. *)
Definition abort_on_second_check : eff nat bool :=
  fun n => (Returned (1 <=? n)%nat, S n).

(** What a finished call gave back: its variant and its attempt count. *)
Definition summary {W T : Type}
    (run : outcome (RetryExecutionResult W T) * Frame W)
    : option (RetryResult * nat) :=
  match fst run with
  | Returned r => Some (result r, List.length (attempts r))
  | Raised _ => None
  end.

End retry_scenarios.

Module process_scenarios.

Import process_engine.
Local Open Scope string_scope.

Definition no_such_process : PyException :=
  mkException (OtherException "ProcessLookupError") "no such process".

Definition permission_denied : PyException :=
  mkException (OtherException "PermissionError") "operation not permitted".

Definition timed_out : PyException :=
  mkException AsyncioTimeoutError "".

Definition cancelled : PyException :=
  mkException CancelledError "".

Definition file_not_found : PyException :=
  mkException (OtherException "FileNotFoundError")
              "No such file or directory: 'streamlink'".

(** A process that is gone by the time it is signalled. *)
Definition vanished_process : Process unit :=
  mkProcess 4242 (fun _ => None) (raise no_such_process) (ret tt)
            (ret 0%Z) (fun _ => ret 0%Z) None None.

(** A process whose waiter breaks after the graceful signal. *)
Definition unwaitable_process : Process unit :=
  mkProcess 4242 (fun _ => None) (ret tt) (ret tt)
            (raise no_such_process) (fun _ => raise no_such_process)
            None None.

(** A process that ignores the graceful signal and cannot be killed. *)
Definition protected_process : Process unit :=
  mkProcess 4242 (fun _ => None) (ret tt) (raise permission_denied)
            (raise timed_out) (fun _ => raise timed_out) None None.

(** A process that ignores both signals. *)
Definition immortal_process : Process unit :=
  mkProcess 4242 (fun _ => None) (ret tt) (ret tt)
            (raise timed_out) (fun _ => raise timed_out) None None.

(** A process whose waiter is cancelled. *)
Definition awaited_process : Process unit :=
  mkProcess 4242 (fun _ => None) (ret tt) (ret tt)
            (raise cancelled) (fun _ => raise cancelled) None None.

(** A Unix system on which the last-resort kill fails too. *)
Definition posix : System unit :=
  mkSystem "posix" (fun _ => ret tt) (fun _ => raise no_such_process)
           (fun _ _ _ _ => ret awaited_process)
           (fun w => (0%Q, w)) (fun w => (0%Q, w))
           (fun _ w => w) (fun _ w => (false, w)) 8.

(** A system on which the executable is missing. *)
Definition bare_system : System unit :=
  mkSystem "posix" (fun _ => ret tt) (fun _ => ret tt)
           (fun _ _ _ _ => raise file_not_found)
           (fun w => (0%Q, w)) (fun w => (0%Q, w))
           (fun _ w => w) (fun _ w => (false, w)) 8.

Definition idle : Engine unit := mkEngine tt [] (mkStats 0 0 0 0) [].

Definition record_request : ProcessRequest :=
  mkRequest ["streamlink"; "--output"; "out.ts"] None None None.

End process_scenarios.

(* ================================================================== *)
(** * The rest of the two modules, and their caller *)
(* ================================================================== *)

Module retry_conveniences.

Import retry_strategy retry_scenarios.
Local Open Scope string_scope.

(** [RetryAttempt.duration] *)
Definition duration (self : RetryAttempt) : option Q :=
  match end_time self with
  | Some ended => Some (ended - start_time self)%Q
  | None => None
  end.

(** [RetryExecutionResult.attempt_count] *)
Definition attempt_count {W T : Type} (self : RetryExecutionResult W T)
    : nat :=
  List.length (attempts self).

(** [RetryExecutionResult.success] *)
Definition succeeded {W T : Type} (self : RetryExecutionResult W T) : bool :=
  RetryResult_eqb (result self) SUCCESS.

(** [sum(xs)] *)
Definition py_sum (xs : list Q) : Q := fold_left Qplus xs 0%Q.

(** [RetryExecutionResult.average_attempt_duration] *)
Definition average_attempt_duration {W T : Type}
    (self : RetryExecutionResult W T) : option Q :=
  let durations :=
    flat_map (fun attempt => match duration attempt with
                             | Some d => [d]
                             | None => []
                             end) (attempts self) in
  match durations with
  | [] => None
  | _ :: _ =>
      Some (py_sum durations / inject_Z (Z.of_nat (List.length durations)))%Q
  end.

(** What [RetryExecutor.get_stats] hands back: a copy of the counters
    and the two rates. *)
Record StatsReport : Type := mkReport {
  counters : Stats;
  success_rate : Q;
  average_attempts : Q
}.

(** [RetryExecutor.get_stats] *)
Definition get_stats (self_stats : Stats) : StatsReport :=
  if (total_executions self_stats >? 0)%Z then
    mkReport self_stats
      (inject_Z (successful_executions self_stats)
       / inject_Z (total_executions self_stats))%Q
      (inject_Z (total_attempts self_stats)
       / inject_Z (total_executions self_stats))%Q
  else mkReport self_stats 0 0.

(** [RetryExecutor.reset_stats], and the counters of a new executor. *)
Definition reset_stats : Stats := mkStats 0 0 0 0 0.

(** [raise Exception(result.final_error)] *)
Definition exhausted {W T : Type} (r : RetryExecutionResult W T)
    : PyException :=
  mkException (OtherException "Exception")
    match final_error r with
    | Some text => text
    | None => "None"
    end.

(** [config or RetryConfigurationFactory.create_default()] *)
Definition config_or_default {W : Type}
    (config : option (RetryConfiguration W)) : RetryConfiguration W :=
  match config with
  | Some c => c
  | None => create_default
  end.

(** [retry_async]: a new executor runs the operation; the value comes
    back on success, an [Exception] carrying [final_error] otherwise. *)
Definition retry_async {W T : Type} (rt : Runtime W)
    (operation : Operation W T) (config : option (RetryConfiguration W))
    (error_checker : option (PyException -> eff W bool))
    : eff W (option (produced T)) :=
  fun w =>
    match execute_with_retry rt operation (config_or_default config)
            error_checker None (enter w reset_stats) with
    | (Returned r, f) =>
        if succeeded r then (Returned (value r), world f)
        else (Raised (exhausted r), world f)
    | (Raised e, f) => (Raised e, world f)
    end.

(** [retry_sync] *)
Definition retry_sync {W T : Type} (rt : Runtime W)
    (operation : Operation W T) (config : option (RetryConfiguration W))
    (error_checker : option (PyException -> eff W bool))
    : eff W (option (produced T)) :=
  fun w =>
    match execute_with_retry_sync rt operation (config_or_default config)
            error_checker (enter w reset_stats) with
    | (Returned r, f) =>
        if succeeded r then (Returned (value r), world f)
        else (Raised (exhausted r), world f)
    | (Raised e, f) => (Raised e, world f)
    end.

Section CommonErrorCheckers.

(** [isinstance(error, cls)] for a class given by name, and [str.lower];
    the class hierarchy and the case tables are the interpreter's. *)
Variable isinstance : PyException -> string -> bool.
Variable lower : string -> string.

(** [isinstance(error, (cls1, cls2, ...))] *)
Definition isinstance_any (error : PyException) (classes : list string)
    : bool :=
  existsb (isinstance error) classes.

(** [keyword in text] *)
Definition contains (keyword text : string) : bool :=
  match index 0 keyword text with
  | Some _ => true
  | None => false
  end.

(** [CommonErrorCheckers.network_errors] *)
Definition network_errors (error : PyException) : bool :=
  if isinstance_any error ["ConnectionError"; "TimeoutError"; "OSError"]
  then true
  else
    let error_str := lower (exc_str error) in
    existsb (fun keyword => contains keyword error_str)
      ["connection"; "network"; "timeout"; "unreachable";
       "dns"; "socket"; "refused"; "reset"].

(** [CommonErrorCheckers.file_operation_errors] *)
Definition file_operation_errors (error : PyException) : bool :=
  if isinstance_any error
       ["PermissionError"; "FileNotFoundError"; "IsADirectoryError";
        "OSError"]
  then true
  else
    let error_str := lower (exc_str error) in
    existsb (fun keyword => contains keyword error_str)
      ["permission denied"; "file not found"; "directory";
       "disk"; "space"; "access"].

(** [CommonErrorCheckers.temporary_errors] *)
Definition temporary_errors (error : PyException) : bool :=
  network_errors error
  || isinstance_any error ["TimeoutError"; "ConnectionError"].

(** [CommonErrorCheckers.never_retry] *)
Definition never_retry (error : PyException) : bool :=
  negb (isinstance_any error
          ["KeyboardInterrupt"; "SystemExit"; "MemoryError"; "ValueError";
           "TypeError"]).

End CommonErrorCheckers.

End retry_conveniences.

Module process_registry.

Import process_engine.
Local Open Scope eff_scope.

Section Registry.

Context {P : Type}.
Variable sys : System P.


(** [ProcessResult.duration] *)
Definition duration (self : ProcessResult) : option Q :=
  match end_time self with
  | Some ended => Some (ended - start_time self)%Q
  | None => None
  end.


(** [AsyncProcessEngine.get_active_sessions] *)
Definition get_active_sessions : eff (Engine P) (list SessionId) :=
  gets (fun s => map fst (active_processes s)).

(** [AsyncProcessEngine.get_stats] *)
Definition get_stats : eff (Engine P) Stats := gets (@stats P).

(** [x == y] on observers: callables compare by identity. *)
Variable same : (MonitorEvent -> eff P unit) ->
                (MonitorEvent -> eff P unit) -> bool.

(** [ProcessMonitor.add_observer] *)
Definition add_observer (self : ProcessMonitor P)
    (observer : MonitorEvent -> eff P unit) : ProcessMonitor P :=
  mkMonitor (observers self ++ [observer]) (is_monitoring self)
            (_monitor_tasks self).

(** [list.remove(x)]: the first element equal to [x] goes. *)
Fixpoint list_remove (x : MonitorEvent -> eff P unit)
    (l : list (MonitorEvent -> eff P unit))
    : list (MonitorEvent -> eff P unit) :=
  match l with
  | [] => []
  | y :: rest => if same y x then rest else y :: list_remove x rest
  end.

(** [ProcessMonitor.remove_observer] *)
Definition remove_observer (self : ProcessMonitor P)
    (observer : MonitorEvent -> eff P unit) : ProcessMonitor P :=
  if existsb (fun y => same y observer) (observers self)
  then mkMonitor (list_remove observer (observers self))
                 (is_monitoring self) (_monitor_tasks self)
  else self.

End Registry.

End process_registry.


Module retry_accounting.

Import retry_strategy retry_properties.

(** How the counters moved since [before]. *)
Record moved (before after : Stats)
    (d_total d_success d_failed d_attempts d_aborted : Z) : Prop := mkMoved {
  m_total : total_executions after = (total_executions before + d_total)%Z;
  m_success :
    successful_executions after
    = (successful_executions before + d_success)%Z;
  m_failed : failed_executions after = (failed_executions before + d_failed)%Z;
  m_attempts : total_attempts after = (total_attempts before + d_attempts)%Z;
  m_aborted :
    aborted_executions after = (aborted_executions before + d_aborted)%Z
}.

(** Counters an executor can have reached. *)
Definition consistent (s : Stats) : Prop :=
  (0 <= successful_executions s)%Z /\ (0 <= failed_executions s)%Z /\
  (0 <= aborted_executions s)%Z /\ (0 <= total_attempts s)%Z /\
  (successful_executions s + failed_executions s + aborted_executions s
   <= total_executions s)%Z.

(** What [should_retry] answered, in order. *)
Definition retry_answers : list Event -> list bool :=
  collect (fun ev => match ev with ErrorChecked b => Some b | _ => None end).

(** A finished attempt as the executors record it: it has an end time,
    and an error text exactly when it failed. *)
Definition recorded (a : RetryAttempt) : Prop :=
  end_time a <> None /\ (success a = true <-> error a = None).

Section Summary.

Context {W T : Type}.
Variable rt : Runtime W.
Variable operation : Operation W T.
Variable config : RetryConfiguration W.

(** Where the delay recorded for attempt [k] comes from. *)
Definition delay_origin (k : Z) (last : option PyException) (d : Q) : Prop :=
  ((k <= 1)%Z /\ d = 0%Q) \/
  ((1 < k)%Z /\
   exists w w', calculate_delay rt (k - 1) config last w = (Returned d, w')).

(** Where a produced value comes from: a call of the operation that
    returned, or, in the synchronous method only, a coroutine function
    that was called and not awaited. *)
Definition value_origin (awaited : bool) (p : produced T) : Prop :=
  if iscoroutinefunction operation && negb awaited
  then p = @CoroutineObject T
  else exists v w w',
         p = Value v /\ invoke operation w = (Returned v, w').

(** Where a recorded failure comes from. *)
Definition failure_origin (e : PyException) : Prop :=
  is_Exception e = true /\
  exists w w', invoke operation w = (Raised e, w').

(** One pass made no deadline check. *)
Definition not_checked (f f' : Frame W) : Prop :=
  timeout_checks (trace f') = timeout_checks (trace f).

(** Under a deadline, one pass made one check, and it found time left. *)
Definition checked_once (f f' : Frame W) : Prop :=
  forall limit, timeout config = Some limit -> nonzero limit = true ->
    exists elapsed,
      timeout_checks (trace f') = timeout_checks (trace f) ++ [elapsed] /\
      (elapsed < limit)%Q.

(** Under a deadline, every check so far found time left, and there was
    one for each of the [n] attempts made. *)
Definition in_time (tr : list Event) (n : nat) : Prop :=
  forall limit, timeout config = Some limit -> nonzero limit = true ->
    Forall (fun t => (t < limit)%Q) (timeout_checks tr) /\
    (n <= List.length (timeout_checks tr))%nat.

(** What one pass through the loop does to the attempts, the last
    error, the counters and the invocations. *)
Definition pass_summary (awaited : bool) (k : Z) (f : Frame W)
    (o : outcome (flow (RetryExecutionResult W T))) (f' : Frame W) : Prop :=
  match o with
  | Raised e =>
      is_Exception e = true ->
      loc_attempts f' = loc_attempts f /\
      loc_last_error f' = loc_last_error f /\
      stats f' = stats f /\
      invoked (trace f') = invoked (trace f) /\
      retry_answers (trace f') = retry_answers (trace f) /\
      (not_checked f f' \/ checked_once f f')
  | Returned (Return r) =>
      retry_answers (trace f') = retry_answers (trace f) /\
      ((awaited = true /\ result r = ABORTED /\ attempts r = loc_attempts f /\
        value r = None /\ final_error r = Some aborted_message /\
        stats f' = incr_aborted_executions (stats f) /\
        invoked (trace f') = invoked (trace f) /\
        not_checked f f') \/
       (result r = TIMEOUT /\ attempts r = loc_attempts f /\
        value r = None /\
        (exists limit, timeout config = Some limit /\
                       nonzero limit = true /\
                       final_error r = Some (timeout_message rt limit) /\
                       (limit <= total_duration r)%Q) /\
        stats f' = stats f /\
        invoked (trace f') = invoked (trace f) /\
        timeout_checks (trace f')
        = timeout_checks (trace f) ++ [total_duration r]) \/
       (exists started ended d p,
          result r = SUCCESS /\
          attempts r
          = loc_attempts f ++ [mkAttempt k started (Some ended) true None d] /\
          value r = Some p /\ value_origin awaited p /\
          final_error r = None /\
          stats f'
          = incr_successful_executions (incr_total_attempts (stats f)) /\
          delay_origin k (loc_last_error f) d /\
          invoked (trace f') = invoked (trace f) ++ [k] /\
          checked_once f f'))
  | Returned flw =>
      (exists started ended d e,
         loc_attempts f'
         = loc_attempts f
           ++ [mkAttempt k started (Some ended) false (Some (exc_str e)) d] /\
         loc_last_error f' = Some e /\ failure_origin e /\
         stats f' = incr_total_attempts (stats f) /\
         delay_origin k (loc_last_error f) d /\
         invoked (trace f') = invoked (trace f) ++ [k]) /\
      checked_once f f' /\
      ((flw = Break /\ (k < max_attempts config)%Z /\
        retry_answers (trace f') = retry_answers (trace f) ++ [false]) \/
       (flw = Next /\ (k < max_attempts config)%Z /\
        retry_answers (trace f') = retry_answers (trace f) ++ [true]) \/
       (flw = Next /\ (max_attempts config <= k)%Z /\
        retry_answers (trace f') = retry_answers (trace f)))
  end.

(** An execution after [i] failed attempts, seen from the top of the
    loop; [before] are the counters the call started with. *)
Record underway (before : Stats) (i : nat) (f : Frame W) : Prop :=
  mkUnderway {
  u_count : List.length (loc_attempts f) = i;
  u_recorded : Forall recorded (loc_attempts f);
  u_failed : Forall (fun a => success a = false) (loc_attempts f);
  u_first : forall a rest, loc_attempts f = a :: rest ->
                           delay_before a = 0%Q;
  u_delays : forall a, In a (loc_attempts f) ->
               exists last, delay_origin (attempt_number a) last
                                         (delay_before a);
  u_last : match loc_last_error f with
           | None => loc_attempts f = []
           | Some e =>
               failure_origin e /\
               exists l a, loc_attempts f = l ++ [a] /\
                           error a = Some (exc_str e)
           end;
  u_stats : moved before (stats f) 1 0 0 (Z.of_nat i) 0;
  u_invoked : invoked (trace f) = py_range 1 (Z.of_nat i + 1)
}.

(** The answers of [should_retry] seen when the loop was left after [i]
    failed attempts: all yes, or all yes and a final no. *)
Definition answers_after (refused : bool) (i : nat) : list bool :=
  if refused then repeat true (i - 1) ++ [false]
  else repeat true (Nat.min i (Z.to_nat (max_attempts config) - 1)).

(** The loop was left without a result. *)
Definition stopped (before : Stats) (refused : bool) (f : Frame W) : Prop :=
  exists i, (Z.of_nat i <= Z.max 0 (max_attempts config))%Z /\
            underway before i f /\
            retry_answers (trace f) = answers_after refused i /\
            in_time (trace f) i /\
            (refused = true -> (0 < i)%nat).

(** What a returned result and the state it leaves satisfy. *)
Record finished (awaited : bool) (before : Stats)
    (r : RetryExecutionResult W T) (f : Frame W) : Prop := mkFinished {
  f_recorded : Forall recorded (attempts r);
  f_first : forall a rest, attempts r = a :: rest -> delay_before a = 0%Q;
  f_delays : forall a, In a (attempts r) ->
               exists last, delay_origin (attempt_number a) last
                                         (delay_before a);
  f_bound :
    (Z.of_nat (List.length (attempts r)) <= Z.max 0 (max_attempts config))%Z;
  f_invoked :
    invoked (trace f) = py_range 1 (Z.of_nat (List.length (attempts r)) + 1);
  f_answers :
    exists yes refused,
      retry_answers (trace f)
      = repeat true yes ++ (if refused : bool then [false] else []) /\
      (yes <= List.length (attempts r) <= yes + 1)%nat /\
      (refused = true ->
       List.length (attempts r) = (yes + 1)%nat /\
       result r = FAILED_ALL_ATTEMPTS);
  f_deadline :
    forall limit, timeout config = Some limit -> nonzero limit = true ->
      exists passed final,
        timeout_checks (trace f) = passed ++ final /\
        Forall (fun t => (t < limit)%Q) passed /\
        (List.length (attempts r) <= List.length passed)%nat /\
        (final = [] \/
         (result r = TIMEOUT /\ final = [total_duration r] /\
          (limit <= total_duration r)%Q));
  f_value : match value r with
            | Some p => result r = SUCCESS /\ value_origin awaited p
            | None => result r <> SUCCESS
            end;
  f_error : final_error r = None <-> result r = SUCCESS;
  f_reason :
    match result r with
    | ABORTED => awaited = true /\ final_error r = Some aborted_message
    | TIMEOUT =>
        exists limit, timeout config = Some limit /\
                      nonzero limit = true /\
                      final_error r = Some (timeout_message rt limit) /\
                      (limit <= total_duration r)%Q
    | _ => True
    end;
  f_exhausted :
    result r = FAILED_ALL_ATTEMPTS ->
    (exists e, final_error r = Some (unexpected_error_message e)) \/
    (attempts r = [] /\ final_error r = Some unknown_error_message /\
     (max_attempts config <= 0)%Z) \/
    (exists l a e, attempts r = l ++ [a] /\
                   error a = Some (exc_str e) /\ failure_origin e /\
                   final_error r
                   = Some (if exc_truth e then exc_str e
                           else unknown_error_message));
  f_stats :
    moved before (stats f) 1
      (if RetryResult_eqb (result r) SUCCESS then 1 else 0)
      (if RetryResult_eqb (result r) FAILED_ALL_ATTEMPTS then 1 else 0)
      (Z.of_nat (List.length (attempts r)))
      (if RetryResult_eqb (result r) ABORTED then 1 else 0)
}.

(** How the loop of either method ends. *)
Definition loop_summary (awaited : bool) (before : Stats)
    (o : outcome (flow (RetryExecutionResult W T))) (f : Frame W) : Prop :=
  match o with
  | Returned (Return r) => finished awaited before r f
  | Returned Break => stopped before true f
  | Returned Next =>
      stopped before false f /\
      List.length (loc_attempts f) = Z.to_nat (max_attempts config)
  | Raised e => is_Exception e = true -> stopped before false f
  end.

End Summary.

End retry_accounting.

Module retry_factory.

Import retry_strategy retry_scenarios retry_conveniences.
Local Open Scope string_scope.

Section RetryConfigurationFactory.

Context {W : Type}.

(** [RetryConfigurationFactory.create_aggressive] *)
Definition create_aggressive : RetryConfiguration W :=
  mkConfiguration 5 EXPONENTIAL_BACKOFF (1#2) 30 (3#2) (1#10) None None.

(** [RetryConfigurationFactory.create_conservative] *)
Definition create_conservative : RetryConfiguration W :=
  mkConfiguration 2 FIXED_DELAY 5 10 2 (1#10) None None.

(** [RetryConfigurationFactory.create_quick] *)
Definition create_quick : RetryConfiguration W :=
  mkConfiguration 3 FIXED_DELAY (1#10) 1 2 (1#10) None None.

(** [RetryConfigurationFactory.create_network_operation] *)
Definition create_network_operation : RetryConfiguration W :=
  mkConfiguration 5 RANDOM_JITTER 2 120 2 (3#10) (Some 300%Q) None.

(** [RetryConfigurationFactory.create_file_operation] *)
Definition create_file_operation : RetryConfiguration W :=
  mkConfiguration 3 LINEAR_BACKOFF 1 10 2 (1#10) (Some 60%Q) None.

(** [RetryConfigurationFactory.create_recording_operation] *)
Definition create_recording_operation : RetryConfiguration W :=
  mkConfiguration 3 EXPONENTIAL_BACKOFF 5 300 2 (1#10) (Some 3600%Q) None.

(** Everything the factory builds. *)
Definition factory_configurations : list (RetryConfiguration W) :=
  [create_default; create_aggressive; create_conservative; create_quick;
   create_network_operation; create_file_operation;
   create_recording_operation].

End RetryConfigurationFactory.

End retry_factory.

(** The caller in [src/platforms/twitcasting_recorder.py]. *)
Module twitcasting_recorder.

Import retry_strategy retry_conveniences.
Local Open Scope string_scope.

Section Recorder.

Variable isinstance : PyException -> string -> bool.
Variable lower : string -> string.

(** [is_retryable_error], the error checker
    [TwitCastingRecorder.start_recording] hands to the executor. *)
Definition is_retryable_error (error : PyException) : bool :=
  let error_str := lower (exc_str error) in
  if network_errors isinstance lower error then true
  else
    existsb (fun keyword => contains keyword error_str)
      ["timeout"; "connection"; "temporary"].

End Recorder.

End twitcasting_recorder.

Module retry_examples.

Import retry_strategy.

(** A coroutine function handed to the synchronous method. *)
Definition coroutine_function : Operation nat nat :=
  mkOperation true (ret 7%nat).

(** Counters after four executions: three successes in nine attempts. *)
Definition busy_stats : Stats := mkStats 4 3 1 9 0.

End retry_examples.

Module process_bookkeeping.

Import process_engine process_properties process_scenarios process_registry.
Local Open Scope string_scope.

Section Bookkeeping.

Context {P : Type}.

(** The registry and the counters are as they were. *)
Definition bookkeeping_kept (s s' : Engine P) : Prop :=
  active_processes s' = active_processes s /\ stats s' = stats s.






(** The stages of a termination, in the order they can be taken. *)
Definition escalation : list Action :=
  [SentTerminate; SentKill; OSLevelKill].

(** The world after each observer in turn has seen the event. *)
Definition notified (obs : list (MonitorEvent -> eff P unit))
    (event : MonitorEvent) (w : P) : P :=
  fold_left (fun w observer => snd (observer event w)) obs w.

(** An observer that leaves the list of observers of [self] as it
    is. *)
Definition keeps_observers (self : Monitor P) (event : MonitorEvent)
    (observer : MonitorEvent -> eff P unit) : Prop :=
  forall w,
    observers (deref self (snd (observer event w)))
    = observers (deref self w).

(** An observer that raises nothing but [Exception]s. *)
Definition well_behaved (event : MonitorEvent)
    (observer : MonitorEvent -> eff P unit) : Prop :=
  forall w, match fst (observer event w) with
            | Raised e => is_Exception e = true
            | Returned _ => True
            end.


(** The process is in the registry under [sid], one more process is
    counted as active, and [tally] is what else happened to the
    counters. *)
Definition registered (sid : SessionId) (tally : Stats -> Stats)
    (s s' : Engine P) : Prop :=
  exists process,
    active_processes s' = dict_set sid process (active_processes s) /\
    stats s' = tally (with_active_count 1 (stats s)).



End Bookkeeping.

End process_bookkeeping.

Module process_examples.

Import process_engine process_scenarios.
Local Open Scope string_scope.

(** An observer that counts the events it sees. *)
Definition counting_observer : MonitorEvent -> eff nat unit :=
  fun _ n => (Returned tt, S n).

(** An observer that counts the event and then fails. *)
Definition failing_observer : MonitorEvent -> eff nat unit :=
  fun _ n => (Raised no_such_process, S n).

Definition started_event : MonitorEvent :=
  mkEvent STARTED 0 (proc_ 0) [("pid", 4242%Z)].

Definition idle_counting : Engine nat := mkEngine 0%nat [] (mkStats 0 0 0 0) [].

(** A system over the counting world, where nothing needs spawning. *)
Definition counting_system : System nat :=
  mkSystem "posix" (fun _ => ret tt) (fun _ => ret tt)
           (fun _ _ _ _ => raise file_not_found)
           (fun w => (0%Q, w)) (fun w => (0%Q, w))
           (fun _ w => w) (fun _ w => (false, w)) 8.

(** A monitor with three observers that nobody edits: the second one
    fails. *)
Definition fixed_monitor : Monitor nat :=
  mkReference
    (fun _ => mkMonitor [counting_observer; failing_observer;
                         counting_observer] false [])
    (fun _ w => w).

(** One observer object: every comparison with it is a comparison with
    itself. *)
Definition same_object : (MonitorEvent -> eff nat unit) ->
                         (MonitorEvent -> eff nat unit) -> bool :=
  fun _ _ => true.

(** A world that holds one monitor: the names of its registered
    observers, its other attributes, and the names of the observers that
    have seen an event, in order. *)
Record Board : Type := mkBoard {
  registered : list nat;
  board_monitoring : bool;
  board_tasks : list MonitorTask;
  seen : list nat
}.

(** The observer named [k] notes that it was called; the observer named
    0 also unregisters itself, as [remove_observer] would. *)
Definition named_observer (k : nat) : MonitorEvent -> eff Board unit :=
  fun _ b =>
    (Returned tt,
     mkBoard (if (k =? 0)%nat
              then List.remove Nat.eq_dec 0%nat (registered b)
              else registered b)
             (board_monitoring b) (board_tasks b) (seen b ++ [k])).

(** The monitor of the board.  Assignments to its attributes keep the
    observers, as the engine's do. *)
Definition board_monitor : Monitor Board :=
  mkReference
    (fun b => mkMonitor (map named_observer (registered b))
                        (board_monitoring b) (board_tasks b))
    (fun m b => mkBoard (registered b) (is_monitoring m) (_monitor_tasks m)
                        (seen b)).

(** A process whose waiter breaks. *)
Definition broken_process : Process Board :=
  mkProcess 4242 (fun _ => None) (ret tt) (ret tt)
            (raise no_such_process) (fun _ => raise no_such_process)
            None None.

(** A system over the board on which the caller is cancelled whenever it
    awaits the tasks of a monitor. *)
Definition interrupting_system : System Board :=
  mkSystem "posix" (fun _ => ret tt) (fun _ => ret tt)
           (fun _ _ _ _ => ret broken_process)
           (fun w => (0%Q, w)) (fun w => (0%Q, w))
           (fun _ w => w) (fun _ w => (true, w)) 8.

Definition three_observers : Engine Board :=
  mkEngine (mkBoard [0; 1; 2]%nat false [] []) [] (mkStats 0 0 0 0) [].

End process_examples.

(* ================================================================== *)
(** * Reasoning about effectful code *)
(* ================================================================== *)

(** A loop invariant indexed by the number of completed passes. *)
Lemma for_each_invariant {S A R : Type} (body : A -> eff S (flow R))
    (I : nat -> S -> Prop) (Post : outcome (flow R) -> S -> Prop)
    (l : list A) :
  (forall i x s, nth_error l i = Some x -> I i s ->
     match body x s with
     | (Returned Next, s') => I (Datatypes.S i) s'
     | (o, s') => Post o s'
     end) ->
  (forall s, I (List.length l) s -> Post (Returned Next) s) ->
  forall s, I 0%nat s ->
    Post (fst (for_each l body s)) (snd (for_each l body s)).
Proof.
  revert I. induction l as [|x l IH]; intros I Hbody Hend s H0.
  - simpl. apply Hend. exact H0.
  - simpl. unfold bind.
    pose proof (Hbody 0%nat x s eq_refl H0) as Hx.
    destruct (body x s) as [[[| |r]|e] s1]; simpl; try exact Hx.
    apply (IH (fun i => I (Datatypes.S i))).
    + intros i y s2 Hn Hi. apply (Hbody (Datatypes.S i) y s2 Hn Hi).
    + intros s2 Hl. apply Hend. exact Hl.
    + exact Hx.
Qed.

Lemma for_each_ext {S A R : Type} (body1 body2 : A -> eff S (flow R))
    (l : list A) :
  (forall x s, body1 x s = body2 x s) ->
  forall s, for_each l body1 s = for_each l body2 s.
Proof.
  intros H. induction l as [|x l IH]; intros s; simpl; [reflexivity|].
  unfold bind. rewrite H. destruct (body2 x s) as [[[| |r]|e] s1]; auto.
Qed.

Lemma bind_ext {S A B : Type} (m1 m2 : eff S A) (k1 k2 : A -> eff S B) :
  (forall s, m1 s = m2 s) -> (forall a s, k1 a s = k2 a s) ->
  forall s, bind m1 k1 s = bind m2 k2 s.
Proof.
  intros Hm Hk s. unfold bind. rewrite Hm.
  destruct (m2 s) as [[a|e] s1]; [apply Hk | reflexivity].
Qed.

Lemma try_except_ext {S A : Type} (handles : PyException -> bool)
    (m1 m2 : eff S A) (h1 h2 : PyException -> eff S A) :
  (forall s, m1 s = m2 s) -> (forall e s, h1 e s = h2 e s) ->
  forall s, try_except handles m1 h1 s = try_except handles m2 h2 s.
Proof.
  intros Hm Hh s. unfold try_except. rewrite Hm.
  destruct (m2 s) as [[a|e] s1]; [reflexivity|].
  destruct (handles e); [apply Hh | reflexivity].
Qed.

Lemma bind_ret_inv {S A B : Type} (m : eff S A) (f : A -> B) (s s' : S)
    (b : B) :
  bind m (fun a => ret (f a)) s = (Returned b, s') ->
  exists a, m s = (Returned a, s') /\ b = f a.
Proof.
  unfold bind, ret. destruct (m s) as [[a|e] s1]; intros H; inversion H.
  exists a. split; reflexivity.
Qed.

Lemma nth_error_py_range (a b : Z) (i : nat) (x : Z) :
  nth_error (py_range a b) i = Some x -> x = (a + Z.of_nat i)%Z.
Proof.
  unfold py_range. intros H.
  rewrite nth_error_map in H.
  destruct (nth_error (seq 0 (Z.to_nat (b - a))) i) as [j|] eqn:E;
    [|discriminate].
  simpl in H. inversion H; subst.
  assert (hl : (i < List.length (seq 0 (Z.to_nat (b - a))))%nat).
  { apply nth_error_Some. congruence. }
  rewrite (nth_error_nth' _ 0%nat hl) in E. inversion E.
  rewrite seq_nth by (rewrite length_seq in hl; exact hl). simpl. reflexivity.
Qed.

Lemma py_range_snoc (i : nat) :
  py_range 1 (Z.of_nat (S i) + 1)
  = py_range 1 (Z.of_nat i + 1) ++ [(1 + Z.of_nat i)%Z].
Proof.
  unfold py_range.
  replace (Z.to_nat (Z.of_nat (S i) + 1 - 1)) with (S i) by lia.
  replace (Z.to_nat (Z.of_nat i + 1 - 1)) with i by lia.
  rewrite seq_S, map_app. reflexivity.
Qed.

Lemma py_range_cons (a b : Z) :
  (a < b)%Z -> py_range a b = a :: py_range (a + 1) b.
Proof.
  intros H. unfold py_range.
  replace (Z.to_nat (b - a)) with (S (Z.to_nat (b - (a + 1)))) by lia.
  cbn [seq map]. f_equal; [lia|].
  rewrite <- seq_shift, map_map. apply map_ext. intros i. lia.
Qed.

Lemma py_range_length (i : nat) :
  List.length (py_range 1 (Z.of_nat i + 1)) = i.
Proof.
  unfold py_range. rewrite length_map, length_seq. lia.
Qed.

Lemma repeat_snoc {A : Type} (x : A) (n : nat) :
  repeat x n ++ [x] = repeat x (S n).
Proof. simpl. rewrite repeat_cons. reflexivity. Qed.

(* ================================================================== *)
(** * Comparisons, [min] and [max] *)
(* ================================================================== *)

Lemma Qlt_bool_iff (x y : Q) : Qlt_bool x y = true <-> (x < y)%Q.
Proof.
  unfold Qlt_bool. rewrite negb_true_iff. split.
  - intros H. apply Qnot_le_lt. intros L. apply Qle_bool_iff in L. congruence.
  - intros H. destruct (Qle_bool y x) eqn:E; [|reflexivity].
    apply Qle_bool_iff in E. exfalso. apply (Qlt_not_le _ _ H E).
Qed.

Lemma Qlt_bool_false_iff (x y : Q) : Qlt_bool x y = false <-> (y <= x)%Q.
Proof.
  unfold Qlt_bool. rewrite negb_false_iff. apply Qle_bool_iff.
Qed.

Lemma py_min_spec (a b : Q) : (py_min a b == Qmin a b)%Q.
Proof.
  unfold py_min. destruct (Qlt_bool b a) eqn:E.
  - apply Qlt_bool_iff in E. symmetry. apply Q.min_r. lra.
  - apply Qlt_bool_false_iff in E. symmetry. apply Q.min_l. exact E.
Qed.

Lemma py_max_spec (a b : Q) : (py_max a b == Qmax a b)%Q.
Proof.
  unfold py_max. destruct (Qlt_bool a b) eqn:E.
  - apply Qlt_bool_iff in E. symmetry. apply Q.max_r. lra.
  - apply Qlt_bool_false_iff in E. symmetry. apply Q.max_l. exact E.
Qed.

Lemma clamp_bounds (d hi : Q) :
  (0 <= hi)%Q -> (0 <= py_max 0 (py_min d hi) <= hi)%Q.
Proof.
  intros H. split.
  - rewrite py_max_spec. apply Q.le_max_l.
  - rewrite py_max_spec. apply Q.max_lub; [exact H|].
    rewrite py_min_spec. apply Q.le_min_r.
Qed.

(* ================================================================== *)
(** * The range of [float] *)
(* ================================================================== *)

Lemma overflows_false_iff (x : Q) :
  overflows x = false <-> (Qabs x < float_overflow)%Q.
Proof.
  unfold overflows. split.
  - intros H. apply Qnot_le_lt. intros L. apply Qle_bool_iff in L. congruence.
  - intros H. destruct (Qle_bool float_overflow (Qabs x)) eqn:E; [|reflexivity].
    apply Qle_bool_iff in E. exfalso. apply (Qlt_not_le _ _ H E).
Qed.

Lemma Qpower_succ (x : Q) (k : nat) :
  (x ^ Z.of_nat (S k) == x * x ^ Z.of_nat k)%Q.
Proof.
  replace (Z.of_nat (S k)) with (1 + Z.of_nat k)%Z by lia.
  rewrite Qpower_plus' by lia. reflexivity.
Qed.

Lemma Qpower_le_compat_base (x y : Q) (n : Z) :
  (0 <= x)%Q -> (x <= y)%Q -> (0 <= n)%Z -> (x ^ n <= y ^ n)%Q.
Proof.
  intros Hx Hxy Hn. rewrite <- (Z2Nat.id n Hn).
  induction (Z.to_nat n) as [|k IH].
  - simpl. lra.
  - rewrite !Qpower_succ.
    assert (0 <= x ^ Z.of_nat k)%Q by (apply Qpower_0_le; exact Hx).
    apply Qle_trans with (y * x ^ Z.of_nat k)%Q.
    + apply Qmult_le_compat_r; assumption.
    + rewrite !(Qmult_comm y). apply Qmult_le_compat_r; [exact IH | lra].
Qed.

Lemma inject_Z_nonneg (n : Z) : (0 <= n)%Z -> (0 <= inject_Z n)%Q.
Proof. intros H. change 0%Q with (inject_Z 0). rewrite <- Zle_Qle. exact H. Qed.

Lemma overflows_nonneg (x : Q) :
  (0 <= x)%Q -> (x < float_overflow)%Q -> overflows x = false.
Proof.
  intros H L. apply overflows_false_iff.
  pose proof (Qabs_pos x H) as E. lra.
Qed.

Lemma overflows_nonneg_inv (x : Q) :
  (0 <= x)%Q -> overflows x = false -> (x < float_overflow)%Q.
Proof.
  intros H L. apply overflows_false_iff in L.
  pose proof (Qabs_pos x H) as E. lra.
Qed.

Lemma overflows_monotone (x y : Q) :
  (Qabs x <= Qabs y)%Q -> overflows y = false -> overflows x = false.
Proof.
  rewrite !overflows_false_iff. intros L H. lra.
Qed.

(** Up to the exponent 1023 a base between 0 and 2 stays in range. *)
Lemma small_power_in_range (x : Q) (n : Z) :
  (0 <= x <= 2)%Q -> (0 <= n <= 1023)%Z -> pow_in_range x n = true.
Proof.
  intros [Hx Hx2] [Hn Hn2]. unfold pow_in_range.
  apply andb_true_iff. split; apply negb_true_iff, overflows_nonneg.
  - apply inject_Z_nonneg. exact Hn.
  - apply Qle_lt_trans with (inject_Z 1023).
    + rewrite <- Zle_Qle. exact Hn2.
    + reflexivity.
  - apply Qpower_0_le; exact Hx.
  - apply Qle_lt_trans with (2 ^ 1023)%Q.
    + apply Qle_trans with (2 ^ n)%Q.
      * apply Qpower_le_compat_base; assumption.
      * apply Qpower_le_compat_l; [exact Hn2 | lra].
    + reflexivity.
Qed.

(** With a base of at least 1, a power in range stays in range for every
    smaller exponent. *)
Lemma pow_in_range_below (x : Q) (n m : Z) :
  (1 <= x)%Q -> (0 <= n <= m)%Z ->
  pow_in_range x m = true -> pow_in_range x n = true.
Proof.
  intros Hx [Hn Hnm]. unfold pow_in_range.
  rewrite !andb_true_iff, !negb_true_iff.
  assert (P : forall k, (0 <= k)%Z -> (0 <= x ^ k)%Q)
    by (intros k _; apply Qpower_0_le; lra).
  intros [A B]. split.
  - apply overflows_nonneg_inv in A; [|apply inject_Z_nonneg; lia].
    apply overflows_nonneg; [apply inject_Z_nonneg; lia|].
    apply Qle_lt_trans with (inject_Z m); [|exact A].
    rewrite <- Zle_Qle. exact Hnm.
  - apply overflows_nonneg_inv in B; [|apply P; lia].
    apply overflows_nonneg; [apply P; lia|].
    apply Qle_lt_trans with (x ^ m)%Q; [|exact B].
    apply Qpower_le_compat_l; assumption.
Qed.

Lemma py_float_in_range {S : Type} (n : Z) (s : S) :
  overflows (inject_Z n) = false ->
  py_float n s = (Returned (inject_Z n), s).
Proof. intros H. unfold py_float. rewrite H. reflexivity. Qed.

Lemma py_float_out_of_range {S : Type} (n : Z) (s : S) :
  overflows (inject_Z n) = true ->
  exists e, py_float n s = (Raised e, s) /\ exc_class e = OverflowError.
Proof.
  intros H. unfold py_float. rewrite H. eexists. split; reflexivity.
Qed.

(** An [int] that is too large stays too large when it grows. *)
Lemma overflows_above (n m : Z) :
  (0 <= n <= m)%Z -> overflows (inject_Z n) = true ->
  overflows (inject_Z m) = true.
Proof.
  intros [Hn Hnm] H. destruct (overflows (inject_Z m)) eqn:E; [reflexivity|].
  apply overflows_nonneg_inv in E; [|apply inject_Z_nonneg; lia].
  rewrite overflows_nonneg in H; [discriminate H | apply inject_Z_nonneg; lia|].
  apply Qle_lt_trans with (inject_Z m); [|exact E].
  rewrite <- Zle_Qle. exact Hnm.
Qed.

Lemma py_pow_in_range {S : Type} (x : Q) (n : Z) (s : S) :
  (0 <= n)%Z -> pow_in_range x n = true ->
  py_pow x n s = (Returned (x ^ n)%Q, s).
Proof.
  intros H R. unfold pow_in_range in R.
  apply andb_true_iff in R. destruct R as [A B].
  apply negb_true_iff in A, B. unfold py_pow. rewrite A, B.
  destruct (n <? 0)%Z eqn:E; [apply Z.ltb_lt in E; lia|]. reflexivity.
Qed.

Lemma py_pow_out_of_range {S : Type} (x : Q) (n : Z) (s : S) :
  (0 <= n)%Z -> pow_in_range x n = false ->
  exists e, py_pow x n s = (Raised e, s) /\ exc_class e = OverflowError.
Proof.
  intros H R. unfold pow_in_range in R. unfold py_pow.
  destruct (overflows (inject_Z n)); [eexists; split; reflexivity|].
  destruct (n <? 0)%Z eqn:E; [apply Z.ltb_lt in E; lia|].
  destruct (overflows (x ^ n)); [eexists; split; reflexivity|].
  discriminate R.
Qed.

(* ================================================================== *)
(** * Properties of the retry engine *)
(* ================================================================== *)

Section RetryTheorems.

Import retry_strategy retry_properties retry_scenarios.

(** ** Construction-time validation *)

Lemma valid_inv {W : Type} (c : RetryConfiguration W) :
  valid c ->
  (1 <= max_attempts c)%Z /\ (0 <= base_delay c)%Q /\
  (base_delay c <= max_delay c)%Q.
Proof.
  unfold valid, post_init.
  destruct (max_attempts c <? 1)%Z eqn:E1; [discriminate|].
  destruct (Qlt_bool (base_delay c) 0) eqn:E2; [discriminate|].
  destruct (Qlt_bool (max_delay c) (base_delay c)) eqn:E3; [discriminate|].
  intros _. apply Z.ltb_ge in E1. apply Qlt_bool_false_iff in E2, E3. auto.
Qed.

(** ** [DelayCalculator.calculate_delay] *)

Section DelayFacts.

Context {W : Type}.
Variable rt : Runtime W.

(** Every branch but the custom one ends in the clamp: for a valid
    configuration the delay lies between 0 and [max_delay]. *)
Lemma calculate_delay_clamped (n : Z) (config : RetryConfiguration W)
    (err : option PyException) (w : W) :
  valid config -> takes_custom_branch config = false ->
  forall d w', calculate_delay rt n config err w = (Returned d, w') ->
  (0 <= d <= max_delay config)%Q.
Proof.
  intros V NC d w' H.
  destruct (valid_inv V) as (_ & B0 & BM).
  assert (HM : (0 <= max_delay config)%Q) by lra.
  unfold calculate_delay, takes_custom_branch in *.
  destruct (policy config) eqn:P;
    try (apply bind_ret_inv in H; destruct H as (a & _ & ->);
         apply clamp_bounds; exact HM).
  destruct (custom_delay_func config); [discriminate|].
  apply bind_ret_inv in H; destruct H as (a & _ & ->).
  apply clamp_bounds; exact HM.
Qed.

(** The custom branch hands back whatever the custom function returns. *)
Lemma calculate_delay_custom_value (n : Z) (config : RetryConfiguration W)
    (err : option PyException) (w w' : W)
    (func : Z -> option PyException -> eff W Q) (v : Q) :
  policy config = CUSTOM -> custom_delay_func config = Some func ->
  func n err w = (Returned v, w') ->
  calculate_delay rt n config err w = (Returned v, w').
Proof.
  intros Hp Hf Hr. unfold calculate_delay, try_except.
  rewrite Hp, Hf, Hr. reflexivity.
Qed.

(** The fallback of the custom branch: when the custom function raises
    an [Exception], [base_delay] is returned. *)
Lemma calculate_delay_custom_fallback (n : Z) (config : RetryConfiguration W)
    (err : option PyException) (w w' : W)
    (func : Z -> option PyException -> eff W Q) (e : PyException) :
  policy config = CUSTOM -> custom_delay_func config = Some func ->
  func n err w = (Raised e, w') -> is_Exception e = true ->
  calculate_delay rt n config err w = (Returned (base_delay config), w').
Proof.
  intros Hp Hf Hr He. unfold calculate_delay, try_except.
  rewrite Hp, Hf, Hr, He. reflexivity.
Qed.

End DelayFacts.

(** C1 (the code at the failing input). With policy [CUSTOM] the value of
    the caller's function is returned as it is: a function that answers
    100 under [max_delay = 60] makes [calculate_delay] return 100, outside
    the interval from 0 to [max_delay]. *)
Theorem calculate_delay_custom_above_max_delay :
  valid overlong_custom_config /\
  calculate_delay still_runtime 1 overlong_custom_config None tt
    = (Returned 100%Q, tt) /\
  ~ (100 <= max_delay overlong_custom_config)%Q.
Proof.
  split; [reflexivity|]. split; [reflexivity|].
  simpl. intros H. apply Qle_bool_iff in H. discriminate H.
Qed.

(** C7 (the code at the failing input). With policy [CUSTOM] a function
    that answers -5 makes [calculate_delay] return -5: the final
    [max(0, delay)] is never reached on the custom branch. *)
Theorem calculate_delay_custom_negative :
  valid negative_custom_config /\
  calculate_delay still_runtime 1 negative_custom_config None tt
    = (Returned (-5)%Q, tt) /\
  ~ (0 <= -5)%Q.
Proof.
  split; [reflexivity|]. split; [reflexivity|].
  intros H. apply Qle_bool_iff in H. discriminate H.
Qed.

Section ExponentialBackoff.

Context {W : Type}.
Variable rt : Runtime W.
Variable config : RetryConfiguration W.
Hypothesis config_valid : valid config.
Hypothesis config_policy : policy config = EXPONENTIAL_BACKOFF.

Lemma exponential_delay_value (n : Z) (err : option PyException) (w : W) :
  (1 <= n)%Z ->
  pow_in_range (backoff_multiplier config) (n - 1) = true ->
  calculate_delay rt n config err w
  = (Returned (py_max 0 (py_min (raw_exponential config n)
                                (max_delay config))), w).
Proof.
  intros Hn R. unfold calculate_delay. rewrite config_policy.
  unfold bind. rewrite py_pow_in_range by (lia || exact R). reflexivity.
Qed.

Lemma exponential_delay_overflow (n : Z) (err : option PyException)
    (w : W) :
  (1 <= n)%Z ->
  pow_in_range (backoff_multiplier config) (n - 1) = false ->
  exists e, calculate_delay rt n config err w = (Raised e, w) /\
            exc_class e = OverflowError.
Proof.
  intros Hn R. unfold calculate_delay. rewrite config_policy.
  unfold bind.
  destruct (@py_pow_out_of_range W (backoff_multiplier config) (n - 1) w)
    as (e & E & C); [lia | exact R |].
  rewrite E. exists e. split; [reflexivity | exact C].
Qed.

Lemma raw_exponential_monotone (n m : Z) :
  (1 <= backoff_multiplier config)%Q -> (n <= m)%Z ->
  (raw_exponential config n <= raw_exponential config m)%Q.
Proof.
  intros Hb Hnm. destruct (valid_inv config_valid) as (_ & B0 & _).
  unfold raw_exponential.
  rewrite (Qmult_comm (base_delay config)), (Qmult_comm (base_delay config)).
  apply Qmult_le_compat_r; [|exact B0].
  apply Qpower_le_compat_l; [lia | exact Hb].
Qed.

Lemma raw_exponential_nonneg (n : Z) :
  (0 <= backoff_multiplier config)%Q -> (0 <= raw_exponential config n)%Q.
Proof.
  intros Hb. destruct (valid_inv config_valid) as (_ & B0 & _).
  unfold raw_exponential. apply Qmult_le_0_compat; [exact B0|].
  apply Qpower_0_le. exact Hb.
Qed.

(** C3 (amended). For a valid configuration with policy
    [EXPONENTIAL_BACKOFF] and a 1-based attempt number [n]: when
    [multiplier ** (n-1)] has a [float] result, [calculate_delay] returns
    [max(0, min(max_delay, base_delay * multiplier^(n-1)))] and leaves
    the world alone; this is [min(max_delay, base_delay *
    multiplier^(n-1))] when the multiplier is not negative, and when the
    multiplier is at least 1 the delay of every later attempt [m] is at
    least as long, unless [multiplier ** (m-1)] is out of range. When
    the power is out of range, [calculate_delay] raises [OverflowError],
    and with a multiplier of at least 1 so does every later attempt. *)
Theorem exponential_backoff_delay (n : Z) (err : option PyException)
    (w : W) :
  (1 <= n)%Z ->
  if pow_in_range (backoff_multiplier config) (n - 1)
  then
    exists d : Q,
      calculate_delay rt n config err w = (Returned d, w) /\
      (d == Qmax 0 (Qmin (max_delay config) (raw_exponential config n)))%Q /\
      ((0 <= backoff_multiplier config)%Q ->
       (d == Qmin (max_delay config) (raw_exponential config n))%Q) /\
      ((1 <= backoff_multiplier config)%Q ->
       forall (m : Z) (err' : option PyException) (w' : W), (n <= m)%Z ->
       if pow_in_range (backoff_multiplier config) (m - 1)
       then exists d' : Q,
              calculate_delay rt m config err' w' = (Returned d', w') /\
              (d <= d')%Q
       else exists e : PyException,
              calculate_delay rt m config err' w' = (Raised e, w') /\
              exc_class e = OverflowError)
  else
    (exists e : PyException,
       calculate_delay rt n config err w = (Raised e, w) /\
       exc_class e = OverflowError) /\
    ((1 <= backoff_multiplier config)%Q ->
     forall (m : Z) (err' : option PyException) (w' : W), (n <= m)%Z ->
     exists e : PyException,
       calculate_delay rt m config err' w' = (Raised e, w') /\
       exc_class e = OverflowError).
Proof.
  intros Hn. destruct (valid_inv config_valid) as (_ & B0 & BM).
  assert (E : forall k,
    (py_max 0 (py_min (raw_exponential config k) (max_delay config))
     == Qmax 0 (Qmin (max_delay config) (raw_exponential config k)))%Q).
  { intros k. rewrite py_max_spec, py_min_spec, Q.min_comm. reflexivity. }
  destruct (pow_in_range (backoff_multiplier config) (n - 1)) eqn:R.
  - eexists. split; [apply exponential_delay_value; assumption|].
    split; [apply E|]. split.
    + intros Hb. rewrite E. apply Q.max_r.
      apply Q.min_glb; [lra | apply raw_exponential_nonneg; exact Hb].
    + intros Hb m err' w' Hnm.
      destruct (pow_in_range (backoff_multiplier config) (m - 1)) eqn:R'.
      * eexists. split; [apply exponential_delay_value; [lia | exact R']|].
        rewrite !E. apply Q.max_le_compat_l. apply Q.min_le_compat_l.
        apply raw_exponential_monotone; assumption.
      * apply exponential_delay_overflow; [lia | exact R'].
  - split; [apply exponential_delay_overflow; assumption|].
    intros Hb m err' w' Hnm. apply exponential_delay_overflow; [lia|].
    destruct (pow_in_range (backoff_multiplier config) (m - 1)) eqn:R';
      [|reflexivity].
    rewrite (@pow_in_range_below (backoff_multiplier config) (n - 1) (m - 1))
      in R; [discriminate R | exact Hb | lia | exact R'].
Qed.

End ExponentialBackoff.

(** C3, at the default configuration and the third attempt. *)
Lemma exponential_backoff_delay_witness :
  exists d : Q,
    calculate_delay still_runtime 3 create_default None tt
      = (Returned d, tt) /\
    (d == Qmax 0 (Qmin (max_delay (@create_default unit))
                       (raw_exponential (@create_default unit) 3)))%Q /\
    ((0 <= backoff_multiplier (@create_default unit))%Q ->
     (d == Qmin (max_delay (@create_default unit))
                (raw_exponential (@create_default unit) 3))%Q) /\
    ((1 <= backoff_multiplier (@create_default unit))%Q ->
     forall (m : Z) (err' : option PyException) (w' : unit), (3 <= m)%Z ->
     if pow_in_range (backoff_multiplier (@create_default unit)) (m - 1)
     then exists d' : Q,
            calculate_delay still_runtime m create_default err' w'
              = (Returned d', w') /\
            (d <= d')%Q
     else exists e : PyException,
            calculate_delay still_runtime m create_default err' w'
              = (Raised e, w') /\
            exc_class e = OverflowError).
Proof.
  exact (@exponential_backoff_delay unit still_runtime create_default
           eq_refl eq_refl 3 None tt ltac:(lia)).
Defined.

(** C3, where the power leaves the range: with the default multiplier 2
    attempt 1025 would need [2.0 ** 1024]. *)
Example exponential_backoff_overflows :
  exists e : PyException,
    calculate_delay still_runtime 1025 create_default None tt
      = (Raised e, tt) /\
    exc_class e = OverflowError.
Proof. eexists. split; reflexivity. Qed.

(** C3 (as stated, refuted). With multiplier -2 the configuration passes
    validation, and after attempt 2 the code returns 0 where the stated
    formula [min(max_delay, base_delay * multiplier^(n-1))] gives -2. *)
Lemma exponential_backoff_negative_multiplier :
  valid negative_multiplier_config /\
  policy negative_multiplier_config = EXPONENTIAL_BACKOFF /\
  calculate_delay still_runtime 2 negative_multiplier_config None tt
    = (Returned 0%Q, tt) /\
  ~ (0 == Qmin (max_delay negative_multiplier_config)
               (base_delay negative_multiplier_config
                * backoff_multiplier negative_multiplier_config ^ (2 - 1)))%Q.
Proof.
  split; [reflexivity|]. split; [reflexivity|]. split; [reflexivity|].
  intros H. vm_compute in H. discriminate H.
Qed.

(** ** [RetryConditionChecker.should_retry] *)

Section ShouldRetryFacts.

Context {W : Type}.

(** C6. [should_retry] answers false whenever the attempt number has
    reached [max_attempts], whatever the error and the checker, and
    whenever a supplied checker answers false for the error. *)
Theorem should_retry_false (n : Z) (config : RetryConfiguration W)
    (error : PyException) (checker : option (PyException -> eff W bool))
    (w : W) :
  (max_attempts config <= n)%Z \/
  (exists chk w', checker = Some chk /\ chk error w = (Returned false, w')) ->
  fst (should_retry n config error checker w) = Returned false.
Proof.
  intros H. unfold should_retry.
  destruct (n >=? max_attempts config)%Z eqn:E; [reflexivity|].
  destruct H as [H | (chk & w' & -> & H)].
  - rewrite Z.geb_leb in E. apply Z.leb_gt in E. lia.
  - unfold try_except. rewrite H. reflexivity.
Qed.

(** At or past the last attempt the checker is not even consulted. *)
Lemma should_retry_last_attempt (n : Z) (config : RetryConfiguration W)
    (error : PyException) (checker : option (PyException -> eff W bool))
    (w : W) :
  (max_attempts config <= n)%Z ->
  should_retry n config error checker w = (Returned false, w).
Proof.
  intros H. unfold should_retry.
  destruct (n >=? max_attempts config)%Z eqn:E; [reflexivity|].
  rewrite Z.geb_leb in E. apply Z.leb_gt in E. lia.
Qed.

(** A checker that raises an [Exception] stops the retries as well. *)
Lemma should_retry_checker_raises (n : Z) (config : RetryConfiguration W)
    (error e : PyException) (chk : PyException -> eff W bool) (w w' : W) :
  chk error w = (Raised e, w') -> is_Exception e = true ->
  fst (should_retry n config error (Some chk) w) = Returned false.
Proof.
  intros H He. unfold should_retry.
  destruct (n >=? max_attempts config)%Z; [reflexivity|].
  unfold try_except. rewrite H, He. reflexivity.
Qed.

End ShouldRetryFacts.

(** C6, at a checker that refuses a connection error on attempt 1 of 3. *)
Lemma should_retry_false_witness :
  fst (should_retry 1 create_default connection_reset
         (Some refusing_checker) tt) = Returned false.
Proof.
  apply (@should_retry_false unit 1 create_default connection_reset
           (Some refusing_checker) tt).
  right. exists refusing_checker, tt. split; reflexivity.
Defined.

(** ** Running the executors symbolically *)

Ltac unfold_engine :=
  unfold async_attempt, sync_attempt, after_loop, check_timeout,
    timeout_result, wait_before, attempt_failed, attempt_succeeded,
    all_attempts_failed, unexpected_error, now, log, update_stats,
    append_attempt, set_last_error, init_locals, call, total, bind,
    try_except, gets, modify, ret, raise in *.

Ltac destruct_innermost t :=
  lazymatch t with
  | context [match ?x with _ => _ end] => destruct_innermost x
  | _ => destruct t eqn:?
  end.

Ltac simpl_frame :=
  cbn [fst snd world stats loc_attempts loc_last_error trace
       result value attempts total_duration final_error configuration
       attempt_number success] in *.

(** Follow every path through the code in the goal. *)
Ltac run_goal :=
  repeat (simpl_frame;
          match goal with
          | |- context [match ?x with _ => _ end] => destruct_innermost x
          end);
  simpl_frame.

(** ** Attempt lists *)

Lemma failed_so_far_length (i : nat) (atts : list RetryAttempt) :
  failed_so_far i atts -> List.length atts = i.
Proof.
  intros [_ H]. rewrite <- (length_map attempt_number), H.
  apply py_range_length.
Qed.

Lemma failed_so_far_snoc (i : nat) (atts : list RetryAttempt)
    (a : RetryAttempt) :
  failed_so_far i atts -> success a = false ->
  attempt_number a = (1 + Z.of_nat i)%Z ->
  failed_so_far (S i) (atts ++ [a]).
Proof.
  intros [F N] Hs Hn. split.
  - apply Forall_app. split; [exact F|]. constructor; [exact Hs|constructor].
  - rewrite map_app, N, py_range_snoc. simpl. rewrite Hn. reflexivity.
Qed.

Lemma failed_no_success (i : nat) (atts : list RetryAttempt) :
  failed_so_far i atts ->
  ~ exists l a, atts = l ++ [a] /\ success a = true.
Proof.
  intros [F _] (l & a & -> & Hs).
  apply Forall_app in F. destruct F as [_ F]. inversion F; subst. congruence.
Qed.

Lemma shape_failed (i : nat) (res : RetryResult) (atts : list RetryAttempt) :
  failed_so_far i atts -> res <> SUCCESS -> shape res atts.
Proof.
  intros H Hr. split.
  - split; [intros E; contradiction|].
    intros E. exfalso. eapply failed_no_success; eauto.
  - rewrite (failed_so_far_length H). apply H.
Qed.

Lemma shape_success (i : nat) (atts : list RetryAttempt) (a : RetryAttempt) :
  failed_so_far i atts -> success a = true ->
  attempt_number a = (1 + Z.of_nat i)%Z -> shape SUCCESS (atts ++ [a]).
Proof.
  intros H Hs Hn. split.
  - split; [intros _; eauto | intros _; reflexivity].
  - rewrite length_app, map_app. simpl.
    rewrite (failed_so_far_length H).
    replace (i + 1)%nat with (S i) by lia.
    rewrite py_range_snoc. destruct H as [_ ->]. rewrite Hn. reflexivity.
Qed.

(** ** The result invariant of [execute_with_retry] *)

Section ResultInvariant.

Context {W T : Type}.
Variable rt : Runtime W.
Variable operation : Operation W T.
Variable config : RetryConfiguration W.
Variable error_checker : option (PyException -> eff W bool).
Variable abort_checker : option (eff W bool).

(** One pass of the loop: a failed attempt is appended and the loop goes
    on or breaks, or a well-formed result is returned. *)
Lemma async_attempt_keeps_invariant (start : Q) (i : nat) (f : Frame W) :
  failed_so_far i (loc_attempts f) ->
  match async_attempt rt operation config error_checker abort_checker start
          (1 + Z.of_nat i) f with
  | (Returned Next, f') => failed_so_far (S i) (loc_attempts f')
  | (o, f') => attempts_post o f'
  end.
Proof.
  intros H. unfold_engine. unfold attempts_post, well_formed.
  run_goal.
  all: solve [ eexists; eassumption
             | eapply shape_failed; [eassumption | discriminate]
             | eapply shape_success; try eassumption; reflexivity
             | apply failed_so_far_snoc; auto
             | eexists; apply failed_so_far_snoc; eauto ].
Qed.

Lemma async_loop_attempts (start : Q) (f : Frame W) :
  loc_attempts f = [] ->
  attempts_post
    (fst (for_each (py_range 1 (max_attempts config + 1))
            (async_attempt rt operation config error_checker abort_checker
                           start) f))
    (snd (for_each (py_range 1 (max_attempts config + 1))
            (async_attempt rt operation config error_checker abort_checker
                           start) f)).
Proof.
  intros H0.
  apply (for_each_invariant
           (async_attempt rt operation config error_checker abort_checker
                          start)
           (fun i f => failed_so_far i (loc_attempts f))
           (@attempts_post W T)).
  - intros i x s Hn Hi. apply nth_error_py_range in Hn. subst x.
    apply async_attempt_keeps_invariant. exact Hi.
  - intros s Hs. simpl. eexists; exact Hs.
  - rewrite H0. split; [constructor | reflexivity].
Qed.

(** C4. Whatever the operation, the configuration and the checkers do,
    a call of [execute_with_retry] either returns a result whose variant
    is [SUCCESS] exactly when its attempt list is non-empty and ends in an
    attempt with [success = true], and whose attempts are numbered
    [1, 2, ..., k] in order, or it lets through an exception that does
    not derive from [Exception]. *)
Theorem execute_with_retry_result_invariant (f : Frame W) :
  match fst (execute_with_retry rt operation config error_checker
                                abort_checker f) with
  | Returned r =>
      (result r = SUCCESS <->
       exists l a, attempts r = l ++ [a] /\ success a = true) /\
      map attempt_number (attempts r)
      = py_range 1 (Z.of_nat (List.length (attempts r)) + 1)
  | Raised e => is_Exception e = false
  end.
Proof.
  unfold execute_with_retry.
  unfold now, init_locals, update_stats, call, total, modify.
  unfold bind at 1 2 3.
  destruct (datetime_now rt (world f)) as [t0 w0]. simpl_frame.
  unfold try_except, bind.
  match goal with
  | |- context [for_each ?l ?b ?s] =>
      pose proof (@async_loop_attempts t0 s eq_refl) as L;
      destruct (for_each l b s) as [[[| |r]|e] f1]
  end; simpl in L |- *.
  - unfold_engine. run_goal. destruct L as [i L].
    eapply shape_failed; [exact L | discriminate].
  - unfold_engine. run_goal. destruct L as [i L].
    eapply shape_failed; [exact L | discriminate].
  - exact L.
  - destruct (is_Exception e) eqn:E; [|exact E].
    unfold_engine. run_goal. destruct L as [i L].
    eapply shape_failed; [exact L | discriminate].
Qed.

End ResultInvariant.

(** The scenario of the specification: three attempts allowed, an
    operation that fails twice and then succeeds. *)
Example fails_twice_then_succeeds :
  summary (execute_with_retry counting_runtime third_time_lucky
             create_default None None (enter 0%nat fresh_stats))
  = Some (SUCCESS, 3%nat).
Proof. vm_compute. reflexivity. Qed.

(** Three attempts allowed, an operation that always fails. *)
Example always_fails :
  summary (execute_with_retry counting_runtime failing_operation
             create_default None None (enter 0%nat fresh_stats))
  = Some (FAILED_ALL_ATTEMPTS, 3%nat).
Proof. vm_compute. reflexivity. Qed.

(** The deadline has passed before the first attempt starts. *)
Example deadline_already_passed :
  summary (execute_with_retry ticking_runtime quick_operation
             five_second_config None None (enter 0%nat fresh_stats))
  = Some (TIMEOUT, 0%nat).
Proof. vm_compute. reflexivity. Qed.

(** The abort check comes before the deadline check: with the same
    clock and deadline, a checker that says yes ends the call as aborted. *)
Example abort_precedes_deadline :
  summary (execute_with_retry ticking_runtime quick_operation
             five_second_config None (Some abort_now)
             (enter 0%nat fresh_stats))
  = Some (ABORTED, 0%nat).
Proof. vm_compute. reflexivity. Qed.

(** ** A zero timeout *)

Lemma no_timeout_check_nil : no_timeout_check [].
Proof. intros el H. inversion H. Qed.

Lemma no_timeout_check_snoc (tr : list Event) (ev : Event) :
  no_timeout_check tr ->
  (forall elapsed, ev <> TimeoutChecked elapsed) ->
  no_timeout_check (tr ++ [ev]).
Proof.
  intros H Hev el Hin. apply in_app_or in Hin. destruct Hin as [Hin|Hin].
  - exact (H el Hin).
  - destruct Hin as [Hin|[]]. exact (Hev el Hin).
Qed.

Lemma nonzero_zero (limit : Q) : (limit == 0)%Q -> nonzero limit = false.
Proof.
  intros H. unfold nonzero. apply negb_false_iff. apply Qeq_bool_iff. exact H.
Qed.

Ltac close_no_check :=
  repeat first
    [ assumption
    | split
    | discriminate
    | apply no_timeout_check_snoc; [|intros ?; discriminate] ].

Section ZeroTimeout.

Context {W T : Type}.
Variable rt : Runtime W.
Variable operation : Operation W T.
Variable config : RetryConfiguration W.
Variable error_checker : option (PyException -> eff W bool).
Variable abort_checker : option (eff W bool).
Variable limit : Q.
Hypothesis timeout_given : timeout config = Some limit.
Hypothesis timeout_zero : (limit == 0)%Q.

Lemma async_attempt_no_timeout (start : Q) (k : Z) (f : Frame W) :
  no_timeout_check (trace f) ->
  match async_attempt rt operation config error_checker abort_checker start
          k f with
  | (Returned Next, f') => no_timeout_check (trace f')
  | (o, f') => never_timeout_post o f'
  end.
Proof.
  intros H. unfold async_attempt, check_timeout.
  rewrite timeout_given, (nonzero_zero timeout_zero).
  unfold_engine. unfold never_timeout_post.
  run_goal; close_no_check.
Qed.

Lemma sync_attempt_no_timeout (start : Q) (k : Z) (f : Frame W) :
  no_timeout_check (trace f) ->
  match sync_attempt rt operation config error_checker start k f with
  | (Returned Next, f') => no_timeout_check (trace f')
  | (o, f') => never_timeout_post o f'
  end.
Proof.
  intros H. unfold sync_attempt.
  rewrite timeout_given, (nonzero_zero timeout_zero).
  unfold_engine. unfold never_timeout_post.
  run_goal; close_no_check.
Qed.

(** C10. When [config.timeout] is zero, neither [execute_with_retry] nor
    [execute_with_retry_sync] returns [TIMEOUT], and neither makes a
    single deadline check: a zero timeout switches the check off. *)
Theorem zero_timeout_never_times_out (w : W) (st : Stats) :
  match execute_with_retry rt operation config error_checker abort_checker
          (enter w st) with
  | (Returned r, f') => result r <> TIMEOUT /\ no_timeout_check (trace f')
  | (Raised _, f') => no_timeout_check (trace f')
  end /\
  match execute_with_retry_sync rt operation config error_checker
          (enter w st) with
  | (Returned r, f') => result r <> TIMEOUT /\ no_timeout_check (trace f')
  | (Raised _, f') => no_timeout_check (trace f')
  end.
Proof.
  split.
  - unfold execute_with_retry.
    unfold now, init_locals, update_stats, call, total, modify.
    unfold bind at 1 2 3, enter. simpl_frame.
    destruct (datetime_now rt w) as [t0 w0]. simpl_frame.
    unfold try_except, bind.
    match goal with
    | |- context [for_each ?l ?b ?s] =>
        pose proof (for_each_invariant b
                      (fun (_ : nat) (f : Frame W) =>
                         no_timeout_check (trace f))
                      never_timeout_post l) as L;
        specialize (L (fun i x s0 _ Hi => async_attempt_no_timeout t0 x s0 Hi)
                      (fun s0 Hs => Hs) s no_timeout_check_nil);
        destruct (for_each l b s) as [[[| |r]|e] f1]
    end; simpl in L.
    + unfold_engine. run_goal; close_no_check.
    + unfold_engine. run_goal; close_no_check.
    + exact L.
    + unfold_engine. run_goal; close_no_check.
  - unfold execute_with_retry_sync.
    unfold now, init_locals, update_stats, call, total, modify.
    unfold bind at 1 2 3, enter. simpl_frame.
    destruct (datetime_now rt w) as [t0 w0]. simpl_frame.
    unfold try_except, bind.
    match goal with
    | |- context [for_each ?l ?b ?s] =>
        pose proof (for_each_invariant b
                      (fun (_ : nat) (f : Frame W) =>
                         no_timeout_check (trace f))
                      never_timeout_post l) as L;
        specialize (L (fun i x s0 _ Hi => sync_attempt_no_timeout t0 x s0 Hi)
                      (fun s0 Hs => Hs) s no_timeout_check_nil);
        destruct (for_each l b s) as [[[| |r]|e] f1]
    end; simpl in L.
    + unfold_engine. run_goal; close_no_check.
    + unfold_engine. run_goal; close_no_check.
    + exact L.
    + unfold_engine. run_goal; close_no_check.
Qed.

End ZeroTimeout.

(** C10, at [timeout = 0.0] with an operation that succeeds. *)
Lemma zero_timeout_never_times_out_witness :
  match execute_with_retry still_runtime succeeding_operation
          zero_timeout_config None None (enter tt fresh_stats) with
  | (Returned r, f') => result r <> TIMEOUT /\ no_timeout_check (trace f')
  | (Raised _, f') => no_timeout_check (trace f')
  end /\
  match execute_with_retry_sync still_runtime succeeding_operation
          zero_timeout_config None (enter tt fresh_stats) with
  | (Returned r, f') => result r <> TIMEOUT /\ no_timeout_check (trace f')
  | (Raised _, f') => no_timeout_check (trace f')
  end.
Proof.
  apply (@zero_timeout_never_times_out unit nat still_runtime
           succeeding_operation zero_timeout_config None None 0%Q).
  - reflexivity.
  - reflexivity.
Defined.

(** ** The synchronous variant *)

Section SyncVariant.

Context {W T : Type}.
Variable rt : Runtime W.
Variable operation : Operation W T.
Variable config : RetryConfiguration W.
Variable error_checker : option (PyException -> eff W bool).
Hypothesis not_suspending : iscoroutinefunction operation = false.
Hypothesis same_sleep :
  forall (d : Q) (w : W), asyncio_sleep rt d w = time_sleep rt d w.

Lemma sync_attempt_agrees (start : Q) (k : Z) (f : Frame W) :
  async_attempt rt operation config error_checker None start k f
  = sync_attempt rt operation config error_checker start k f.
Proof.
  unfold_engine. rewrite not_suspending.
  repeat (simpl_frame; try rewrite same_sleep;
          match goal with
          | |- context [match ?x with _ => _ end] => destruct_innermost x
          end);
  reflexivity.
Qed.

(** C9 (amended). For an operation that is not a coroutine function, and
    when both kinds of sleep act on the world alike,
    [execute_with_retry] called without an abort checker and
    [execute_with_retry_sync] end the same way in the same state: same
    variant, same attempts, same final error, same statistics. *)
Theorem sync_variant_agrees_without_abort_checker (f : Frame W) :
  execute_with_retry rt operation config error_checker None f
  = execute_with_retry_sync rt operation config error_checker f.
Proof.
  unfold execute_with_retry, execute_with_retry_sync.
  apply bind_ext; [reflexivity|]. intros start f0.
  apply bind_ext; [reflexivity|]. intros _ f1.
  apply bind_ext; [reflexivity|]. intros _ f2.
  apply try_except_ext.
  - intros f3. apply bind_ext.
    + apply for_each_ext. intros k f4. apply sync_attempt_agrees.
    + intros [| |r] f4; reflexivity.
  - intros e f3. reflexivity.
Qed.

End SyncVariant.

(** C9 (amended), at an operation that fails twice before it succeeds. *)
Lemma sync_variant_agrees_witness :
  execute_with_retry counting_runtime third_time_lucky create_default None
    None (enter 0%nat fresh_stats)
  = execute_with_retry_sync counting_runtime third_time_lucky create_default
      None (enter 0%nat fresh_stats).
Proof.
  apply (@sync_variant_agrees_without_abort_checker nat nat counting_runtime
           third_time_lucky create_default None).
  - reflexivity.
  - intros d w. reflexivity.
Defined.

(** C9 (as stated, refuted). [execute_with_retry_sync] takes no abort
    checker. With an abort checker that says yes, the asynchronous method
    returns [ABORTED] with no attempt; the synchronous one, given the same
    operation, configuration and error checker, returns [SUCCESS] with
    one attempt. *)
Lemma sync_variant_cannot_abort :
  summary (execute_with_retry still_runtime succeeding_operation
             create_default None (Some always_abort) (enter tt fresh_stats))
  = Some (ABORTED, 0%nat) /\
  summary (execute_with_retry_sync still_runtime succeeding_operation
             create_default None (enter tt fresh_stats))
  = Some (SUCCESS, 1%nat).
Proof. split; vm_compute; reflexivity. Qed.

(** ** The abort checker *)

Lemma collect_app {A : Type} (pick : Event -> option A)
    (t1 t2 : list Event) :
  collect pick (t1 ++ t2) = collect pick t1 ++ collect pick t2.
Proof. unfold collect. apply flat_map_app. Qed.

Lemma at_boundary_start : at_boundary 0 [] [].
Proof. constructor; simpl; auto. Qed.

Ltac trace_simpl :=
  unfold abort_answers, invoked, delays, sleeps, timeout_checks in *;
  rewrite ?collect_app, ?length_app; cbn [collect flat_map app List.length];
  rewrite ?app_nil_r.

Ltac close_trace i :=
  first
    [ exists i; trace_simpl; assumption
    | exists (S i); trace_simpl;
      match goal with H : _ = repeat false i |- _ => rewrite H end;
      apply repeat_snoc ].

Section AbortBoundary.

Context {W T : Type}.
Variable rt : Runtime W.
Variable operation : Operation W T.
Variable config : RetryConfiguration W.
Variable error_checker : option (PyException -> eff W bool).
Variable checker : eff W bool.

(** One pass of the loop, seen from the trace: the abort check comes
    first; when it answers true nothing else is done in that pass. *)
Lemma async_attempt_abort (start : Q) (i : nat) (f : Frame W) :
  at_boundary i (loc_attempts f) (trace f) ->
  match async_attempt rt operation config error_checker (Some checker) start
          (1 + Z.of_nat i) f with
  | (Returned Next, f') => at_boundary (S i) (loc_attempts f') (trace f')
  | (o, f') => abort_post o f'
  end.
Proof.
  intros H. unfold_engine. unfold abort_post.
  run_goal.
  all: try (left; split; [reflexivity|]; exists i, (trace f);
            split; [reflexivity | exact H]).
  all: try (right; split; [discriminate|]).
  all: destruct H as [Ha Hi Hl Hd Hs Ht].
  all: try solve [close_trace i].
  all: repeat match goal with
       | E : (_ >? _)%Z = true |- _ => apply Z.gtb_lt in E
       | E : (_ >? _)%Z = false |- _ =>
           rewrite Z.gtb_ltb in E; apply Z.ltb_ge in E
       end.
  all: constructor; trace_simpl; rewrite ?Ha, ?Hi;
       first [ apply repeat_snoc
             | symmetry; apply py_range_snoc
             | lia ].
Qed.

(** A whole call, seen from the trace. *)
Lemma execute_with_retry_abort (w : W) (st : Stats) :
  match execute_with_retry rt operation config error_checker (Some checker)
          (enter w st) with
  | (Returned r, f') =>
      (result r = ABORTED /\
       exists i pre, trace f' = pre ++ [AbortChecked true] /\
                     at_boundary i (attempts r) pre) \/
      (result r <> ABORTED /\
       exists n, abort_answers (trace f') = repeat false n)
  | (Raised _, f') => exists n, abort_answers (trace f') = repeat false n
  end.
Proof.
  unfold execute_with_retry.
  unfold now, init_locals, update_stats, call, total, modify.
  unfold bind at 1 2 3, enter. simpl_frame.
  destruct (datetime_now rt w) as [t0 w0]. simpl_frame.
  unfold try_except, bind.
  match goal with
  | |- context [for_each ?l ?b ?s] =>
      pose proof (for_each_invariant b
                    (fun (i : nat) (f : Frame W) =>
                       at_boundary i (loc_attempts f) (trace f))
                    abort_post l) as L;
      specialize (L (fun i x s0 Hn Hi =>
                       eq_ind_r
                         (fun k => match b k s0 with
                                   | (Returned Next, s') =>
                                       at_boundary (S i) (loc_attempts s')
                                                   (trace s')
                                   | (o, s') => abort_post o s'
                                   end)
                         (async_attempt_abort t0 s0 Hi)
                         (nth_error_py_range _ _ _ Hn)));
      specialize (L (fun s0 Hs => ex_intro _ _ (b_answers Hs))
                    s at_boundary_start);
      destruct (for_each l b s) as [[[| |r]|e] f1]
  end; simpl in L.
  - unfold_engine. run_goal; right; (split; [discriminate | exact L]).
  - unfold_engine. run_goal; right; (split; [discriminate | exact L]).
  - exact L.
  - unfold_engine. run_goal; try exact L;
      right; (split; [discriminate | exact L]).
Qed.

(** Read off the trace of a finished call: when the abort checker was
    asked twice and answered no, then yes (so that the first yes came at
    the boundary before attempt 2), the call returned [ABORTED]
    with exactly one recorded attempt. The yes is the last thing on the
    trace: before it the operation was invoked once, for attempt 1, no
    delay was computed, nothing was slept, and at most the deadline check
    of attempt 1 was made; after it comes neither a deadline check, nor a
    delay, nor an invocation. *)
Lemma abort_answers_no_then_yes (w : W) (st : Stats)
    (r : RetryExecutionResult W T) (f' : Frame W) :
  execute_with_retry rt operation config error_checker (Some checker)
    (enter w st) = (Returned r, f') ->
  abort_answers (trace f') = [false; true] ->
  result r = ABORTED /\
  List.length (attempts r) = 1%nat /\
  exists pre,
    trace f' = pre ++ [AbortChecked true] /\
    invoked pre = [1%Z] /\
    delays pre = [] /\
    sleeps pre = [] /\
    (List.length (timeout_checks pre) <= 1)%nat.
Proof.
  intros Hrun Hans.
  pose proof (execute_with_retry_abort w st) as H. rewrite Hrun in H.
  destruct H as [(Hr & i & pre & Htr & Hb) | (_ & n & Hn)].
  - assert (i = 1%nat) as ->.
    { rewrite Htr in Hans. unfold abort_answers in Hans.
      rewrite collect_app in Hans. fold abort_answers in Hans.
      rewrite (b_answers Hb) in Hans.
      destruct i as [|[|i]]; simpl in Hans; try discriminate. reflexivity. }
    destruct Hb as [_ Hi Hl Hd Hs Ht].
    split; [exact Hr|]. split; [exact Hl|].
    exists pre. split; [exact Htr|]. split; [exact Hi|].
    split; [apply length_zero_iff_nil; exact Hd|].
    split; [apply length_zero_iff_nil; simpl in Hs; lia | exact Ht].
  - rewrite Hn in Hans. destruct n as [|[|[|n]]]; discriminate.
Qed.

(** C8. Follow a call of [execute_with_retry] through the world: the
    abort checker says no at the boundary before attempt 1, the deadline
    check (if a deadline is configured) finds time left, the operation
    raises an [Exception] and [should_retry] approves a retry. If the
    abort checker, asked in the world that leaves, says yes, the call
    returns [ABORTED] with exactly that one failed attempt. The checker
    is asked first at the boundary: between the answer of [should_retry]
    and the yes the world is not touched, and after the yes only the
    clock is read for the total duration; no deadline check, no delay
    and no invocation belongs to attempt 2, whatever the clock, the
    delay policy and the deadline are. *)
Theorem abort_before_second_attempt (w w1 w2 w3 w4 w5 w6 w7 w8 w9 : W)
    (st : Stats) (t0 started ended finish : Q) (checks : list Q)
    (e : PyException) :
  datetime_now rt w = (t0, w1) ->
  checker w1 = (Returned false, w2) ->
  deadline_left rt config t0 w2 w3 checks ->
  datetime_now rt w3 = (started, w4) ->
  invoke operation w4 = (Raised e, w5) ->
  is_Exception e = true ->
  datetime_now rt w5 = (ended, w6) ->
  should_retry 1 config e error_checker w6 = (Returned true, w7) ->
  checker w7 = (Returned true, w8) ->
  datetime_now rt w8 = (finish, w9) ->
  let attempt :=
    mkAttempt 1 started (Some ended) false (Some (exc_str e)) 0 in
  execute_with_retry rt operation config error_checker (Some checker)
    (enter w st)
  = (Returned (mkResult ABORTED None [attempt] (finish - t0)
                 (Some aborted_message) (Some config)),
     mkFrame w9
       (incr_aborted_executions
          (incr_total_attempts (incr_total_executions st)))
       [attempt] (Some e)
       ([AbortChecked false] ++ map TimeoutChecked checks
        ++ [OperationInvoked 1; ErrorChecked true; AbortChecked true])).
Proof.
  intros H0 H1 Hd H3 H4 He H5 H6 H7 H8 attempt.
  assert (Hmax : (1 < max_attempts config)%Z).
  { unfold should_retry in H6.
    destruct (1 >=? max_attempts config)%Z eqn:E;
      [discriminate H6 | rewrite Z.geb_leb in E; apply Z.leb_gt in E;
                         exact E]. }
  assert (Hlt : (1 <? max_attempts config)%Z = true)
    by (apply Z.ltb_lt; exact Hmax).
  assert (Hcheck :
    forall f : Frame W, world f = w2 ->
      check_timeout rt config t0 f
      = (Returned None,
         mkFrame w3 (stats f) (loc_attempts f) (loc_last_error f)
                 (trace f ++ map TimeoutChecked checks))).
  { intros f Hw. unfold check_timeout, deadline_left in *.
    destruct (timeout config) as [limit|].
    - destruct (nonzero limit).
      + destruct Hd as (t & Ht & -> & Hl).
        unfold now, log, call, total, modify, bind, ret.
        rewrite Hw, Ht. cbn [world stats loc_attempts loc_last_error trace].
        replace (Qle_bool limit (t - t0)) with false.
        * reflexivity.
        * symmetry. apply Qlt_bool_iff in Hl. unfold Qlt_bool in Hl.
          apply negb_true_iff in Hl. exact Hl.
      + destruct Hd as [-> ->]. unfold ret. rewrite app_nil_r, <- Hw.
        destruct f; reflexivity.
    - destruct Hd as [-> ->]. unfold ret. rewrite app_nil_r, <- Hw.
      destruct f; reflexivity. }
  assert (Hinv : (if iscoroutinefunction operation
                  then call (invoke operation)
                  else call (invoke operation))
                 = call (invoke operation))
    by (destruct (iscoroutinefunction operation); reflexivity).
  unfold execute_with_retry.
  rewrite (py_range_cons (a := 1) (b := max_attempts config + 1)) by lia.
  rewrite (py_range_cons (a := 1 + 1) (b := max_attempts config + 1)) by lia.
  cbn [for_each]. unfold async_attempt at 1 2. rewrite Hinv.
  unfold wait_before. change (1 >? 1)%Z with false. cbv beta iota.
  unfold try_except, bind, now, init_locals, update_stats, call, total,
    log, modify, gets, ret, enter.
  cbn [world stats loc_attempts loc_last_error trace].
  rewrite H0; simpl_frame. rewrite H1; simpl_frame.
  rewrite Hcheck by reflexivity. simpl_frame.
  rewrite H3; simpl_frame. rewrite H4, He.
  unfold attempt_failed, now, append_attempt, set_last_error, call, total,
    log, modify, bind, ret.
  simpl_frame. rewrite H5; simpl_frame.
  rewrite Hlt; cbv beta iota; simpl_frame.
  rewrite H6; cbv beta iota; cbn [negb]; simpl_frame.
  rewrite H7; cbv beta iota; simpl_frame.
  rewrite H8; cbv beta iota; simpl_frame.
  cbn [after_loop app]. rewrite <- !app_assoc. reflexivity.
Qed.

End AbortBoundary.

(** C8, at an operation that always fails, a checker that says no, then
    yes, and a deadline of five seconds: the deadline does not keep the
    checker from being asked, and the yes ends the call. *)
Lemma abort_before_second_attempt_witness :
  let attempt := mkAttempt 1 0 (Some 0%Q) false
                   (Some (exc_str connection_reset)) 0 in
  execute_with_retry counting_runtime failing_operation five_second_config
    None (Some abort_on_second_check) (enter 0%nat fresh_stats)
  = (Returned (mkResult ABORTED None [attempt] (0 - 0)
                 (Some aborted_message)
                 (Some five_second_config)),
     mkFrame 2%nat
       (incr_aborted_executions
          (incr_total_attempts (incr_total_executions fresh_stats)))
       [attempt] (Some connection_reset)
       ([AbortChecked false] ++ map TimeoutChecked [(0 - 0)%Q]
        ++ [OperationInvoked 1; ErrorChecked true; AbortChecked true])).
Proof.
  refine (@abort_before_second_attempt nat nat counting_runtime
            failing_operation five_second_config None abort_on_second_check
            0%nat 0%nat 1%nat 1%nat 1%nat 1%nat 1%nat 1%nat 2%nat 2%nat
            fresh_stats 0 0 0 0 [(0 - 0)%Q] connection_reset
            eq_refl eq_refl _ eq_refl eq_refl eq_refl eq_refl eq_refl
            eq_refl eq_refl).
  exists 0%Q. split; [reflexivity|]. split; reflexivity.
Defined.

End RetryTheorems.

(* ================================================================== *)
(** * Properties of the process engine *)
(* ================================================================== *)

Section ProcessTheorems.

Import process_engine process_properties process_scenarios.

Section ProcessFacts.

Context {P : Type}.
Variable sys : System P.

(** ** [AsyncProcessEngine.execute_process] *)






(** A spawn failure is an exception of the [try] block. *)
Lemma spawn_failure_raises (sid : SessionId) (started : Q)
    (request : ProcessRequest) (monitors : option (list (Monitor P)))
    (s s1 : Engine P) (e : PyException) :
  _start_process sys request s = (Raised e, s1) ->
  supervise sys sid started request monitors s = (Raised e, s1).
Proof.
  intros H. unfold supervise, bind. rewrite H. reflexivity.
Qed.


(** ** [ProcessTerminator.terminate_gracefully] *)

Lemma terminate_gracefully_exited (process : Process P)
    (timeout_term timeout_kill : Q) (s : Engine P) (code : Z) :
  returncode process (world s) = Some code ->
  terminate_gracefully sys process timeout_term timeout_kill s
  = (Returned true, s).
Proof.
  intros H. unfold terminate_gracefully, read_returncode, gets, bind.
  rewrite H. reflexivity.
Qed.

(** C2 (amended). On a process that has not exited:
    an [Exception] raised while the graceful signal is sent, or by the
    wait that follows it (its timeout apart), is caught and
    [terminate_gracefully] returns false at once, with no forceful signal
    and no OS-level kill;
    an [Exception] raised while the forceful signal is sent (after the
    graceful wait timed out) is caught and false is returned at once,
    with no OS-level kill;
    when both signals were sent and both waits timed out, the OS-level
    kill is issued and the return value is true when it could be issued
    and false when it raised. *)
Theorem terminate_gracefully_exceptions (process : Process P)
    (timeout_term timeout_kill : Q) (s : Engine P) :
  returncode process (world s) = None ->
  (forall e w',
     is_Exception e = true ->
     terminate process (world s) = (Raised e, w') ->
     terminate_gracefully sys process timeout_term timeout_kill s
     = (Returned false, advanced s w' [SentTerminate])) /\
  (forall e w1 w',
     is_Exception e = true ->
     is_TimeoutError e = false ->
     terminate process (world s) = (Returned tt, w1) ->
     wait_for process timeout_term w1 = (Raised e, w') ->
     terminate_gracefully sys process timeout_term timeout_kill s
     = (Returned false, advanced s w' [SentTerminate])) /\
  (forall e late w1 w2 w',
     is_Exception e = true ->
     terminate process (world s) = (Returned tt, w1) ->
     wait_for process timeout_term w1 = (Raised late, w2) ->
     is_TimeoutError late = true ->
     kill process w2 = (Raised e, w') ->
     terminate_gracefully sys process timeout_term timeout_kill s
     = (Returned false, advanced s w' [SentTerminate; SentKill])) /\
  (forall late later w1 w2 w3 w4,
     terminate process (world s) = (Returned tt, w1) ->
     wait_for process timeout_term w1 = (Raised late, w2) ->
     is_TimeoutError late = true ->
     kill process w2 = (Returned tt, w3) ->
     wait_for process timeout_kill w3 = (Raised later, w4) ->
     is_TimeoutError later = true ->
     terminate_gracefully sys process timeout_term timeout_kill s
     = (Returned match fst (os_level_kill sys process w4) with
                 | Returned _ => true
                 | Raised _ => false
                 end,
        advanced s (snd (os_level_kill sys process w4))
                 [SentTerminate; SentKill; OSLevelKill])).
Proof.
  intros Hrc.
  assert (Hopen : forall r,
    try_except is_Exception
      (bind (log SentTerminate) (fun _ =>
       bind (call (terminate process)) (fun _ =>
       bind (try_except is_TimeoutError
               (bind (call (wait_for process timeout_term))
                     (fun _ => ret true))
               (fun _ => ret false)) (fun exited : bool =>
       if exited then ret true
       else
         bind (log SentKill) (fun _ =>
         bind (call (kill process)) (fun _ =>
         bind (try_except is_TimeoutError
                 (bind (call (wait_for process timeout_kill))
                       (fun _ => ret true))
                 (fun _ => ret false)) (fun exited : bool =>
         if exited then ret true
         else
           try_except any_exception
             (bind (log OSLevelKill) (fun _ =>
              bind (if String.eqb (os_name sys) "nt"
                    then call (taskkill sys (pid process))
                    else call (os_kill sys (pid process)))
                   (fun _ => ret true)))
             (fun _ => ret false))))))))
      (fun _ => ret false) s = r ->
    terminate_gracefully sys process timeout_term timeout_kill s = r).
  { intros r <-. unfold terminate_gracefully, read_returncode, gets.
    unfold bind at 1. rewrite Hrc. reflexivity. }
  split; [|split; [|split]].
  - intros e w' He Ht. apply Hopen.
    unfold try_except, bind, log, modify, call, ret, advanced.
    cbn [world active_processes stats actions].
    rewrite Ht, He. reflexivity.
  - intros e w1 w' He Hn Ht Hw. apply Hopen.
    unfold try_except, bind, log, modify, call, ret, advanced.
    cbn [world active_processes stats actions].
    rewrite Ht. cbn [world active_processes stats actions].
    rewrite Hw, Hn, He. reflexivity.
  - intros e late w1 w2 w' He Ht Hw Hl Hk. apply Hopen.
    unfold try_except, bind, log, modify, call, ret, advanced.
    cbn [world active_processes stats actions].
    rewrite Ht. cbn [world active_processes stats actions].
    rewrite Hw, Hl. cbn [world active_processes stats actions].
    rewrite Hk, He. rewrite <- app_assoc. reflexivity.
  - intros late later w1 w2 w3 w4 Ht Hw Hl Hk Hw' Hl'. apply Hopen.
    unfold try_except, bind, log, modify, call, ret, os_level_kill,
      any_exception, advanced.
    cbn [world active_processes stats actions].
    rewrite Ht. cbn [world active_processes stats actions].
    rewrite Hw, Hl. cbn [world active_processes stats actions].
    rewrite Hk. cbn [world active_processes stats actions].
    rewrite Hw', Hl'. cbn [world active_processes stats actions].
    destruct (String.eqb (os_name sys) "nt");
      cbn [world active_processes stats actions].
    + destruct (taskkill sys (pid process) w4) as [[[]|e] w5];
        cbn [fst snd world active_processes stats actions];
        rewrite <- !app_assoc; reflexivity.
    + destruct (os_kill sys (pid process) w4) as [[[]|e] w5];
        cbn [fst snd world active_processes stats actions];
        rewrite <- !app_assoc; reflexivity.
Qed.

End ProcessFacts.

(** C2 (amended), at four processes: one that is gone when the graceful
    signal is sent, one whose waiter breaks, one that cannot be killed,
    and one that survives both signals on a system whose last-resort kill
    fails. *)
Lemma terminate_gracefully_exceptions_witness :
  terminate_gracefully posix vanished_process 5 3 idle
  = (Returned false, advanced idle tt [SentTerminate]) /\
  terminate_gracefully posix unwaitable_process 5 3 idle
  = (Returned false, advanced idle tt [SentTerminate]) /\
  terminate_gracefully posix protected_process 5 3 idle
  = (Returned false, advanced idle tt [SentTerminate; SentKill]) /\
  terminate_gracefully posix immortal_process 5 3 idle
  = (Returned false,
     advanced idle tt [SentTerminate; SentKill; OSLevelKill]).
Proof.
  split; [|split; [|split]].
  - apply (proj1 (@terminate_gracefully_exceptions unit posix
                    vanished_process 5 3 idle eq_refl)
             no_such_process tt eq_refl eq_refl).
  - apply (proj1 (proj2 (@terminate_gracefully_exceptions unit posix
                           unwaitable_process 5 3 idle eq_refl))
             no_such_process tt tt eq_refl eq_refl eq_refl eq_refl).
  - apply (proj1 (proj2 (proj2 (@terminate_gracefully_exceptions unit posix
                                  protected_process 5 3 idle eq_refl)))
             permission_denied timed_out tt tt tt
             eq_refl eq_refl eq_refl eq_refl eq_refl).
  - apply (proj2 (proj2 (proj2 (@terminate_gracefully_exceptions unit posix
                                  immortal_process 5 3 idle eq_refl)))
             timed_out timed_out tt tt tt tt
             eq_refl eq_refl eq_refl eq_refl eq_refl eq_refl).
Defined.

(** C2 (as stated, refuted). The graceful signal raises
    [ProcessLookupError]; [terminate_gracefully] returns false although
    neither the forceful signal nor the OS-level kill was tried: the
    exception did not fall through to the next stage, and false was
    returned without the OS-level step failing. *)
Lemma terminate_exception_ends_escalation :
  terminate vanished_process tt = (Raised no_such_process, tt) /\
  is_Exception no_such_process = true /\
  fst (terminate_gracefully posix vanished_process 5 3 idle)
  = Returned false /\
  ~ In SentKill
       (actions (snd (terminate_gracefully posix vanished_process 5 3 idle)))
  /\
  ~ In OSLevelKill
       (actions (snd (terminate_gracefully posix vanished_process 5 3 idle))).
Proof.
  split; [reflexivity|]. split; [reflexivity|]. split; [reflexivity|].
  split; vm_compute; intros [H|[]]; discriminate H.
Qed.


(** A missing executable ends in a [FAILED] result that carries the
    error text. *)
Example spawn_failure_is_reported :
  fst (execute_process bare_system record_request None idle)
  = Returned (mkProcessResult (proc_ 0) FAILED None ""
                (exc_str file_not_found) 0 (Some 0%Q)
                [("exception"%string, Some (exc_str file_not_found))]).
Proof. reflexivity. Qed.

End ProcessTheorems.


(* ================================================================== *)
(** * More properties of the retry engine *)
(* ================================================================== *)

Section RetryAccounting.

Import retry_strategy retry_properties retry_scenarios.
Import retry_conveniences retry_accounting.

Ltac open_executor :=
  unfold async_attempt, sync_attempt, after_loop, check_timeout,
    timeout_result, wait_before, attempt_failed, attempt_succeeded,
    all_attempts_failed, unexpected_error, now, log, update_stats,
    append_attempt, set_last_error, init_locals, call, total, bind,
    try_except, gets, modify, ret, raise in *.

Ltac innermost t :=
  lazymatch t with
  | context [match ?x with _ => _ end] => innermost x
  | _ => destruct t eqn:?
  end.

Ltac frame_simpl :=
  cbn [fst snd world stats loc_attempts loc_last_error trace
       result value attempts total_duration final_error configuration
       attempt_number success error end_time delay_before start_time] in *.

Ltac explore :=
  repeat (frame_simpl;
          match goal with
          | |- context [match ?x with _ => _ end] => innermost x
          end);
  frame_simpl.

Lemma collect_snoc {A : Type} (pick : Event -> option A) (tr : list Event)
    (ev : Event) :
  collect pick (tr ++ [ev])
  = collect pick tr ++ match pick ev with Some a => [a] | None => [] end.
Proof.
  unfold collect. rewrite flat_map_app. simpl. rewrite app_nil_r.
  reflexivity.
Qed.

(** [should_retry] lets through only what its checker raises past
    [except Exception]. *)
Lemma should_retry_raises {W : Type} (n : Z) (config : RetryConfiguration W)
    (error x : PyException) (checker : option (PyException -> eff W bool))
    (w w' : W) :
  should_retry n config error checker w = (Raised x, w') ->
  is_Exception x = false.
Proof.
  unfold should_retry, try_except, ret.
  destruct (n >=? max_attempts config)%Z; [discriminate|].
  destruct checker as [chk|]; [|discriminate].
  destruct (chk error w) as [[b|e] w1]; [discriminate|].
  destruct (is_Exception e) eqn:E; [discriminate|].
  intros H. inversion H; subst. exact E.
Qed.

Section Passes.

Context {W T : Type}.
Variable rt : Runtime W.
Variable operation : Operation W T.
Variable config : RetryConfiguration W.
Variable error_checker : option (PyException -> eff W bool).

Ltac origin_of_delay :=
  match goal with
  | E : (_ >? 1)%Z = false |- delay_origin _ _ _ _ _ =>
      left; split; [rewrite Z.gtb_ltb in E; apply Z.ltb_ge in E; exact E
                   | reflexivity]
  | E : (_ >? 1)%Z = true |- delay_origin _ _ _ _ _ =>
      right; split; [apply Z.gtb_lt in E; apply Z.gt_lt; lia
                    | eexists; eexists; eassumption]
  end.

Ltac origin_of_value :=
  unfold value_origin;
  repeat match goal with
  | E : iscoroutinefunction _ = _ |- _ => rewrite E
  end;
  cbn [andb negb];
  first [ reflexivity
        | do 3 eexists; split; [reflexivity | eassumption] ].

Ltac origin_of_failure :=
  split; [assumption | eexists; eexists; eassumption].

Ltac trace_of_pass :=
  unfold not_checked; cbn [trace];
  unfold invoked, retry_answers, timeout_checks;
  rewrite ?collect_snoc; cbn [app]; rewrite ?app_nil_r; reflexivity.

Ltac time_left :=
  unfold checked_once; cbn [trace];
  intros limit Hlimit Hnonzero;
  try match goal with
  | E : timeout _ = _ |- _ =>
      tryif constr_eq E Hlimit then fail else rewrite E in Hlimit
  end;
  first
    [ discriminate Hlimit
    | injection Hlimit as Hlimit; subst limit;
      first
        [ congruence
        | eexists; split; [trace_of_pass|];
          apply Qnot_le_lt; intros Hle; apply Qle_bool_iff in Hle;
          congruence ] ].

Ltac failed_attempt :=
  do 4 eexists;
  split; [reflexivity|]; split; [reflexivity|];
  split; [origin_of_failure|]; split; [reflexivity|];
  split; [origin_of_delay | trace_of_pass].

Ltac close_pass :=
  first
    [ intros Hexc;
      first [ repeat (split; [trace_of_pass|]);
              first [left; trace_of_pass | right; time_left]
            | exfalso; congruence
            | exfalso;
              match goal with
              | E : should_retry _ _ _ _ _ = (Raised _, _) |- _ =>
                  apply should_retry_raises in E; congruence
              end ]
    | split; [trace_of_pass|];
      first
        [ left; repeat split; trace_of_pass
        | right; left; split; [reflexivity|]; split; [reflexivity|];
          split; [reflexivity|];
          split; [eexists; split; [first [eassumption | reflexivity]|];
                  split; [assumption|];
                  split; [reflexivity|];
                  apply Qle_bool_iff; assumption|];
          split; [reflexivity|]; split; trace_of_pass
        | right; right; do 4 eexists;
          split; [reflexivity|]; split; [reflexivity|]; split; [reflexivity|];
          split; [origin_of_value|]; split; [reflexivity|];
          split; [reflexivity|]; split; [origin_of_delay|];
          split; [trace_of_pass | time_left] ]
    | split; [failed_attempt|];
      split; [time_left|];
      repeat match goal with
      | H : negb ?b = _ |- _ => destruct b; cbn [negb] in H; try discriminate H
      end;
      first
        [ left; split; [reflexivity|];
          split; [apply Z.ltb_lt; assumption | trace_of_pass]
        | right; left; split; [reflexivity|];
          split; [apply Z.ltb_lt; assumption | trace_of_pass]
        | right; right; split; [reflexivity|];
          split; [apply Z.ltb_ge; assumption | trace_of_pass] ] ].

Lemma async_attempt_summary (abort_checker : option (eff W bool))
    (start : Q) (k : Z) (f : Frame W) :
  match async_attempt rt operation config error_checker abort_checker start
          k f with
  | (o, f') => pass_summary rt operation config true k f o f'
  end.
Proof.
  open_executor. unfold pass_summary. explore; close_pass.
Qed.

Lemma sync_attempt_summary (start : Q) (k : Z) (f : Frame W) :
  match sync_attempt rt operation config error_checker start k f with
  | (o, f') => pass_summary rt operation config false k f o f'
  end.
Proof.
  open_executor. unfold pass_summary. explore; close_pass.
Qed.

Lemma py_range_count (a b : Z) :
  List.length (py_range a b) = Z.to_nat (b - a).
Proof. unfold py_range. rewrite length_map, length_seq. reflexivity. Qed.

Lemma recorded_attempt (k : Z) (started ended d : Q) (ok : bool)
    (text : string) :
  recorded (mkAttempt k started (Some ended) ok
              (if ok then None else Some text) d).
Proof.
  unfold recorded. cbn [end_time success error].
  split; [discriminate|]. destruct ok; split; congruence.
Qed.

Lemma first_delay_zero (before : Stats) (i : nat) (f : Frame W)
    (a b : RetryAttempt) (rest : list RetryAttempt) :
  underway rt operation config before i f ->
  delay_origin rt config (1 + Z.of_nat i) (loc_last_error f) (delay_before b) ->
  loc_attempts f ++ [b] = a :: rest ->
  delay_before a = 0%Q.
Proof.
  intros U D E. destruct (loc_attempts f) as [|a0 rest0] eqn:L.
  - simpl in E. inversion E; subst a rest.
    pose proof (u_count U) as C. rewrite L in C. simpl in C. subst i.
    destruct D as [[_ D]|[D _]]; [exact D | simpl in D; lia].
  - simpl in E. inversion E; subst a rest.
    exact (u_first U L).
Qed.

Lemma moved_total_attempts (before s : Stats) (i : nat) :
  moved before s 1 0 0 (Z.of_nat i) 0 ->
  moved before (incr_total_attempts s) 1 0 0 (Z.of_nat (S i)) 0.
Proof.
  intros [M1 M2 M3 M4 M5].
  constructor; unfold incr_total_attempts; simpl; lia.
Qed.

Lemma underway_next (before : Stats) (i : nat) (f f' : Frame W)
    (started ended d : Q) (e : PyException) :
  underway rt operation config before i f ->
  loc_attempts f'
  = loc_attempts f
    ++ [mkAttempt (1 + Z.of_nat i) started (Some ended) false
          (Some (exc_str e)) d] ->
  loc_last_error f' = Some e ->
  failure_origin operation e ->
  stats f' = incr_total_attempts (stats f) ->
  delay_origin rt config (1 + Z.of_nat i) (loc_last_error f) d ->
  invoked (trace f') = invoked (trace f) ++ [(1 + Z.of_nat i)%Z] ->
  underway rt operation config before (S i) f'.
Proof.
  intros U Ha Hl Ho Hs Hd Hi.
  constructor.
  - rewrite Ha, length_app, (u_count U). simpl. lia.
  - rewrite Ha. apply Forall_app. split; [exact (u_recorded U)|].
    constructor; [|constructor].
    exact (recorded_attempt (1 + Z.of_nat i) started ended d false (exc_str e)).
  - rewrite Ha. apply Forall_app. split; [exact (u_failed U)|].
    constructor; [reflexivity | constructor].
  - intros a rest E. rewrite Ha in E.
    eapply first_delay_zero; [exact U | | exact E]. exact Hd.
  - intros a Hin. rewrite Ha in Hin. apply in_app_or in Hin.
    destruct Hin as [Hin|[<-|[]]]; [exact (u_delays U a Hin)|].
    exists (loc_last_error f). exact Hd.
  - rewrite Hl. split; [exact Ho|].
    eexists; eexists; split; [exact Ha | reflexivity].
  - rewrite Hs. apply moved_total_attempts. exact (u_stats U).
  - rewrite Hi, (u_invoked U). symmetry. apply py_range_snoc.
Qed.

Lemma underway_same (before : Stats) (i : nat) (f f' : Frame W) :
  underway rt operation config before i f ->
  loc_attempts f' = loc_attempts f ->
  loc_last_error f' = loc_last_error f ->
  stats f' = stats f ->
  invoked (trace f') = invoked (trace f) ->
  underway rt operation config before i f'.
Proof.
  intros [U1 U2 U3 U4 U5 U6 U7 U8] Ha Hl Hs Hi.
  constructor; rewrite ?Ha, ?Hl, ?Hs, ?Hi; assumption.
Qed.

End Passes.

End RetryAccounting.

Section RetryCalls.

Import retry_strategy retry_properties retry_scenarios.
Import retry_conveniences retry_accounting.

Context {W T : Type}.
Variable rt : Runtime W.
Variable operation : Operation W T.
Variable config : RetryConfiguration W.

Ltac counters U :=
  destruct (u_stats U) as [M1 M2 M3 M4 M5];
  constructor;
  unfold incr_aborted_executions, incr_successful_executions,
    incr_failed_executions, incr_total_attempts;
  cbn [total_executions successful_executions failed_executions
       total_attempts aborted_executions];
  lia.

Lemma in_time_step (i : nat) (f f' : Frame W) :
  in_time config (trace f) i -> checked_once config f f' ->
  in_time config (trace f') (S i).
Proof.
  intros D C limit Hl Hz. destruct (D limit Hl Hz) as [DF DL].
  destruct (C limit Hl Hz) as (elapsed & -> & Hlt). split.
  - apply Forall_app. split; [exact DF|].
    constructor; [exact Hlt | constructor].
  - rewrite length_app. simpl. lia.
Qed.

Lemma in_time_same (i : nat) (f f' : Frame W) :
  in_time config (trace f) i ->
  not_checked f f' \/ checked_once config f f' ->
  in_time config (trace f') i.
Proof.
  intros D [C|C].
  - unfold in_time. rewrite C. exact D.
  - intros limit Hl Hz.
    destruct (in_time_step D C Hl Hz) as [DF DL]. split; [exact DF | lia].
Qed.

Lemma in_time_passed (i : nat) (f : Frame W) (res : RetryResult)
    (total : Q) (limit : Q) :
  in_time config (trace f) i ->
  timeout config = Some limit -> nonzero limit = true ->
  exists passed final,
    timeout_checks (trace f) = passed ++ final /\
    Forall (fun t => (t < limit)%Q) passed /\
    (i <= List.length passed)%nat /\
    (final = [] \/
     (res = TIMEOUT /\ final = [total] /\ (limit <= total)%Q)).
Proof.
  intros D Hl Hz. destruct (D limit Hl Hz) as [DF DL].
  exists (timeout_checks (trace f)), []. rewrite app_nil_r.
  split; [reflexivity|]. split; [exact DF|]. split; [exact DL|].
  left. reflexivity.
Qed.

(** A pass that returns ends the call with a summary of the whole
    execution. *)
Lemma pass_returns (awaited : bool) (before : Stats) (i : nat)
    (f f' : Frame W) (r : RetryExecutionResult W T) :
  (Z.of_nat i < Z.max 0 (max_attempts config))%Z ->
  underway rt operation config before i f ->
  retry_answers (trace f) = repeat true i ->
  in_time config (trace f) i ->
  pass_summary rt operation config awaited (1 + Z.of_nat i) f
    (Returned (Return r)) f' ->
  finished rt operation config awaited before r f'.
Proof.
  intros Hi U A D Hp. cbn [pass_summary] in Hp.
  destruct Hp as
    [Hans [(Haw & Hr & Ha & Hv & He & Hs & Ht & Hc)
          |[(Hr & Ha & Hv & (limit & Hlim & Hnz & He & Hdur) & Hs & Ht & Hc)
           |(started & ended & d & p & Hr & Ha & Hv & Ho & He & Hs
             & Hd & Ht & Hc)]]].
  - constructor; rewrite ?Hr, ?Ha, ?Hv, ?He, ?Hs, ?Ht, ?Hans, ?(u_count U).
    + exact (u_recorded U).
    + exact (u_first U).
    + exact (u_delays U).
    + lia.
    + exact (u_invoked U).
    + exists i, false. rewrite app_nil_r.
      split; [exact A|]. split; [lia | discriminate].
    + intros limit' Hl Hz.
      eapply in_time_passed; [|exact Hl | exact Hz].
      apply (in_time_same D). left. exact Hc.
    + discriminate.
    + split; discriminate.
    + split; [exact Haw | reflexivity].
    + discriminate.
    + cbn [RetryResult_eqb]. counters U.
  - constructor; rewrite ?Hr, ?Ha, ?Hv, ?Hs, ?Ht, ?Hans, ?(u_count U).
    + exact (u_recorded U).
    + exact (u_first U).
    + exact (u_delays U).
    + lia.
    + exact (u_invoked U).
    + exists i, false. rewrite app_nil_r.
      split; [exact A|]. split; [lia | discriminate].
    + intros limit' Hl Hz. destruct (D limit' Hl Hz) as [DF DL].
      exists (timeout_checks (trace f)), [total_duration r].
      split; [exact Hc|]. split; [exact DF|]. split; [exact DL|].
      right. split; [reflexivity|]. split; [reflexivity|].
      rewrite Hlim in Hl. injection Hl as <-. exact Hdur.
    + discriminate.
    + rewrite He. split; discriminate.
    + exists limit. split; [exact Hlim|]. split; [exact Hnz|].
      split; [exact He | exact Hdur].
    + discriminate.
    + cbn [RetryResult_eqb]. exact (u_stats U).
  - constructor; rewrite ?Hr, ?Ha, ?Hv, ?He, ?Hs, ?Ht, ?Hans, ?length_app,
      ?(u_count U); cbn [List.length].
    + apply Forall_app. split; [exact (u_recorded U)|].
      constructor; [|constructor].
      exact (recorded_attempt (1 + Z.of_nat i) started ended d true
               EmptyString).
    + intros a rest E. eapply first_delay_zero; [exact U | | exact E].
      exact Hd.
    + intros a Hin. apply in_app_or in Hin.
      destruct Hin as [Hin|[<-|[]]]; [exact (u_delays U a Hin)|].
      exists (loc_last_error f). exact Hd.
    + lia.
    + rewrite (u_invoked U). symmetry.
      replace (Z.of_nat (i + 1)) with (Z.of_nat (S i)) by lia.
      apply py_range_snoc.
    + exists i, false. rewrite app_nil_r.
      split; [exact A|]. split; [lia | discriminate].
    + intros limit' Hl Hz.
      eapply in_time_passed; [|exact Hl | exact Hz].
      replace (i + 1)%nat with (S i) by lia.
      exact (in_time_step D Hc).
    + split; [reflexivity | exact Ho].
    + split; reflexivity.
    + exact I.
    + discriminate.
    + cbn [RetryResult_eqb]. counters U.
Qed.

(** One pass from the top of the loop. *)
Lemma pass_step (awaited : bool) (before : Stats) (i : nat)
    (f f' : Frame W) (o : outcome (flow (RetryExecutionResult W T))) :
  (Z.of_nat i < Z.max 0 (max_attempts config))%Z ->
  underway rt operation config before i f ->
  retry_answers (trace f) = repeat true i ->
  in_time config (trace f) i ->
  pass_summary rt operation config awaited (1 + Z.of_nat i) f o f' ->
  match o with
  | Returned Next =>
      underway rt operation config before (S i) f' /\
      retry_answers (trace f')
      = repeat true (Nat.min (S i) (Z.to_nat (max_attempts config) - 1)) /\
      in_time config (trace f') (S i)
  | _ => loop_summary rt operation config awaited before o f'
  end.
Proof.
  intros Hi U A D Hp. destruct o as [[| |r]|e].
  - destruct Hp as [(started & ended & d & e & Ha & Hl & Ho & Hs & Hd & Ht)
                    [Hc Hflow]].
    split; [eapply underway_next; eassumption|].
    split; [|exact (in_time_step D Hc)].
    destruct Hflow as [(B & _)|[(_ & Hk & Hans)|(_ & Hk & Hans)]];
      [discriminate B| |]; rewrite Hans, A.
    + replace (Nat.min (S i) (Z.to_nat (max_attempts config) - 1)) with (S i)
        by lia.
      apply repeat_snoc.
    + replace (Nat.min (S i) (Z.to_nat (max_attempts config) - 1)) with i
        by lia.
      reflexivity.
  - destruct Hp as [(started & ended & d & e & Ha & Hl & Ho & Hs & Hd & Ht)
                    [Hc Hflow]].
    exists (S i). split; [lia|].
    split; [eapply underway_next; eassumption|].
    split; [|split; [exact (in_time_step D Hc) | intros _; lia]].
    destruct Hflow as [(_ & _ & Hans)|[(B & _)|(B & _)]];
      [|discriminate B|discriminate B].
    rewrite Hans, A. unfold answers_after.
    replace (S i - 1)%nat with i by lia. reflexivity.
  - exact (pass_returns Hi U A D Hp).
  - intros He. destruct (Hp He) as (Ha & Hl & Hs & Ht & Hans & Hc).
    exists i. split; [lia|].
    split; [eapply underway_same; eassumption|].
    split; [|split; [exact (in_time_same D Hc) | discriminate]].
    rewrite Hans, A. unfold answers_after.
    replace (Nat.min i (Z.to_nat (max_attempts config) - 1)) with i by lia.
    reflexivity.
Qed.

(** The loop of either method, for any body with the summary of a
    pass. *)
Lemma loop_ends (awaited : bool) (before : Stats)
    (body : Z -> eff (Frame W) (flow (RetryExecutionResult W T)))
    (f0 : Frame W) :
  (forall k f,
     pass_summary rt operation config awaited k f
       (fst (body k f)) (snd (body k f))) ->
  underway rt operation config before 0 f0 ->
  retry_answers (trace f0) = [] ->
  timeout_checks (trace f0) = [] ->
  loop_summary rt operation config awaited before
    (fst (for_each (py_range 1 (max_attempts config + 1)) body f0))
    (snd (for_each (py_range 1 (max_attempts config + 1)) body f0)).
Proof.
  intros Hbody U0 A0 D0.
  apply (for_each_invariant body
           (fun i (f : Frame W) =>
              (Z.of_nat i <= Z.max 0 (max_attempts config))%Z /\
              underway rt operation config before i f /\
              retry_answers (trace f)
              = repeat true (Nat.min i (Z.to_nat (max_attempts config) - 1))
              /\ in_time config (trace f) i)
           (loop_summary rt operation config awaited before)).
  - intros i x s Hn (_ & U & A & D).
    assert (Hlt : (Z.of_nat i < Z.max 0 (max_attempts config))%Z).
    { assert (Hsome : nth_error (py_range 1 (max_attempts config + 1)) i
                      <> None) by congruence.
      apply nth_error_Some in Hsome. rewrite py_range_count in Hsome. lia. }
    replace (Nat.min i (Z.to_nat (max_attempts config) - 1)) with i in A
      by lia.
    apply nth_error_py_range in Hn. subst x.
    pose proof (Hbody (1 + Z.of_nat i)%Z s) as Hp.
    pose proof (@pass_step awaited before i s _ _ Hlt U A D Hp) as K.
    destruct (body (1 + Z.of_nat i)%Z s) as [[[| |r]|e] s']; cbn [fst snd] in K;
      try exact K.
    split; [lia | exact K].
  - intros s (Hle & U & A & D). cbn [loop_summary]. split.
    + exists (List.length (py_range 1 (max_attempts config + 1))).
      split; [exact Hle|]. split; [exact U|].
      split; [exact A|]. split; [exact D | discriminate].
    + rewrite (u_count U), py_range_count. f_equal. lia.
  - split; [lia|]. split; [exact U0|]. split; [exact A0|].
    intros limit _ _. rewrite D0. split; [constructor | simpl; lia].
Qed.

(** What both methods build when no pass returned. *)
Lemma stopped_finished (awaited : bool) (before : Stats) (refused : bool)
    (f f' : Frame W) (r : RetryExecutionResult W T) :
  stopped rt operation config before refused f ->
  result r = FAILED_ALL_ATTEMPTS -> value r = None ->
  attempts r = loc_attempts f ->
  ((exists e, final_error r = Some (unexpected_error_message e)) \/
   (final_error r = Some match loc_last_error f with
                         | Some e => if exc_truth e then exc_str e
                                     else unknown_error_message
                         | None => unknown_error_message
                         end /\
    (loc_attempts f = [] -> (max_attempts config <= 0)%Z))) ->
  stats f' = incr_failed_executions (stats f) ->
  trace f' = trace f ->
  finished rt operation config awaited before r f'.
Proof.
  intros (i & Hi & U & A & D & Hpos) Hr Hv Ha He Hs Ht.
  constructor; rewrite ?Hr, ?Ha, ?Hv, ?Hs, ?Ht, ?(u_count U).
  - exact (u_recorded U).
  - exact (u_first U).
  - exact (u_delays U).
  - lia.
  - exact (u_invoked U).
  - rewrite A. unfold answers_after. destruct refused.
    + exists (i - 1)%nat, true. split; [reflexivity|].
      specialize (Hpos eq_refl). split; [lia|]. intros _. split; [lia|].
      reflexivity.
    + exists (Nat.min i (Z.to_nat (max_attempts config) - 1)), false.
      rewrite app_nil_r. split; [reflexivity|]. split; [lia | discriminate].
  - intros limit Hl Hz.
    eapply in_time_passed; [exact D | exact Hl | exact Hz].
  - discriminate.
  - split; [|discriminate].
    destruct He as [[e He]|[He _]]; rewrite He; discriminate.
  - exact I.
  - intros _. destruct He as [[e He]|[He Hnone]]; [left; exists e; exact He|].
    right. pose proof (u_last U) as L.
    destruct (loc_last_error f) as [e|].
    + right. destruct L as (Ho & l & a & Hl & Hea).
      exists l, a, e. repeat split; try assumption.
      * exact (proj1 Ho).
      * exact (proj2 Ho).
    + left. repeat split; try assumption. exact (Hnone L).
  - cbn [RetryResult_eqb]. counters U.
Qed.

(** The [try] block of either method, from the top of the loop to the
    returned result. *)
Lemma call_ends (awaited : bool) (before : Stats)
    (body : Z -> eff (Frame W) (flow (RetryExecutionResult W T)))
    (start : Q) (f0 : Frame W) :
  (forall k f,
     pass_summary rt operation config awaited k f
       (fst (body k f)) (snd (body k f))) ->
  underway rt operation config before 0 f0 ->
  retry_answers (trace f0) = [] ->
  timeout_checks (trace f0) = [] ->
  match
    try_except is_Exception
      (bind (for_each (py_range 1 (max_attempts config + 1)) body)
            (@after_loop W rt T config start))
      (@unexpected_error W rt T config start) f0
  with
  | (Returned r, f') => finished rt operation config awaited before r f'
  | (Raised e, _) => is_Exception e = false
  end.
Proof.
  intros Hbody U0 A0 D0.
  pose proof (loop_ends awaited body Hbody U0 A0 D0) as L.
  unfold try_except, bind.
  destruct (for_each (py_range 1 (max_attempts config + 1)) body f0)
    as [[[| |r]|e] f1]; cbn [fst snd loop_summary] in L.
  - destruct L as [L Hn].
    unfold after_loop, all_attempts_failed, update_stats, now, call, total,
      gets, modify, bind, ret.
    cbn [world stats loc_attempts loc_last_error trace].
    destruct (datetime_now rt (world f1)) as [t w1].
    eapply stopped_finished; try exact L; try reflexivity.
    right. split; [reflexivity|]. cbn [loc_attempts]. intros E.
    rewrite E in Hn. simpl in Hn. lia.
  - unfold after_loop, all_attempts_failed, update_stats, now, call, total,
      gets, modify, bind, ret.
    cbn [world stats loc_attempts loc_last_error trace].
    destruct (datetime_now rt (world f1)) as [t w1].
    eapply stopped_finished; try exact L; try reflexivity.
    right. split; [reflexivity|]. cbn [loc_attempts]. intros E.
    destruct L as (i & _ & U & _ & _ & Hpos). specialize (Hpos eq_refl).
    pose proof (u_count U) as C. rewrite E in C. simpl in C. lia.
  - cbn [after_loop]. unfold ret. exact L.
  - destruct (is_Exception e) eqn:E; [|exact E].
    specialize (L eq_refl).
    unfold unexpected_error, update_stats, now, call, total,
      gets, modify, bind, ret.
    cbn [world stats loc_attempts loc_last_error trace].
    destruct (datetime_now rt (world f1)) as [t w1].
    eapply stopped_finished; try exact L; try reflexivity.
    left. eexists. reflexivity.
Qed.

Lemma underway_start (w : W) (st : Stats) (tr : list Event) :
  invoked tr = [] ->
  underway rt operation config st 0
    (mkFrame w (incr_total_executions st) [] None tr).
Proof.
  intros Htr. constructor; cbn [loc_attempts loc_last_error stats trace].
  - reflexivity.
  - constructor.
  - constructor.
  - intros a rest E. discriminate E.
  - intros a [].
  - reflexivity.
  - constructor; unfold incr_total_executions; simpl; lia.
  - exact Htr.
Qed.

Variable error_checker : option (PyException -> eff W bool).

Lemma execute_with_retry_finished (abort_checker : option (eff W bool))
    (w : W) (st : Stats) :
  match execute_with_retry rt operation config error_checker abort_checker
          (enter w st) with
  | (Returned r, f') => finished rt operation config true st r f'
  | (Raised e, _) => is_Exception e = false
  end.
Proof.
  unfold execute_with_retry.
  unfold bind at 1 2 3. unfold now, init_locals, update_stats, call, total,
    modify, enter.
  cbn [world stats loc_attempts loc_last_error trace].
  destruct (datetime_now rt w) as [start w1].
  apply call_ends.
  - intros k f.
    pose proof (async_attempt_summary rt operation config error_checker
                  abort_checker start k f) as H.
    destruct (async_attempt rt operation config error_checker abort_checker
                start k f) as [o f']. exact H.
  - apply underway_start. reflexivity.
  - reflexivity.
  - reflexivity.
Qed.

Lemma execute_with_retry_sync_finished (w : W) (st : Stats) :
  match execute_with_retry_sync rt operation config error_checker
          (enter w st) with
  | (Returned r, f') => finished rt operation config false st r f'
  | (Raised e, _) => is_Exception e = false
  end.
Proof.
  unfold execute_with_retry_sync.
  unfold bind at 1 2 3. unfold now, init_locals, update_stats, call, total,
    modify, enter.
  cbn [world stats loc_attempts loc_last_error trace].
  destruct (datetime_now rt w) as [start w1].
  apply (call_ends false (sync_attempt rt operation config error_checker start)
           start).
  - intros k f.
    pose proof (sync_attempt_summary rt operation config error_checker
                  start k f) as H.
    destruct (sync_attempt rt operation config error_checker start k f)
      as [o f']. exact H.
  - apply underway_start. reflexivity.
  - reflexivity.
  - reflexivity.
Qed.

End RetryCalls.

Section RetryResults.

Import retry_strategy retry_properties retry_scenarios.
Import retry_conveniences retry_accounting.

Context {W T : Type}.
Variable rt : Runtime W.
Variable operation : Operation W T.
Variable config : RetryConfiguration W.
Variable error_checker : option (PyException -> eff W bool).

(** Every result either method returns, with the state it leaves. *)
Lemma either_method_finished (abort_checker : option (eff W bool)) (w : W)
    (st : Stats)
    (post : RetryExecutionResult W T -> Frame W -> Prop) :
  (forall awaited r f',
     finished rt operation config awaited st r f' -> post r f') ->
  match execute_with_retry rt operation config error_checker abort_checker
          (enter w st) with
  | (Returned r, f') => post r f'
  | (Raised e, _) => is_Exception e = false
  end /\
  match execute_with_retry_sync rt operation config error_checker
          (enter w st) with
  | (Returned r, f') => post r f'
  | (Raised e, _) => is_Exception e = false
  end.
Proof.
  intros H. split.
  - pose proof (execute_with_retry_finished rt operation config error_checker
                  abort_checker w st) as F.
    destruct (execute_with_retry rt operation config error_checker
                abort_checker (enter w st)) as [[r|e] f'];
      [exact (H true r f' F) | exact F].
  - pose proof (execute_with_retry_sync_finished rt operation config
                  error_checker w st) as F.
    destruct (execute_with_retry_sync rt operation config error_checker
                (enter w st)) as [[r|e] f'];
      [exact (H false r f' F) | exact F].
Qed.

(** X1. Neither method makes more attempts than [max_attempts] allows,
    and the operation is called once for each recorded attempt, in the
    order of the attempt numbers [1, 2, ...]: no call goes unrecorded
    and no attempt is recorded without a call. *)
Theorem attempts_within_budget (abort_checker : option (eff W bool)) (w : W)
    (st : Stats) :
  match execute_with_retry rt operation config error_checker abort_checker
          (enter w st) with
  | (Returned r, f') =>
      (Z.of_nat (List.length (attempts r)) <= Z.max 0 (max_attempts config))%Z
      /\ invoked (trace f')
         = py_range 1 (Z.of_nat (List.length (attempts r)) + 1)
  | (Raised e, _) => is_Exception e = false
  end /\
  match execute_with_retry_sync rt operation config error_checker
          (enter w st) with
  | (Returned r, f') =>
      (Z.of_nat (List.length (attempts r)) <= Z.max 0 (max_attempts config))%Z
      /\ invoked (trace f')
         = py_range 1 (Z.of_nat (List.length (attempts r)) + 1)
  | (Raised e, _) => is_Exception e = false
  end.
Proof.
  apply (@either_method_finished abort_checker w st
           (fun r f' =>
              (Z.of_nat (List.length (attempts r))
               <= Z.max 0 (max_attempts config))%Z /\
              invoked (trace f')
              = py_range 1 (Z.of_nat (List.length (attempts r)) + 1))).
  intros awaited r f' F. split; [exact (f_bound F) | exact (f_invoked F)].
Qed.

(** X2. The executor's counters after a call that returned: one more
    execution, one more attempt for each recorded attempt, and one more
    success, failure or abort according to the result; a [TIMEOUT]
    counts as none of the three. *)
Theorem counters_follow_the_result (abort_checker : option (eff W bool))
    (w : W) (st : Stats) :
  match execute_with_retry rt operation config error_checker abort_checker
          (enter w st) with
  | (Returned r, f') =>
      moved st (stats f') 1
        (if RetryResult_eqb (result r) SUCCESS then 1 else 0)
        (if RetryResult_eqb (result r) FAILED_ALL_ATTEMPTS then 1 else 0)
        (Z.of_nat (List.length (attempts r)))
        (if RetryResult_eqb (result r) ABORTED then 1 else 0)
  | (Raised e, _) => is_Exception e = false
  end /\
  match execute_with_retry_sync rt operation config error_checker
          (enter w st) with
  | (Returned r, f') =>
      moved st (stats f') 1
        (if RetryResult_eqb (result r) SUCCESS then 1 else 0)
        (if RetryResult_eqb (result r) FAILED_ALL_ATTEMPTS then 1 else 0)
        (Z.of_nat (List.length (attempts r)))
        (if RetryResult_eqb (result r) ABORTED then 1 else 0)
  | (Raised e, _) => is_Exception e = false
  end.
Proof.
  apply (@either_method_finished abort_checker w st
           (fun r f' =>
              moved st (stats f') 1
                (if RetryResult_eqb (result r) SUCCESS then 1 else 0)
                (if RetryResult_eqb (result r) FAILED_ALL_ATTEMPTS
                 then 1 else 0)
                (Z.of_nat (List.length (attempts r)))
                (if RetryResult_eqb (result r) ABORTED then 1 else 0))).
  intros awaited r f' F. exact (f_stats F).
Qed.

(** X3. A result that is not a [SUCCESS] leaves [value] at its default,
    [None]; a [SUCCESS] of the asynchronous method carries what a call of
    the operation returned, and one of the synchronous method carries
    that or, for a coroutine function, the coroutine object that was
    never awaited. A result carries an error text exactly when it is not
    a [SUCCESS]. *)
Theorem value_set_on_success_only (abort_checker : option (eff W bool))
    (w : W) (st : Stats) :
  match execute_with_retry rt operation config error_checker abort_checker
          (enter w st) with
  | (Returned r, f') =>
      (result r <> SUCCESS -> value r = None) /\
      (result r = SUCCESS ->
       exists v w1 w2, value r = Some (Value v) /\
                       invoke operation w1 = (Returned v, w2)) /\
      (result r = SUCCESS <-> final_error r = None)
  | (Raised e, _) => is_Exception e = false
  end /\
  match execute_with_retry_sync rt operation config error_checker
          (enter w st) with
  | (Returned r, f') =>
      (result r <> SUCCESS -> value r = None) /\
      (result r = SUCCESS ->
       if iscoroutinefunction operation
       then value r = Some (@CoroutineObject T)
       else exists v w1 w2, value r = Some (Value v) /\
                            invoke operation w1 = (Returned v, w2)) /\
      (result r = SUCCESS <-> final_error r = None)
  | (Raised e, _) => is_Exception e = false
  end.
Proof.
  split.
  - pose proof (execute_with_retry_finished rt operation config error_checker
                  abort_checker w st) as F.
    destruct (execute_with_retry rt operation config error_checker
                abort_checker (enter w st)) as [[r|e] f']; [|exact F].
    pose proof (f_value F) as V. pose proof (f_error F) as E.
    split; [|split].
    + intros H. destruct (value r) as [p|]; [|reflexivity].
      destruct (H (proj1 V)).
    + intros H. destruct (value r) as [p|]; [|destruct (V H)].
      destruct V as [_ V]. unfold value_origin in V.
      rewrite andb_false_r in V. destruct V as (v & w1 & w2 & -> & Ho).
      exists v, w1, w2. split; [reflexivity | exact Ho].
    + split; apply E.
  - pose proof (execute_with_retry_sync_finished rt operation config
                  error_checker w st) as F.
    destruct (execute_with_retry_sync rt operation config error_checker
                (enter w st)) as [[r|e] f']; [|exact F].
    pose proof (f_value F) as V. pose proof (f_error F) as E.
    split; [|split].
    + intros H. destruct (value r) as [p|]; [|reflexivity].
      destruct (H (proj1 V)).
    + intros H. destruct (value r) as [p|]; [|destruct (V H)].
      destruct V as [_ V]. unfold value_origin in V.
      rewrite andb_true_r in V.
      destruct (iscoroutinefunction operation).
      * rewrite V. reflexivity.
      * destruct V as (v & w1 & w2 & -> & Ho).
        exists v, w1, w2. split; [reflexivity | exact Ho].
    + split; apply E.
Qed.

(** X4. Every attempt either method records is finished: it has an end
    time, and an error text exactly when it failed. The first attempt is
    never delayed. *)
Theorem attempts_are_recorded (abort_checker : option (eff W bool))
    (w : W) (st : Stats) :
  match execute_with_retry rt operation config error_checker abort_checker
          (enter w st) with
  | (Returned r, f') =>
      Forall (fun a => end_time a <> None /\
                       (success a = true <-> error a = None)) (attempts r) /\
      (forall a rest, attempts r = a :: rest -> delay_before a = 0%Q)
  | (Raised e, _) => is_Exception e = false
  end /\
  match execute_with_retry_sync rt operation config error_checker
          (enter w st) with
  | (Returned r, f') =>
      Forall (fun a => end_time a <> None /\
                       (success a = true <-> error a = None)) (attempts r) /\
      (forall a rest, attempts r = a :: rest -> delay_before a = 0%Q)
  | (Raised e, _) => is_Exception e = false
  end.
Proof.
  apply (@either_method_finished abort_checker w st
           (fun r (f' : Frame W) =>
              Forall (fun a => end_time a <> None /\
                               (success a = true <-> error a = None))
                     (attempts r) /\
              (forall a rest, attempts r = a :: rest ->
                              delay_before a = 0%Q))).
  intros awaited r f' F. split; [exact (f_recorded F) | exact (f_first F)].
Qed.

(** X5. When every attempt failed, the result's error text is [str] of
    the exception the last attempt ended with, which the operation
    raised and which the attempt records, provided that exception object
    is true; for one that is false the text of no error is reported
    instead. The two other cases are an error outside the attempts,
    reported as unexpected, and a configuration that allows no attempt
    at all. *)
Theorem exhausted_reports_last_error (abort_checker : option (eff W bool))
    (w : W) (st : Stats) :
  match execute_with_retry rt operation config error_checker abort_checker
          (enter w st) with
  | (Returned r, f') =>
      result r = FAILED_ALL_ATTEMPTS ->
      (exists e, final_error r = Some (unexpected_error_message e)) \/
      (attempts r = [] /\ final_error r = Some unknown_error_message /\
       (max_attempts config <= 0)%Z) \/
      (exists l a e w1 w2,
         attempts r = l ++ [a] /\ error a = Some (exc_str e) /\
         invoke operation w1 = (Raised e, w2) /\
         final_error r
         = Some (if exc_truth e then exc_str e else unknown_error_message))
  | (Raised e, _) => is_Exception e = false
  end /\
  match execute_with_retry_sync rt operation config error_checker
          (enter w st) with
  | (Returned r, f') =>
      result r = FAILED_ALL_ATTEMPTS ->
      (exists e, final_error r = Some (unexpected_error_message e)) \/
      (attempts r = [] /\ final_error r = Some unknown_error_message /\
       (max_attempts config <= 0)%Z) \/
      (exists l a e w1 w2,
         attempts r = l ++ [a] /\ error a = Some (exc_str e) /\
         invoke operation w1 = (Raised e, w2) /\
         final_error r
         = Some (if exc_truth e then exc_str e else unknown_error_message))
  | (Raised e, _) => is_Exception e = false
  end.
Proof.
  apply (@either_method_finished abort_checker w st
           (fun r (f' : Frame W) =>
              result r = FAILED_ALL_ATTEMPTS ->
              (exists e, final_error r = Some (unexpected_error_message e)) \/
              (attempts r = [] /\ final_error r = Some unknown_error_message /\
               (max_attempts config <= 0)%Z) \/
              (exists l a e w1 w2,
                 attempts r = l ++ [a] /\ error a = Some (exc_str e) /\
                 invoke operation w1 = (Raised e, w2) /\
                 final_error r
                 = Some (if exc_truth e then exc_str e
                         else unknown_error_message)))).
  intros awaited r f' F Hr.
  destruct (f_exhausted F Hr)
    as [H|[H|(l & a & e & Ha & He & (_ & w1 & w2 & Ho) & Hf)]].
  - left. exact H.
  - right. left. exact H.
  - right. right. exists l, a, e, w1, w2. auto.
Qed.

(** X6. Every attempt after the first was approved by [should_retry]:
    its answers are a run of yes, at least one for every attempt after
    the first, followed by at most one no; after a no, no attempt is
    made and the result is [FAILED_ALL_ATTEMPTS]. *)
Theorem retries_are_approved (abort_checker : option (eff W bool))
    (w : W) (st : Stats) :
  match execute_with_retry rt operation config error_checker abort_checker
          (enter w st) with
  | (Returned r, f') =>
      exists yes refused,
        retry_answers (trace f')
        = repeat true yes ++ (if refused : bool then [false] else []) /\
        (yes <= List.length (attempts r) <= yes + 1)%nat /\
        (refused = true ->
         List.length (attempts r) = (yes + 1)%nat /\
         result r = FAILED_ALL_ATTEMPTS)
  | (Raised e, _) => is_Exception e = false
  end /\
  match execute_with_retry_sync rt operation config error_checker
          (enter w st) with
  | (Returned r, f') =>
      exists yes refused,
        retry_answers (trace f')
        = repeat true yes ++ (if refused : bool then [false] else []) /\
        (yes <= List.length (attempts r) <= yes + 1)%nat /\
        (refused = true ->
         List.length (attempts r) = (yes + 1)%nat /\
         result r = FAILED_ALL_ATTEMPTS)
  | (Raised e, _) => is_Exception e = false
  end.
Proof.
  apply (@either_method_finished abort_checker w st
           (fun r f' =>
              exists yes refused,
                retry_answers (trace f')
                = repeat true yes ++ (if refused : bool then [false] else [])
                /\ (yes <= List.length (attempts r) <= yes + 1)%nat /\
                (refused = true ->
                 List.length (attempts r) = (yes + 1)%nat /\
                 result r = FAILED_ALL_ATTEMPTS))).
  intros awaited r f' F. exact (f_answers F).
Qed.

(** X7. A [TIMEOUT] is returned only under a configured deadline, not
    zero, that the elapsed time has reached, and its error text names
    the deadline; an [ABORTED] result carries the abort message. The
    synchronous method never returns [ABORTED]. *)
Theorem early_exits_are_explained (abort_checker : option (eff W bool))
    (w : W) (st : Stats) :
  match execute_with_retry rt operation config error_checker abort_checker
          (enter w st) with
  | (Returned r, f') =>
      (result r = TIMEOUT ->
       exists limit, timeout config = Some limit /\
                     nonzero limit = true /\
                     final_error r = Some (timeout_message rt limit) /\
                     (limit <= total_duration r)%Q) /\
      (result r = ABORTED -> final_error r = Some aborted_message)
  | (Raised e, _) => is_Exception e = false
  end /\
  match execute_with_retry_sync rt operation config error_checker
          (enter w st) with
  | (Returned r, f') =>
      (result r = TIMEOUT ->
       exists limit, timeout config = Some limit /\
                     nonzero limit = true /\
                     final_error r = Some (timeout_message rt limit) /\
                     (limit <= total_duration r)%Q) /\
      result r <> ABORTED
  | (Raised e, _) => is_Exception e = false
  end.
Proof.
  split.
  - pose proof (execute_with_retry_finished rt operation config error_checker
                  abort_checker w st) as F.
    destruct (execute_with_retry rt operation config error_checker
                abort_checker (enter w st)) as [[r|e] f']; [|exact F].
    pose proof (f_reason F) as R.
    split; intros Hr; rewrite Hr in R; [exact R | exact (proj2 R)].
  - pose proof (execute_with_retry_sync_finished rt operation config
                  error_checker w st) as F.
    destruct (execute_with_retry_sync rt operation config error_checker
                (enter w st)) as [[r|e] f']; [|exact F].
    pose proof (f_reason F) as R.
    split; intros Hr; rewrite Hr in R; [exact R|].
    destruct R as [R _]. discriminate R.
Qed.

(** X8. Under a deadline no attempt is started without a check that
    found time left: the elapsed times the deadline checks read are all
    below the deadline, but for the last one of a [TIMEOUT] result,
    which is its [total_duration]; and there are at least as many checks
    that found time left as attempts. *)
Theorem attempts_start_before_the_deadline
    (abort_checker : option (eff W bool)) (w : W) (st : Stats) (limit : Q) :
  timeout config = Some limit -> nonzero limit = true ->
  match execute_with_retry rt operation config error_checker abort_checker
          (enter w st) with
  | (Returned r, f') =>
      exists passed final,
        timeout_checks (trace f') = passed ++ final /\
        Forall (fun t => (t < limit)%Q) passed /\
        (List.length (attempts r) <= List.length passed)%nat /\
        (final = [] \/
         (result r = TIMEOUT /\ final = [total_duration r] /\
          (limit <= total_duration r)%Q))
  | (Raised e, _) => is_Exception e = false
  end /\
  match execute_with_retry_sync rt operation config error_checker
          (enter w st) with
  | (Returned r, f') =>
      exists passed final,
        timeout_checks (trace f') = passed ++ final /\
        Forall (fun t => (t < limit)%Q) passed /\
        (List.length (attempts r) <= List.length passed)%nat /\
        (final = [] \/
         (result r = TIMEOUT /\ final = [total_duration r] /\
          (limit <= total_duration r)%Q))
  | (Raised e, _) => is_Exception e = false
  end.
Proof.
  intros Hl Hz.
  apply (@either_method_finished abort_checker w st
           (fun r f' =>
              exists passed final,
                timeout_checks (trace f') = passed ++ final /\
                Forall (fun t => (t < limit)%Q) passed /\
                (List.length (attempts r) <= List.length passed)%nat /\
                (final = [] \/
                 (result r = TIMEOUT /\ final = [total_duration r] /\
                  (limit <= total_duration r)%Q)))).
  intros awaited r f' F. exact (f_deadline F Hl Hz).
Qed.

End RetryResults.

Section RetryGuarantees.

Import retry_strategy retry_properties retry_scenarios.
Import retry_conveniences retry_accounting.

Context {W T : Type}.
Variable rt : Runtime W.
Variable operation : Operation W T.
Variable config : RetryConfiguration W.
Variable error_checker : option (PyException -> eff W bool).

(** X9. With a configuration that construction accepts and no custom
    delay function in use, the delay recorded before every attempt of
    either method lies between 0 and [max_delay]. *)
Theorem recorded_delays_within_bounds (abort_checker : option (eff W bool))
    (w : W) (st : Stats) :
  valid config -> takes_custom_branch config = false ->
  match execute_with_retry rt operation config error_checker abort_checker
          (enter w st) with
  | (Returned r, f') =>
      Forall (fun a => (0 <= delay_before a <= max_delay config)%Q)
             (attempts r)
  | (Raised e, _) => is_Exception e = false
  end /\
  match execute_with_retry_sync rt operation config error_checker
          (enter w st) with
  | (Returned r, f') =>
      Forall (fun a => (0 <= delay_before a <= max_delay config)%Q)
             (attempts r)
  | (Raised e, _) => is_Exception e = false
  end.
Proof.
  intros V NC.
  apply (@either_method_finished W T rt operation config error_checker
           abort_checker w st
           (fun r (f' : Frame W) =>
              Forall (fun a => (0 <= delay_before a <= max_delay config)%Q)
                     (attempts r))).
  intros awaited r f' F. apply Forall_forall. intros a Hin.
  destruct (f_delays F a Hin) as (last & [[_ D]|[_ (w1 & w2 & D)]]).
  - rewrite D. destruct (valid_inv V) as (_ & B0 & BM). lra.
  - exact (calculate_delay_clamped rt (attempt_number a - 1) last w1 V NC D).
Qed.

(** X10. Counters that are consistent (none negative, and successes,
    failures and aborts together no more than the executions) stay
    consistent through a call of either method. *)
Theorem statistics_stay_consistent (abort_checker : option (eff W bool))
    (w : W) (st : Stats) :
  consistent st ->
  match execute_with_retry rt operation config error_checker abort_checker
          (enter w st) with
  | (Returned r, f') => consistent (stats f')
  | (Raised e, _) => is_Exception e = false
  end /\
  match execute_with_retry_sync rt operation config error_checker
          (enter w st) with
  | (Returned r, f') => consistent (stats f')
  | (Raised e, _) => is_Exception e = false
  end.
Proof.
  intros (C1 & C2 & C3 & C4 & C5).
  apply (@either_method_finished W T rt operation config error_checker
           abort_checker w st
           (fun (r : RetryExecutionResult W T) f' => consistent (stats f'))).
  intros awaited r f' F. destruct (f_stats F) as [M1 M2 M3 M4 M5].
  unfold consistent. rewrite M1, M2, M3, M4, M5.
  destruct (result r); cbn [RetryResult_eqb]; lia.
Qed.

Lemma RetryResult_eqb_eq (a b : RetryResult) :
  RetryResult_eqb a b = true <-> a = b.
Proof. destruct a, b; simpl; split; congruence. Qed.

(** X11. The convenience functions hand back only what the operation
    returned, and turn every other result into a raise: when the
    attempts run out, or the deadline passes, the caller gets a plain
    [Exception] and never a silent [None]. *)
Theorem conveniences_return_or_raise
    (chosen : option (RetryConfiguration W)) (w : W) :
  match retry_async rt operation chosen error_checker w with
  | (Returned v, _) =>
      exists x w1 w2, v = Some (Value x) /\
                      invoke operation w1 = (Returned x, w2)
  | (Raised e, _) =>
      is_Exception e = false \/
      exists text, e = mkException (OtherException "Exception") text
  end /\
  match retry_sync rt operation chosen error_checker w with
  | (Returned v, _) =>
      if iscoroutinefunction operation
      then v = Some (@CoroutineObject T)
      else exists x w1 w2, v = Some (Value x) /\
                           invoke operation w1 = (Returned x, w2)
  | (Raised e, _) =>
      is_Exception e = false \/
      exists text, e = mkException (OtherException "Exception") text
  end.
Proof.
  split.
  - unfold retry_async.
    pose proof (execute_with_retry_finished rt operation
                  (config_or_default chosen) error_checker None w
                  reset_stats) as F.
    destruct (execute_with_retry rt operation (config_or_default chosen)
                error_checker None (enter w reset_stats)) as [[r|e] f'].
    + unfold succeeded. destruct (RetryResult_eqb (result r) SUCCESS) eqn:E.
      * apply RetryResult_eqb_eq in E. pose proof (f_value F) as V.
        destruct (value r) as [p|]; [|contradiction].
        destruct V as [_ V]. unfold value_origin in V.
        rewrite andb_false_r in V. destruct V as (x & w1 & w2 & -> & Hx).
        exists x, w1, w2. split; [reflexivity | exact Hx].
      * right. eexists. reflexivity.
    + left. exact F.
  - unfold retry_sync.
    pose proof (execute_with_retry_sync_finished rt operation
                  (config_or_default chosen) error_checker w
                  reset_stats) as F.
    destruct (execute_with_retry_sync rt operation (config_or_default chosen)
                error_checker (enter w reset_stats)) as [[r|e] f'].
    + unfold succeeded. destruct (RetryResult_eqb (result r) SUCCESS) eqn:E.
      * apply RetryResult_eqb_eq in E. pose proof (f_value F) as V.
        destruct (value r) as [p|]; [|contradiction].
        destruct V as [_ V]. unfold value_origin in V.
        rewrite andb_true_r in V.
        destruct (iscoroutinefunction operation).
        -- rewrite V. reflexivity.
        -- destruct V as (x & w1 & w2 & -> & Hx).
           exists x, w1, w2. split; [reflexivity | exact Hx].
      * right. eexists. reflexivity.
    + left. exact F.
Qed.

(** X12. Given a coroutine function, the synchronous method calls it
    without awaiting it: with no deadline and at least one attempt
    allowed it reports [SUCCESS] on the first attempt, the value is the
    coroutine object, and nothing but the clock was consulted, so the
    body of the operation never ran. *)
Theorem sync_method_never_awaits (w : W) (st : Stats) :
  iscoroutinefunction operation = true ->
  (1 <= max_attempts config)%Z ->
  timeout config = None ->
  exists r f',
    execute_with_retry_sync rt operation config error_checker (enter w st)
    = (Returned r, f') /\
    result r = SUCCESS /\ value r = Some (@CoroutineObject T) /\
    List.length (attempts r) = 1%nat /\
    world f'
    = snd (datetime_now rt
             (snd (datetime_now rt
                     (snd (datetime_now rt (snd (datetime_now rt w))))))).
Proof.
  intros Hc Hm Ht.
  unfold execute_with_retry_sync.
  rewrite (py_range_cons (a := 1) (b := max_attempts config + 1)) by lia.
  cbn [for_each].
  unfold sync_attempt. rewrite Hc, Ht.
  unfold try_except, bind, now, init_locals, update_stats, append_attempt,
    log, call, total, gets, modify, ret, enter.
  change (1 >? 1)%Z with false. cbv beta iota.
  cbn [world stats loc_attempts loc_last_error trace].
  destruct (datetime_now rt w) as [t0 w0].
  cbn [world stats loc_attempts loc_last_error trace fst snd].
  destruct (datetime_now rt w0) as [t1 w1].
  cbn [world stats loc_attempts loc_last_error trace fst snd].
  destruct (datetime_now rt w1) as [t2 w2].
  cbn [world stats loc_attempts loc_last_error trace fst snd].
  destruct (datetime_now rt w2) as [t3 w3].
  cbn [world stats loc_attempts loc_last_error trace fst snd].
  eexists. eexists. split; [reflexivity|].
  cbn [result value attempts world app List.length].
  repeat split.
Qed.

(** X13. [average_attempt_duration] of a result either method returned
    is undefined only when no attempt was made: every recorded attempt
    has a duration. *)
Theorem average_duration_defined (abort_checker : option (eff W bool))
    (w : W) (st : Stats) :
  match execute_with_retry rt operation config error_checker abort_checker
          (enter w st) with
  | (Returned r, f') =>
      (average_attempt_duration r = None <-> attempts r = []) /\
      Forall (fun a => duration a <> None) (attempts r)
  | (Raised e, _) => is_Exception e = false
  end /\
  match execute_with_retry_sync rt operation config error_checker
          (enter w st) with
  | (Returned r, f') =>
      (average_attempt_duration r = None <-> attempts r = []) /\
      Forall (fun a => duration a <> None) (attempts r)
  | (Raised e, _) => is_Exception e = false
  end.
Proof.
  apply (@either_method_finished W T rt operation config error_checker
           abort_checker w st
           (fun r (f' : Frame W) =>
              (average_attempt_duration r = None <-> attempts r = []) /\
              Forall (fun a => duration a <> None) (attempts r))).
  intros awaited r f' F. pose proof (f_recorded F) as R.
  assert (D : Forall (fun a => duration a <> None) (attempts r)).
  { apply Forall_forall. intros a Hin.
    rewrite Forall_forall in R. destruct (R a Hin) as [He _].
    unfold duration. destruct (end_time a); [discriminate | contradiction]. }
  split; [|exact D].
  unfold average_attempt_duration.
  destruct (attempts r) as [|a rest]; [split; reflexivity|].
  inversion D as [|a' rest' Ha _]; subst.
  cbn [flat_map]. destruct (duration a) as [d|]; [|contradiction].
  cbn [app]. split; discriminate.
Qed.

End RetryGuarantees.

Section DelayPolicies.

Import retry_strategy retry_properties retry_scenarios.
Import retry_conveniences retry_accounting.

Context {W : Type}.
Variable rt : Runtime W.
Variable config : RetryConfiguration W.

(** X14. With policy [FIXED_DELAY] a valid configuration always waits
    [base_delay], whatever the attempt number and the last error, and
    [calculate_delay] leaves the world alone. *)
Theorem fixed_delay_is_base_delay (n : Z) (err : option PyException)
    (w : W) :
  valid config -> policy config = FIXED_DELAY ->
  exists d : Q,
    calculate_delay rt n config err w = (Returned d, w) /\
    (d == base_delay config)%Q.
Proof.
  intros V Hp. destruct (valid_inv V) as (_ & B0 & BM).
  unfold calculate_delay. rewrite Hp. unfold bind, ret.
  eexists. split; [reflexivity|].
  rewrite py_max_spec, py_min_spec.
  rewrite (Q.min_l _ _ BM). apply Q.max_r. exact B0.
Qed.

Lemma linear_delay_value (n : Z) (err : option PyException) (w : W) :
  policy config = LINEAR_BACKOFF -> overflows (inject_Z n) = false ->
  calculate_delay rt n config err w
  = (Returned (py_max 0 (py_min (base_delay config * inject_Z n)
                                (max_delay config))), w).
Proof.
  intros Hp R. unfold calculate_delay. rewrite Hp. unfold bind.
  rewrite py_float_in_range by exact R. reflexivity.
Qed.

Lemma linear_delay_overflow (n : Z) (err : option PyException) (w : W) :
  policy config = LINEAR_BACKOFF -> overflows (inject_Z n) = true ->
  exists e, calculate_delay rt n config err w = (Raised e, w) /\
            exc_class e = OverflowError.
Proof.
  intros Hp R. unfold calculate_delay. rewrite Hp. unfold bind.
  destruct (@py_float_out_of_range W n w R) as (e & E & C).
  rewrite E. exists e. split; [reflexivity | exact C].
Qed.

(** X15. With policy [LINEAR_BACKOFF] a valid configuration waits
    [min(max_delay, base_delay * n)] after attempt [n >= 0], and the
    delay does not decrease with [n], as long as the attempt number can
    be converted to a [float]; from the first one that cannot be,
    [calculate_delay] raises [OverflowError]. *)
Theorem linear_backoff_delay (n : Z) (err : option PyException) (w : W) :
  valid config -> policy config = LINEAR_BACKOFF -> (0 <= n)%Z ->
  if overflows (inject_Z n)
  then
    forall (m : Z) (err' : option PyException) (w' : W), (n <= m)%Z ->
    exists e : PyException,
      calculate_delay rt m config err' w' = (Raised e, w') /\
      exc_class e = OverflowError
  else
    exists d : Q,
      calculate_delay rt n config err w = (Returned d, w) /\
      (d == Qmin (max_delay config) (base_delay config * inject_Z n))%Q /\
      forall (m : Z) (err' : option PyException) (w' : W), (n <= m)%Z ->
      if overflows (inject_Z m)
      then exists e : PyException,
             calculate_delay rt m config err' w' = (Raised e, w') /\
             exc_class e = OverflowError
      else exists d' : Q,
             calculate_delay rt m config err' w' = (Returned d', w') /\
             (d <= d')%Q.
Proof.
  intros V Hp Hn. destruct (valid_inv V) as (_ & B0 & BM).
  assert (E : forall k,
    (py_max 0 (py_min (base_delay config * inject_Z k) (max_delay config))
     == Qmax 0 (Qmin (max_delay config) (base_delay config * inject_Z k)))%Q).
  { intros k. rewrite py_max_spec, py_min_spec, Q.min_comm. reflexivity. }
  destruct (overflows (inject_Z n)) eqn:R.
  - intros m err' w' Hnm. apply linear_delay_overflow; [exact Hp|].
    apply (@overflows_above n m); [lia | exact R].
  - eexists. split; [apply linear_delay_value; assumption|]. split.
    + rewrite E. apply Q.max_r. apply Q.min_glb; [lra|].
      apply Qmult_le_0_compat; [exact B0|].
      change 0%Q with (inject_Z 0). rewrite <- Zle_Qle. exact Hn.
    + intros m err' w' Hnm. destruct (overflows (inject_Z m)) eqn:R'.
      * apply linear_delay_overflow; assumption.
      * eexists. split; [apply linear_delay_value; assumption|].
        rewrite !E. apply Q.max_le_compat_l. apply Q.min_le_compat_l.
        rewrite (Qmult_comm (base_delay config)),
          (Qmult_comm (base_delay config)).
        apply Qmult_le_compat_r; [|exact B0].
        rewrite <- Zle_Qle. exact Hnm.
Qed.

(** X16. With policy [RANDOM_JITTER], a multiplier that is not negative
    and a jitter factor between 0 and 1, after attempt [n >= 1]: when
    [multiplier ** (n-1)] has a [float] result and the exponential delay
    is in range too, the delay stays within the jitter factor of the
    exponential delay, capped at [max_delay], for every draw between 0
    and 1 of the random generator; when the power is out of range,
    [calculate_delay] raises [OverflowError] before it draws. *)
Theorem jitter_within_factor (n : Z) (err : option PyException)
    (w w' : W) (u : Q) :
  valid config -> policy config = RANDOM_JITTER -> (1 <= n)%Z ->
  (0 <= backoff_multiplier config)%Q ->
  (0 <= jitter_factor config <= 1)%Q ->
  random_random rt w = (u, w') -> (0 <= u <= 1)%Q ->
  if pow_in_range (backoff_multiplier config) (n - 1)
  then
    overflows (raw_exponential config n) = false ->
    exists d : Q,
      calculate_delay rt n config err w = (Returned d, w') /\
      (Qmin (max_delay config)
            (raw_exponential config n * (1 - jitter_factor config)) <= d)%Q /\
      (d <= Qmin (max_delay config)
                 (raw_exponential config n * (1 + jitter_factor config)))%Q
  else
    exists e : PyException,
      calculate_delay rt n config err w = (Raised e, w) /\
      exc_class e = OverflowError.
Proof.
  intros V Hp Hn Hb [J0 J1] Hu [U0 U1].
  destruct (valid_inv V) as (_ & B0 & BM).
  pose proof (raw_exponential_nonneg V n Hb) as R0.
  destruct (pow_in_range (backoff_multiplier config) (n - 1)) eqn:R.
  - intros _.
    unfold calculate_delay. rewrite Hp. unfold bind, total, ret.
    rewrite py_pow_in_range by (lia || exact R). rewrite Hu.
    eexists. split; [reflexivity|].
    fold (raw_exponential config n).
    set (raw := raw_exponential config n) in *.
    set (jf := jitter_factor config) in *.
    rewrite py_max_spec, py_min_spec.
    assert (RJ : (0 <= raw * jf)%Q) by (apply Qmult_le_0_compat; assumption).
    assert (RU : (0 <= raw * jf * u)%Q)
      by (apply Qmult_le_0_compat; assumption).
    assert (RV : (0 <= raw * jf * (1 - u))%Q)
      by (apply Qmult_le_0_compat; [assumption | lra]).
    assert (P : (0 <= raw * (1 - jf))%Q)
      by (apply Qmult_le_0_compat; [assumption | lra]).
    assert (L : (raw * (1 - jf) <= raw + raw * jf * (2 * u - 1))%Q) by lra.
    assert (H : (raw + raw * jf * (2 * u - 1) <= raw * (1 + jf))%Q) by lra.
    split.
    + apply Qle_trans with (Qmin (raw + raw * jf * (2 * u - 1))
                                 (max_delay config)).
      * rewrite Q.min_comm. apply Q.min_le_compat_r. exact L.
      * apply Q.le_max_r.
    + apply Q.max_lub.
      * apply Q.min_glb; lra.
      * rewrite Q.min_comm. apply Q.min_le_compat_l. exact H.
  - unfold calculate_delay. rewrite Hp. unfold bind.
    destruct (@py_pow_out_of_range W (backoff_multiplier config) (n - 1) w)
      as (e & E & C); [lia | exact R |].
    rewrite E. exists e. split; [reflexivity | exact C].
Qed.

End DelayPolicies.

Section Conveniences.

Import retry_strategy retry_properties retry_scenarios.
Import retry_conveniences retry_accounting.

(** X17. For consistent counters [get_stats] reports a success rate
    between 0 and 1 and an average number of attempts that is not
    negative; with no execution yet both are 0. *)
Theorem success_rate_is_a_fraction (s : Stats) :
  consistent s ->
  (0 <= success_rate (get_stats s) <= 1)%Q /\
  (0 <= average_attempts (get_stats s))%Q /\
  ((total_executions s <= 0)%Z ->
   success_rate (get_stats s) = 0%Q /\ average_attempts (get_stats s) = 0%Q).
Proof.
  intros (C1 & C2 & C3 & C4 & C5). unfold get_stats.
  destruct (total_executions s >? 0)%Z eqn:E.
  - apply Z.gtb_lt in E.
    destruct (total_executions s) as [|p|p] eqn:Et; try lia.
    cbn [success_rate average_attempts].
    assert (Hp : (0 < inject_Z (Z.pos p))%Q).
    { change 0%Q with (inject_Z 0). rewrite <- Zlt_Qlt. lia. }
    repeat split.
    + apply Qle_shift_div_l; [exact Hp|]. rewrite Qmult_0_l.
      change 0%Q with (inject_Z 0). rewrite <- Zle_Qle. exact C1.
    + apply Qle_shift_div_r; [exact Hp|]. rewrite Qmult_1_l.
      rewrite <- Zle_Qle. lia.
    + apply Qle_shift_div_l; [exact Hp|]. rewrite Qmult_0_l.
      change 0%Q with (inject_Z 0). rewrite <- Zle_Qle. exact C4.
    + lia.
    + lia.
  - cbn [success_rate average_attempts].
    repeat split; try reflexivity; try lra.
Qed.

(** X18. [temporary_errors] accepts exactly the errors [network_errors]
    accepts: the two classes it tests for on its own are among those
    [network_errors] tests first. *)
Theorem temporary_errors_are_network_errors
    (isinstance : PyException -> string -> bool) (lower : string -> string)
    (error : PyException) :
  temporary_errors isinstance lower error
  = network_errors isinstance lower error.
Proof.
  unfold temporary_errors, network_errors, isinstance_any.
  cbn [existsb].
  destruct (isinstance error "ConnectionError"%string),
           (isinstance error "TimeoutError"%string),
           (isinstance error "OSError"%string); cbn [orb];
    rewrite ?orb_false_r, ?orb_true_r; reflexivity.
Qed.

End Conveniences.

Section FactoryAndCallers.

Import retry_strategy retry_properties retry_scenarios.
Import retry_conveniences retry_accounting retry_factory.
Import twitcasting_recorder retry_examples.

(** X19. Every configuration the factory builds passes the validation of
    the constructor. With it, [calculate_delay] returns a delay between
    0 and the configuration's [max_delay] for every attempt number from
    1 to 1024; for a larger one it returns such a delay or raises
    [OverflowError], the multiplier's power or the attempt number being
    out of the range of [float]. *)
Theorem factory_delays_within_bounds {W : Type} (rt : Runtime W)
    (config : RetryConfiguration W) (n : Z) (err : option PyException)
    (w : W) :
  In config factory_configurations -> (1 <= n)%Z ->
  valid config /\
  match calculate_delay rt n config err w with
  | (Returned d, _) => (0 <= d <= max_delay config)%Q
  | (Raised e, _) => exc_class e = OverflowError /\ (1024 < n)%Z
  end.
Proof.
  intros Hin Hn.
  assert (V : valid config).
  { cbn [factory_configurations In] in Hin.
    repeat (destruct Hin as [<-|Hin]; [reflexivity|]). contradiction. }
  split; [exact V|].
  assert (NC : takes_custom_branch config = false).
  { cbn [factory_configurations In] in Hin.
    repeat (destruct Hin as [<-|Hin]; [reflexivity|]). contradiction. }
  assert (M : (0 <= backoff_multiplier config <= 2)%Q).
  { cbn [factory_configurations In] in Hin.
    repeat (destruct Hin as [<-|Hin];
            [cbn [backoff_multiplier create_default create_aggressive
                  create_conservative create_quick create_network_operation
                  create_file_operation create_recording_operation]; lra|]).
    contradiction. }
  destruct (calculate_delay rt n config err w) as [[d|e] w'] eqn:R.
  - exact (calculate_delay_clamped rt n err w V NC R).
  - unfold takes_custom_branch in NC.
    assert (Lp : pow_in_range (backoff_multiplier config) (n - 1) = false ->
                 (1024 < n)%Z).
    { intros I. destruct (Z_lt_le_dec 1024 n) as [L|L]; [exact L|].
      rewrite small_power_in_range in I; [discriminate I | exact M | lia]. }
    assert (Lf : overflows (inject_Z n) = true -> (1024 < n)%Z).
    { intros I. destruct (Z_lt_le_dec 1024 n) as [L|L]; [exact L|].
      rewrite overflows_nonneg in I;
        [discriminate I | apply inject_Z_nonneg; lia|].
      apply Qle_lt_trans with (inject_Z 1024); [|reflexivity].
      rewrite <- Zle_Qle. exact L. }
    revert R. unfold calculate_delay.
    destruct (policy config), (custom_delay_func config);
      try discriminate NC;
      unfold bind, total, ret;
      try discriminate.
    all: try (destruct (pow_in_range (backoff_multiplier config) (n - 1))
                eqn:I;
              [rewrite py_pow_in_range by (lia || exact I);
               try destruct (random_random rt w); discriminate
              |destruct (@py_pow_out_of_range W (backoff_multiplier config)
                           (n - 1) w) as (e' & E & C); [lia | exact I |];
               rewrite E; intros R; injection R as <- _;
               split; [exact C | exact (Lp eq_refl)]]).
    all: destruct (overflows (inject_Z n)) eqn:I;
      [destruct (@py_float_out_of_range W n w I) as (e' & E & C);
       rewrite E; intros R; injection R as <- _;
       split; [exact C | exact (Lf eq_refl)]
      |rewrite py_float_in_range by exact I; discriminate].
Qed.

(** X20. The error checker of the recorder accepts what [network_errors]
    accepts and, besides, every error whose text mentions "temporary":
    its other two keywords are among those [network_errors] looks for. *)
Theorem is_retryable_error_adds_temporary
    (isinstance : PyException -> string -> bool) (lower : string -> string)
    (error : PyException) :
  is_retryable_error isinstance lower error
  = network_errors isinstance lower error
    || contains "temporary" (lower (exc_str error)).
Proof.
  unfold is_retryable_error.
  destruct (network_errors isinstance lower error) eqn:N; [reflexivity|].
  unfold network_errors in N.
  destruct (isinstance_any isinstance error _); [discriminate|].
  cbn [existsb] in N.
  repeat match type of N with
  | (_ || _)%bool = false =>
      apply orb_false_iff in N;
      let H := fresh "K" in destruct N as [H N]
  end.
  cbn [existsb orb]. rewrite K, K1. cbn [orb].
  rewrite orb_false_r. reflexivity.
Qed.

End FactoryAndCallers.

(* ================================================================== *)
(** * More properties of the process engine *)
(* ================================================================== *)

Section ProcessBookkeeping.

Import process_engine process_properties process_scenarios.
Import process_registry process_bookkeeping.

Context {P : Type}.
Variable sys : System P.

(** ** The registry *)









(** ** Code that leaves the registry, the counters and the monitors
    alone *)




















Lemma bind_gets {S A B : Type} (f : S -> A) (k : A -> eff S B) (s : S) :
  bind (gets f) k s = k (f s) s.
Proof. reflexivity. Qed.








(** ** [AsyncProcessEngine.execute_process] *)












(** ** [ProcessTerminator.terminate_gracefully] *)

Ltac innermost_scrutinee t :=
  lazymatch t with
  | context [match ?x with _ => _ end] => innermost_scrutinee x
  | _ => destruct t eqn:?
  end.

Ltac run_termination :=
  repeat (cbn [fst snd world active_processes stats actions];
          match goal with
          | |- context [match ?x with _ => _ end] => innermost_scrutinee x
          end);
  cbn [fst snd world active_processes stats actions].

(** X24. The stages of a termination are taken in order and each at most
    once: the steps [terminate_gracefully] adds are a prefix of
    terminate, kill, OS-level kill, empty exactly when the process had
    already exited. The registry and the counters are not touched, and
    no exception deriving from [Exception] comes out. *)
Theorem terminate_escalates_in_order (process : Process P)
    (timeout_term timeout_kill : Q) (s : Engine P) :
  match terminate_gracefully sys process timeout_term timeout_kill s with
  | (o, s') =>
      bookkeeping_kept s s' /\
      (exists k, actions s' = actions s ++ firstn k escalation /\
                 (k = 0%nat <-> returncode process (world s) <> None)) /\
      match o with
      | Returned _ => True
      | Raised e => is_Exception e = false
      end
  end.
Proof.
  unfold terminate_gracefully, read_returncode, try_except, bind, gets, log,
    modify, call, ret, any_exception.
  run_termination;
    (split; [split; reflexivity|]);
    (split; [|first [exact I | assumption]]);
    first
      [ exists 0%nat; split; [symmetry; apply app_nil_r|];
        split; [intros _; congruence | reflexivity]
      | exists 1%nat; split; [reflexivity|];
        split; [discriminate | intros H; congruence]
      | exists 2%nat; split; [rewrite <- !app_assoc; reflexivity|];
        split; [discriminate | intros H; congruence]
      | exists 3%nat; split; [rewrite <- !app_assoc; reflexivity|];
        split; [discriminate | intros H; congruence] ].
Qed.

(** ** [AsyncProcessEngine.terminate_process] *)


(** ** [ProcessMonitor] *)

Lemma skipn_nth_error {A : Type} (l : list A) (i : nat) (x : A) :
  nth_error l i = Some x -> skipn i l = x :: skipn (S i) l.
Proof.
  revert i. induction l as [|y l IH]; intros [|i] H; try discriminate H.
  - injection H as ->. reflexivity.
  - cbn [nth_error] in H. cbn [skipn]. rewrite (IH i H). reflexivity.
Qed.

(** The loop of [_notify_observers] from position [i] on, when no
    observer edits the list. *)
Lemma deliver_all (self : Monitor P) (event : MonitorEvent)
    (obs : list (MonitorEvent -> eff P unit)) (steps i : nat)
    (s : Engine P) :
  Forall (well_behaved event) obs ->
  Forall (keeps_observers self event) obs ->
  observers (deref self (world s)) = obs ->
  (List.length obs <= i + steps)%nat ->
  deliver steps self i event s
  = (Returned tt,
     mkEngine (notified (skipn i obs) event (world s)) (active_processes s)
              (stats s) (actions s)).
Proof.
  intros Hb Hk. revert i s.
  induction steps as [|steps IH]; intros i s Ho Hl.
  - cbn [deliver]. unfold ret. rewrite skipn_all2 by lia.
    destruct s. reflexivity.
  - cbn [deliver]. rewrite bind_gets. rewrite Ho.
    destruct (nth_error obs i) as [observer|] eqn:N.
    + rewrite (skipn_nth_error _ _ N). unfold notified. cbn [fold_left].
      assert (Hin : In observer obs) by (eapply nth_error_In; exact N).
      rewrite Forall_forall in Hb, Hk.
      pose proof (Hb observer Hin (world s)) as B.
      pose proof (Hk observer Hin (world s)) as K.
      unfold bind, try_except, call, ret.
      destruct (observer event (world s)) as [[[]|e] w]; cbn [fst snd] in *.
      * rewrite IH; [reflexivity | cbn [world]; congruence | lia].
      * rewrite B. rewrite IH; [reflexivity | cbn [world]; congruence | lia].
    + apply nth_error_None in N. unfold ret.
      rewrite skipn_all2 by exact N. destruct s. reflexivity.
Qed.

(** X26. When no observer edits the list of observers while an event is
    delivered, every observer registered at that moment is notified, in
    the order of registration, also after an observer before it failed:
    if the observers raise nothing but [Exception]s,
    [_notify_observers] returns, and the world is the one every observer
    in turn has acted on. *)
Theorem observers_are_all_notified (self : Monitor P)
    (event : MonitorEvent) (s : Engine P) :
  (List.length (observers (deref self (world s))) <= maxsize sys)%nat ->
  Forall (well_behaved event) (observers (deref self (world s))) ->
  Forall (keeps_observers self event) (observers (deref self (world s))) ->
  notify_observers sys self event s
  = (Returned tt,
     mkEngine (notified (observers (deref self (world s))) event (world s))
              (active_processes s) (stats s) (actions s)).
Proof.
  intros Hl Hb Hk. unfold notify_observers.
  rewrite (@deliver_all self event (observers (deref self (world s)))
             (maxsize sys) 0 s Hb Hk eq_refl Hl).
  reflexivity.
Qed.

(** X27. Nothing that goes wrong while the output is collected reaches
    the caller: [collect_output] always returns, and when reading
    [stdout] raises anything at all, a cancellation included, both texts
    are empty and [stderr] is not read. *)
Theorem collect_output_swallows_errors (process : Process P)
    (s : Engine P) :
  exists out s',
    collect_output process s = (Returned out, s') /\
    forall read e w',
      stdout_stream process = Some read ->
      read (world s) = (Raised e, w') ->
      out = (EmptyString, EmptyString) /\ world s' = w'.
Proof.
  unfold collect_output, read_stream, try_except, bind, call, ret,
    any_exception.
  run_termination;
    eexists; eexists; (split; [reflexivity|]);
    intros rd err0 wend Hr He; inversion Hr; subst rd;
    cbn [world] in *;
    try congruence.
  rewrite He in *.
  repeat match goal with
  | H : (_, _) = (_, _) |- _ => inversion H; clear H; subst
  end.
  split; reflexivity.
Qed.

(** X28. Removing an observer undoes adding it: a monitor that did not
    have the observer is as it was, and of an observer that was added
    twice one registration stays. *)
Theorem remove_undoes_add
    (same : (MonitorEvent -> eff P unit) ->
            (MonitorEvent -> eff P unit) -> bool)
    (monitor : ProcessMonitor P) (observer : MonitorEvent -> eff P unit) :
  same observer observer = true ->
  existsb (fun y => same y observer) (observers monitor) = false ->
  remove_observer same (add_observer monitor observer) observer = monitor /\
  remove_observer same
    (add_observer (add_observer monitor observer) observer) observer
  = add_observer monitor observer.
Proof.
  intros Hrefl Hnew.
  assert (R : forall l tail,
            existsb (fun y => same y observer) l = false ->
            list_remove same observer (l ++ observer :: tail) = l ++ tail).
  { intros l tail. induction l as [|y l IH]; cbn [app list_remove existsb].
    - intros _. rewrite Hrefl. reflexivity.
    - intros H. apply orb_false_iff in H. destruct H as [H1 H2].
      rewrite H1, (IH H2). reflexivity. }
  destruct monitor as [obs monitoring tasks]. cbn [observers] in Hnew.
  unfold remove_observer, add_observer.
  cbn [observers is_monitoring _monitor_tasks].
  split.
  - rewrite existsb_app. cbn [existsb]. rewrite Hrefl, orb_true_r.
    rewrite (R obs [] Hnew), app_nil_r. reflexivity.
  - rewrite existsb_app. cbn [existsb]. rewrite Hrefl, orb_true_r.
    rewrite <- app_assoc. cbn [app].
    rewrite (R obs [observer] Hnew). reflexivity.
Qed.

End ProcessBookkeeping.

(* ================================================================== *)
(** * The guarantees at concrete inputs *)
(* ================================================================== *)

Section Instances.

Import retry_strategy retry_properties retry_scenarios.
Import retry_conveniences retry_accounting retry_factory.
Import twitcasting_recorder retry_examples.
Import process_engine process_properties process_scenarios.
Import process_registry process_bookkeeping process_examples.

(** X9, at a concrete input. The delay bounds, at an operation that
    fails twice and then succeeds under the default configuration. *)
Lemma recorded_delays_within_bounds_witness :
  match execute_with_retry counting_runtime third_time_lucky create_default
          None None (enter 0%nat fresh_stats) with
  | (Returned r, f') =>
      Forall (fun a =>
                (0 <= delay_before a <= max_delay (@create_default nat))%Q)
             (attempts r)
  | (Raised e, _) => is_Exception e = false
  end /\
  match execute_with_retry_sync counting_runtime third_time_lucky
          create_default None (enter 0%nat fresh_stats) with
  | (Returned r, f') =>
      Forall (fun a =>
                (0 <= delay_before a <= max_delay (@create_default nat))%Q)
             (attempts r)
  | (Raised e, _) => is_Exception e = false
  end.
Proof.
  apply (@recorded_delays_within_bounds nat nat counting_runtime
           third_time_lucky create_default None None 0%nat fresh_stats).
  - reflexivity.
  - reflexivity.
Defined.

(** X8, at a concrete input. The deadline checks, at a clock that has
    passed the five second deadline at the first check. *)
Lemma attempts_start_before_the_deadline_witness :
  match execute_with_retry ticking_runtime quick_operation
          five_second_config None None (enter 0%nat fresh_stats) with
  | (Returned r, f') =>
      exists passed final,
        timeout_checks (trace f') = passed ++ final /\
        Forall (fun t => (t < 5)%Q) passed /\
        (List.length (attempts r) <= List.length passed)%nat /\
        (final = [] \/
         (result r = TIMEOUT /\ final = [total_duration r] /\
          (5 <= total_duration r)%Q))
  | (Raised e, _) => is_Exception e = false
  end /\
  match execute_with_retry_sync ticking_runtime quick_operation
          five_second_config None (enter 0%nat fresh_stats) with
  | (Returned r, f') =>
      exists passed final,
        timeout_checks (trace f') = passed ++ final /\
        Forall (fun t => (t < 5)%Q) passed /\
        (List.length (attempts r) <= List.length passed)%nat /\
        (final = [] \/
         (result r = TIMEOUT /\ final = [total_duration r] /\
          (5 <= total_duration r)%Q))
  | (Raised e, _) => is_Exception e = false
  end.
Proof.
  apply (@attempts_start_before_the_deadline nat nat ticking_runtime
           quick_operation five_second_config None None 0%nat fresh_stats
           5%Q).
  - reflexivity.
  - reflexivity.
Defined.

(** X10, at a concrete input. Consistency of the counters, from the
    counters of a new executor. *)
Lemma statistics_stay_consistent_witness :
  match execute_with_retry counting_runtime third_time_lucky create_default
          None None (enter 0%nat fresh_stats) with
  | (Returned r, f') => consistent (retry_strategy.stats f')
  | (Raised e, _) => is_Exception e = false
  end /\
  match execute_with_retry_sync counting_runtime third_time_lucky
          create_default None (enter 0%nat fresh_stats) with
  | (Returned r, f') => consistent (retry_strategy.stats f')
  | (Raised e, _) => is_Exception e = false
  end.
Proof.
  apply (@statistics_stay_consistent nat nat counting_runtime
           third_time_lucky create_default None None 0%nat fresh_stats).
  unfold consistent, fresh_stats. simpl. lia.
Defined.

(** X12, at a concrete input. A coroutine function under the default
    configuration. *)
Lemma sync_method_never_awaits_witness :
  exists r f',
    execute_with_retry_sync counting_runtime coroutine_function
      create_default None (enter 0%nat fresh_stats)
    = (Returned r, f') /\
    result r = SUCCESS /\ value r = Some (@CoroutineObject nat) /\
    List.length (attempts r) = 1%nat /\
    retry_strategy.world f'
    = snd (retry_strategy.datetime_now counting_runtime
             (snd (retry_strategy.datetime_now counting_runtime
                     (snd (retry_strategy.datetime_now counting_runtime
                             (snd (retry_strategy.datetime_now
                                     counting_runtime 0%nat))))))).
Proof.
  apply (@sync_method_never_awaits nat nat counting_runtime
           coroutine_function create_default None 0%nat fresh_stats).
  - reflexivity.
  - simpl. lia.
  - reflexivity.
Defined.

(** X14, at a concrete input. The conservative configuration waits its 5
    seconds. *)
Lemma fixed_delay_is_base_delay_witness :
  exists d : Q,
    calculate_delay still_runtime 2 create_conservative None tt
    = (Returned d, tt) /\
    (d == base_delay (@create_conservative unit))%Q.
Proof.
  apply (@fixed_delay_is_base_delay unit still_runtime create_conservative
           2 None tt).
  - reflexivity.
  - reflexivity.
Defined.

(** X15, at a concrete input. The configuration for file operations,
    after the second attempt. *)
Lemma linear_backoff_delay_witness :
  exists d : Q,
    calculate_delay still_runtime 2 create_file_operation None tt
    = (Returned d, tt) /\
    (d == Qmin (max_delay (@create_file_operation unit))
               (base_delay (@create_file_operation unit) * inject_Z 2))%Q /\
    forall (m : Z) (err' : option PyException) (w' : unit), (2 <= m)%Z ->
    if overflows (inject_Z m)
    then exists e : PyException,
           calculate_delay still_runtime m create_file_operation err' w'
           = (Raised e, w') /\
           exc_class e = OverflowError
    else exists d' : Q,
           calculate_delay still_runtime m create_file_operation err' w'
           = (Returned d', w') /\
           (d <= d')%Q.
Proof.
  exact (@linear_backoff_delay unit still_runtime create_file_operation
           2 None tt eq_refl eq_refl ltac:(lia)).
Defined.

(** X15, where the attempt number is too large: [2 ** 1024] cannot be
    converted to a [float]. *)
Example linear_backoff_overflows :
  exists e : PyException,
    calculate_delay still_runtime (2 ^ 1024) create_file_operation None tt
    = (Raised e, tt) /\
    exc_class e = OverflowError.
Proof. eexists. split; reflexivity. Qed.

(** X16, at a concrete input. The configuration for network operations,
    after the third attempt, with a draw of one half. *)
Lemma jitter_within_factor_witness :
  exists d : Q,
    calculate_delay still_runtime 3 create_network_operation None tt
    = (Returned d, tt) /\
    (Qmin (max_delay (@create_network_operation unit))
          (raw_exponential (@create_network_operation unit) 3
           * (1 - jitter_factor (@create_network_operation unit))) <= d)%Q /\
    (d <= Qmin (max_delay (@create_network_operation unit))
               (raw_exponential (@create_network_operation unit) 3
                * (1 + jitter_factor (@create_network_operation unit))))%Q.
Proof.
  refine (@jitter_within_factor unit still_runtime create_network_operation
            3 None tt tt (1#2) eq_refl eq_refl _ _ _ eq_refl _ eq_refl).
  - lia.
  - simpl. lra.
  - simpl. lra.
  - lra.
Defined.

(** X17, at a concrete input. Three successes in four executions. *)
Lemma success_rate_is_a_fraction_witness :
  (0 <= success_rate (retry_conveniences.get_stats busy_stats) <= 1)%Q /\
  (0 <= average_attempts (retry_conveniences.get_stats busy_stats))%Q /\
  ((retry_strategy.total_executions busy_stats <= 0)%Z ->
   success_rate (retry_conveniences.get_stats busy_stats) = 0%Q /\
   average_attempts (retry_conveniences.get_stats busy_stats) = 0%Q).
Proof.
  apply (@success_rate_is_a_fraction busy_stats).
  unfold consistent, busy_stats. simpl. lia.
Defined.

(** X19, at a concrete input. The configuration for recordings, after
    the second attempt. *)
Lemma factory_delays_within_bounds_witness :
  valid (@create_recording_operation unit) /\
  match calculate_delay still_runtime 2 create_recording_operation None tt
  with
  | (Returned d, _) =>
      (0 <= d <= max_delay (@create_recording_operation unit))%Q
  | (Raised e, _) => exc_class e = OverflowError /\ (1024 < 2)%Z
  end.
Proof.
  apply (@factory_delays_within_bounds unit still_runtime
           create_recording_operation 2 None tt).
  - simpl. tauto.
  - lia.
Defined.

(** X26, at a concrete input. Three observers, the second of which
    fails: all three have counted the event. *)
Lemma observers_are_all_notified_witness :
  notify_observers counting_system fixed_monitor started_event idle_counting
  = (Returned tt,
     mkEngine
       (notified [counting_observer; failing_observer; counting_observer]
                 started_event (process_engine.world idle_counting))
       (active_processes idle_counting) (process_engine.stats idle_counting)
       (actions idle_counting)).
Proof.
  apply (@observers_are_all_notified nat counting_system fixed_monitor
           started_event idle_counting).
  - simpl. lia.
  - repeat constructor.
  - repeat constructor.
Defined.

(** X28, at a concrete input. A monitor with no observer yet. *)
Lemma remove_undoes_add_witness :
  remove_observer same_object
    (add_observer (mkMonitor [] false []) counting_observer)
    counting_observer
  = mkMonitor [] false [] /\
  remove_observer same_object
    (add_observer (add_observer (mkMonitor [] false []) counting_observer)
                  counting_observer) counting_observer
  = add_observer (mkMonitor [] false []) counting_observer.
Proof.
  apply (@remove_undoes_add nat same_object (mkMonitor [] false [])
           counting_observer).
  - reflexivity.
  - reflexivity.
Defined.

(** An observer that unregisters itself while the event is delivered
    makes the loop pass over the observer registered after it: of the
    observers 0, 1 and 2, the first of which unregisters itself, only 0
    and 2 see the event. *)
Example unregistering_observer_hides_the_next :
  seen (process_engine.world
          (snd (notify_observers interrupting_system board_monitor
                  started_event three_observers)))
  = [0; 2]%nat.
Proof. reflexivity. Qed.

(** The try block fails after the monitor was started, and the caller is
    cancelled while the handler awaits the monitor's tasks: the call
    raises [CancelledError], and the failure stays counted. *)
Example cancelled_in_the_handler :
  fst (execute_process interrupting_system record_request
         (Some [board_monitor]) three_observers)
  = Raised cancelled_error /\
  process_engine.stats (snd (execute_process interrupting_system record_request
                (Some [board_monitor]) three_observers))
  = process_engine.mkStats 1 0 1 0.
Proof. split; reflexivity. Qed.

End Instances.
